(** * Monthly spend analysis of the finance tracker

    A shallow embedding of the analysis engine of
    [finance-tracker/src/App.tsx]: [detectRecurring], [analyze] and the
    [suggestions] ranker, with the properties the specification states
    about them; and, around the engine, of the expense table, the
    handlers and the budget panel of the page, of the budgets of the data
    service and of the identifiers exchanged with the backend.

    Modelling choices, fixed once for the whole development:

    - A JavaScript number is an exact real or [NaN] (module [Js]): the
      arithmetic of the engine is followed operation by operation, [NaN]
      included, without the rounding to binary64, the overflow and the
      two infinities.  Where a rounding can decide the outcome (the
      outlier test, the recurrence test, the percentage of the Trim Wants
      body) the computation is followed on binary64 numbers as well
      (module [B64]).  What is stated in the exact model about sums that
      are compared or equated is stated for whole amounts, which binary64
      adds without rounding.
    - A plain object used as a dictionary is an association list in
      creation order; [Object.entries] and [Object.keys] list integer-like
      keys first, in ascending order, then the other keys in creation
      order.  An object created by [{}] inherits the properties of
      [Object.prototype]: the counters of [analyze] follow what a read and
      a write under one of these names do ([bump]), and so does the
      assignment of the budgets ([assign]); [detectRecurring], which under
      such a name writes to objects shared by the whole program, is
      followed on plain names only.
    - [Array.prototype.sort] is a stable insertion sort driven by the sign
      of the comparator, a [NaN] result counting as zero.
    - A string is a sequence of code units below 256.
    - [monthKey] goes through the host [Date] object and its time zone, so
      the engine is parameterised by it; [isoMonthKey] is the instance for
      ISO dates used in the closed examples. *)

From Stdlib Require Import String Ascii List Bool Arith ZArith NArith.
From Stdlib Require Import Reals Lra Lia Permutation Sorted DecimalString.
From Stdlib Require Import DecimalNat.
From Stdlib Require Floats Uint63 OrderedTypeEx.
Import ListNotations.

Set Implicit Arguments.

(** ** JavaScript values *)

Module Js.

Local Open Scope R_scope.

(** Numbers: a real or NaN. *)
Inductive num : Type :=
| Fin (r : R)
| NaN.

Definition zero : num := Fin 0.

Definition add (a b : num) : num :=
  match a, b with
  | Fin x, Fin y => Fin (x + y)
  | _, _ => NaN
  end.

Definition sub (a b : num) : num :=
  match a, b with
  | Fin x, Fin y => Fin (x - y)
  | _, _ => NaN
  end.

Definition mul (a b : num) : num :=
  match a, b with
  | Fin x, Fin y => Fin (x * y)
  | _, _ => NaN
  end.

(** [a / b].  A zero divisor gives an infinity in JavaScript (or NaN for
    0/0); the engine only divides by the length of a non-empty array, by a
    deviation it has just tested positive, or by [total || 1], so that
    branch is never reached by the code below. *)
Definition div (a b : num) : num :=
  match a, b with
  | Fin x, Fin y => if Req_dec_T y 0 then NaN else Fin (x / y)
  | _, _ => NaN
  end.

(** [x ** 2] *)
Definition sq (a : num) : num := mul a a.

(** [Math.sqrt]: NaN below zero. *)
Definition sqrt (a : num) : num :=
  match a with
  | Fin x => if Rlt_dec x 0 then NaN else Fin (R_sqrt.sqrt x)
  | NaN => NaN
  end.

(** [Math.abs] *)
Definition abs (a : num) : num :=
  match a with
  | Fin x => Fin (Rabs x)
  | NaN => NaN
  end.

(** [Math.max] and [Math.min]: NaN as soon as one argument is. *)
Definition max (a b : num) : num :=
  match a, b with
  | Fin x, Fin y => Fin (Rmax x y)
  | _, _ => NaN
  end.

Definition min (a b : num) : num :=
  match a, b with
  | Fin x, Fin y => Fin (Rmin x y)
  | _, _ => NaN
  end.

(** [Math.round]: the integer nearest to [x], halves going up. *)
Definition round (a : num) : num :=
  match a with
  | Fin x => Fin (IZR (Int_part (x + / 2)))
  | NaN => NaN
  end.

(** [Math.ceil] *)
Definition ceil (a : num) : num :=
  match a with
  | Fin x => Fin (- IZR (Int_part (- x)))
  | NaN => NaN
  end.

(** The length of an array, as a number. *)
Definition ofNat (n : nat) : num := Fin (INR n).

(** Comparisons: every comparison with NaN is false. *)
Definition lt (a b : num) : bool :=
  match a, b with
  | Fin x, Fin y => if Rlt_dec x y then true else false
  | _, _ => false
  end.

Definition le (a b : num) : bool :=
  match a, b with
  | Fin x, Fin y => if Rle_dec x y then true else false
  | _, _ => false
  end.

Definition gt (a b : num) : bool := lt b a.
Definition ge (a b : num) : bool := le b a.

(** Truthiness of a number: 0 and NaN are falsy. *)
Definition truthy (a : num) : bool :=
  match a with
  | Fin x => if Req_dec_T x 0 then false else true
  | NaN => false
  end.

(** [x || d] where [x] is a number. *)
Definition orNum (x d : num) : num := if truthy x then x else d.

(** [o[k] || d] where the lookup may be [undefined]. *)
Definition orElse (x : option num) (d : num) : num :=
  match x with
  | Some v => orNum v d
  | None => d
  end.

(** *** Untyped values

    What the [amount] field can hold at run time when the payload does not
    respect the declared type [number]. *)
Inductive value : Type :=
| Undefined
| Null
| Num (n : num)
| Str (s : string).

Definition isDigit (c : ascii) : bool :=
  let n := nat_of_ascii c in (48 <=? n)%nat && (n <=? 57)%nat.

(** White space and line terminators among the code units below 256:
    U+0009 to U+000D, the space and the no-break space. *)
Definition isSpace (c : ascii) : bool :=
  let n := nat_of_ascii c in
  ((9 <=? n)%nat && (n <=? 13)%nat) || (n =? 32)%nat || (n =? 160)%nat.

Definition digitVal (c : ascii) : Z := Z.of_nat (nat_of_ascii c - 48).

Fixpoint dropSpace (l : list ascii) : list ascii :=
  match l with
  | c :: l' => if isSpace c then dropSpace l' else l
  | [] => []
  end.

Definition trim (l : list ascii) : list ascii :=
  rev (dropSpace (rev (dropSpace l))).

(** Reads a run of digits: its value, its length and what follows. *)
Fixpoint digits (l : list ascii) (acc : Z) (n : nat) : Z * nat * list ascii :=
  match l with
  | c :: l' => if isDigit c then digits l' (10 * acc + digitVal c)%Z (S n)
               else (acc, n, l)
  | [] => (acc, n, [])
  end.

(** The exponent part, after the [e]. *)
Definition exponent (l : list ascii) : option Z :=
  let '(neg, l1) :=
    match l with
    | "-"%char :: l' => (true, l')
    | "+"%char :: l' => (false, l')
    | _ => (false, l)
    end in
  match digits l1 0 0 with
  | (_, O, _) => None
  | (v, _, []) => Some (if neg then (- v)%Z else v)
  | _ => None
  end.

(** An unsigned decimal literal: [12], [12.5], [12.], [.5], each with an
    optional exponent. *)
Definition unsignedDecimal (l : list ascii) : option R :=
  let '(ip, ni, l1) := digits l 0 0 in
  let '(fp, nf, l2) :=
    match l1 with
    | "."%char :: l' => digits l' 0 0
    | _ => (0%Z, O, l1)
    end in
  if ((ni + nf =? 0)%nat) then None
  else
    let mant := IZR ip + IZR fp / powerRZ 10 (Z.of_nat nf) in
    match l2 with
    | [] => Some mant
    | c :: l3 =>
        if (Ascii.eqb c "e" || Ascii.eqb c "E")%bool then
          match exponent l3 with
          | Some e => Some (mant * powerRZ 10 e)
          | None => None
          end
        else None
    end.

Definition hexVal (c : ascii) : option Z :=
  let n := nat_of_ascii c in
  if isDigit c then Some (Z.of_nat (n - 48))
  else if ((97 <=? n) && (n <=? 102))%nat then Some (Z.of_nat (n - 87))
  else if ((65 <=? n) && (n <=? 70))%nat then Some (Z.of_nat (n - 55))
  else None.

(** The digits of a literal with a radix prefix, all of them below the
    base. *)
Fixpoint radixDigits (base : Z) (l : list ascii) (acc : Z) : option Z :=
  match l with
  | [] => Some acc
  | c :: l' =>
      match hexVal c with
      | Some v =>
          if (v <? base)%Z then radixDigits base l' (base * acc + v)%Z
          else None
      | None => None
      end
  end.

Definition radixLiteral (base : Z) (l : list ascii) : option Z :=
  match l with
  | [] => None
  | _ => radixDigits base l 0
  end.

(** What a string reads as: a number with a real value, one of the two
    infinities, or nothing. *)
Inductive parsed : Type :=
| Finite (r : R)
| Infinite (negative : bool)
| NotNumeric.

(** A decimal literal or the word [Infinity], after the sign. *)
Definition unsignedLiteral (negative : bool) (l : list ascii) : parsed :=
  if String.eqb (string_of_list_ascii l) "Infinity" then Infinite negative
  else
    match unsignedDecimal l with
    | Some r => Finite (if negative then - r else r)
    | None => NotNumeric
    end.

(** The numeric string grammar on strings of code units below 256:
    surrounding white space, then nothing (which is 0), or a binary, octal
    or hexadecimal integer with its prefix and no sign, or an optional sign
    and a decimal literal or [Infinity]. *)
Definition parseNumber (s : string) : parsed :=
  match trim (list_ascii_of_string s) with
  | [] => Finite 0
  | "0"%char :: c :: l =>
      let radix (base : Z) :=
        match radixLiteral base l with
        | Some v => Finite (IZR v)
        | None => NotNumeric
        end in
      if (Ascii.eqb c "x" || Ascii.eqb c "X")%bool then radix 16%Z
      else if (Ascii.eqb c "o" || Ascii.eqb c "O")%bool then radix 8%Z
      else if (Ascii.eqb c "b" || Ascii.eqb c "B")%bool then radix 2%Z
      else unsignedLiteral false ("0"%char :: c :: l)
  | "-"%char :: l => unsignedLiteral true l
  | "+"%char :: l => unsignedLiteral false l
  | l => unsignedLiteral false l
  end.

(** [Number(s)] on a string.  The literals [Infinity], [+Infinity] and
    [-Infinity] have no counterpart among the numbers of this model; they
    are left as NaN here, and what is stated about strings is stated of
    [parseNumber], which tells them apart. *)
Definition stringToNumber (s : string) : num :=
  match parseNumber s with
  | Finite r => Fin r
  | Infinite _ => NaN
  | NotNumeric => NaN
  end.

(** [Number(v)] *)
Definition toNumber (v : value) : num :=
  match v with
  | Undefined => NaN
  | Null => Fin 0
  | Num n => n
  | Str s => stringToNumber s
  end.

Definition truthyValue (v : value) : bool :=
  match v with
  | Undefined | Null => false
  | Num n => truthy n
  | Str s => negb (String.eqb s "")
  end.

(** [v || d] *)
Definition orValue (v d : value) : value := if truthyValue v then v else d.

(** *** Objects used as dictionaries *)

Definition obj (V : Type) : Type := list (string * V).

Section Objects.
Variable V : Type.

Fixpoint get (o : obj V) (k : string) : option V :=
  match o with
  | [] => None
  | (k', v) :: o' => if String.eqb k' k then Some v else get o' k
  end.

(** [o[k] = v]: an existing property keeps its place, a new one goes
    last. *)
Fixpoint set (o : obj V) (k : string) (v : V) : obj V :=
  match o with
  | [] => [(k, v)]
  | (k', v') :: o' =>
      if String.eqb k' k then (k', v) :: o' else (k', v') :: set o' k v
  end.

(** [o[k] = v] where [v] is a number, on an object created by [{}].  Under
    the name [__proto__] the assignment reaches the setter of the
    prototype, which ignores a number: nothing is stored. *)
Definition assign (o : obj V) (k : string) (v : V) : obj V :=
  if String.eqb k "__proto__" then o else set o k v.

(** An array index is the canonical decimal form of an integer below
    2^32 - 1. *)
Definition arrayIndex (k : string) : option N :=
  match NilZero.uint_of_string k with
  | Some u =>
      let n := N.of_uint u in
      if (String.eqb (NilZero.string_of_uint (N.to_uint n)) k
          && (n <? 4294967295)%N)%bool
      then Some n else None
  | None => None
  end.

Fixpoint insertIndex (x : N * (string * V)) (l : list (N * (string * V)))
  : list (N * (string * V)) :=
  match l with
  | [] => [x]
  | y :: l' =>
      if (fst x <=? fst y)%N then x :: l else y :: insertIndex x l'
  end.

Definition indexed (o : obj V) : list (N * (string * V)) :=
  flat_map (fun kv => match arrayIndex (fst kv) with
                      | Some n => [(n, kv)]
                      | None => []
                      end) o.

Definition named (o : obj V) : obj V :=
  filter (fun kv => match arrayIndex (fst kv) with
                    | Some _ => false
                    | None => true
                    end) o.

(** [Object.entries(o)] *)
Definition entries (o : obj V) : list (string * V) :=
  map snd (fold_right insertIndex [] (indexed o)) ++ named o.

(** [Object.keys(o)] *)
Definition keys (o : obj V) : list string := map fst (entries o).
End Objects.

(** The properties an object created by [{}] inherits from
    [Object.prototype].  [get] and [set] are about own properties; a read
    [o[k]] that finds no own property finds, under one of these names, a
    function of the prototype (the prototype itself for [__proto__]), and
    a write [o.__proto__ = v] of a number or a string creates nothing. *)
Definition prototypeNames : list string :=
  ["constructor"; "__defineGetter__"; "__defineSetter__"; "hasOwnProperty";
   "__lookupGetter__"; "__lookupSetter__"; "isPrototypeOf";
   "propertyIsEnumerable"; "toString"; "valueOf"; "__proto__";
   "toLocaleString"]%string.

Definition inherited (k : string) : bool :=
  existsb (String.eqb k) prototypeNames.

(** *** Arrays *)

Section Arrays.
Variable A : Type.

(** [x] walks right past every element the comparator puts strictly
    before it. *)
Fixpoint insertBy (cmp : A -> A -> num) (x : A) (l : list A) : list A :=
  match l with
  | [] => [x]
  | y :: l' =>
      if gt (cmp x y) zero then y :: insertBy cmp x l' else x :: l
  end.

(** [arr.sort(cmp)] *)
Definition sortBy (cmp : A -> A -> num) (l : list A) : list A :=
  fold_right (insertBy cmp) [] l.
End Arrays.

(** [arr.sort()] on strings: code-unit order. *)
Fixpoint insertString (x : string) (l : list string) : list string :=
  match l with
  | [] => [x]
  | y :: l' => if String.ltb y x then y :: insertString x l' else x :: l
  end.

Definition sortStrings (l : list string) : list string :=
  fold_right insertString [] l.

(** [new Set(arr)], iterated: first occurrences, in order. *)
Fixpoint setOf (l : list string) : list string :=
  match l with
  | [] => []
  | x :: l' => x :: filter (fun y => negb (String.eqb x y)) (setOf l')
  end.

End Js.

Import Js.

(** ** Data model *)

Record Expense : Type := {
  id : string;
  date : string;
  amount : num;
  category : string;
  merchant : string;
  note : string;
  need : bool
}.

Definition Budgets : Type := obj num.

Record CategoryTotal : Type := {
  cat_category : string;
  cat_amount : num
}.

Record MerchantTotal : Type := {
  mer_merchant : string;
  mer_amount : num
}.

(** [{ want, need }]; the second field is [needs] here, [need] being the
    flag of a transaction. *)
Record WantsNeeds : Type := {
  want : num;
  needs : num
}.

Record BudgetFlag : Type := {
  flag_category : string;
  flag_amount : num;
  flag_budget : num;
  flag_overBy : num
}.

Record SmallDrain : Type := {
  drain_merchant : string;
  drain_count : num
}.

(** [months] is the length of an array, kept as a natural number. *)
Record Recurring : Type := {
  rec_merchant : string;
  rec_mean : num;
  rec_months : nat
}.

Record Analysis : Type := {
  inMonth : list Expense;
  total : num;
  catArr : list CategoryTotal;
  topMerchants : list MerchantTotal;
  wantsNeeds : WantsNeeds;
  budgetFlags : list BudgetFlag;
  smallDrains : list SmallDrain;
  outliers : list Expense;
  recurring : list Recurring
}.

(** The text of a suggestion is a fixed template around numbers; the body
    keeps the template and the numbers it interpolates, their rendering
    ([toFixed], [currencyFormat]) being the host's. *)
Inductive Body : Type :=
| TrimWantsBody (ratio : num)
| OverBudgetBody (category : string) (overBy weeklyCap : num)
| SmallSpendsBody (count : num)
| TopMerchantBody (saving : num)
| RecurringBody (mean : num).

Record Suggestion : Type := {
  title : string;
  body : Body;
  impact : num
}.

(** The month key of an ISO date [yyyy-mm-dd...], in a zone where the
    local month of that date is the written one. *)
Definition isoMonthKey (d : string) : string := substring 0 7 d.

(** ** The engine *)

Section Engine.

Local Open Scope R_scope.

Variable monthKey : string -> string.

(** *** detectRecurring *)

Definition avg (arr : list num) : num :=
  div (fold_left add arr (Fin 0)) (ofNat (length arr)).

Definition orEmpty (A : Type) (x : option (list A)) : list A :=
  match x with
  | Some l => l
  | None => []
  end.

(** One turn of the grouping loop. *)
Definition groupStep (byMerchant : obj (obj (list Expense))) (e : Expense)
  : obj (obj (list Expense)) :=
  let mk := monthKey (date e) in
  let months := orEmpty (get byMerchant (merchant e)) in
  set byMerchant (merchant e)
      (set months mk (orEmpty (get months mk) ++ [e])).

(** One turn of the loop over [Object.entries(byMerchant)]: what it
    pushes on [rec]. *)
Definition recurringOf (entry : string * obj (list Expense))
  : list Recurring :=
  let '(merchant, months) := entry in
  let monthKeys := sortStrings (keys months) in
  if (length monthKeys <? 2)%nat then []
  else
    let sums :=
      map (fun m => avg (map amount (orEmpty (get months m)))) monthKeys in
    let mean := avg sums in
    let variance := avg (map (fun s => sq (sub s mean)) sums) in
    let stdev := sqrt variance in
    if lt stdev (mul mean (Fin 0.2)) then
      [ {| rec_merchant := merchant;
           rec_mean := round mean;
           rec_months := length monthKeys |} ]
    else [].

Definition detectRecurring (expenses : list Expense) : list Recurring :=
  let byMerchant := fold_left groupStep expenses [] in
  let rec := flat_map recurringOf (entries byMerchant) in
  sortBy (fun a b => sub (rec_mean b) (rec_mean a)) rec.

(** *** analyze *)

(** [o[k] = (o[k] || 0) + x] on an object that starts as [{}] and is
    written by this statement only.  Under a name of [Object.prototype]
    the first read finds a function, which is truthy, and [+] makes a text
    of it: the cell holds a text and stays one, and [__proto__] gets no
    cell at all.  Every later use of a cell ([-], [*], [>], [>=],
    [Math.max], [Math.min]) turns it into a number first, so the text is
    kept as what it becomes there, NaN. *)
Definition bump (o : obj num) (k : string) (x : num) : obj num :=
  if inherited k then
    if String.eqb k "__proto__" then o else set o k NaN
  else set o k (add (orElse (get o k) (Fin 0)) x).

Record Sums : Type := {
  byCat : obj num;
  byMerchant : obj num;
  split : WantsNeeds
}.

(** One turn of the accumulation loop. *)
Definition sumStep (s : Sums) (e : Expense) : Sums :=
  {| byCat := bump (byCat s) (category e) (amount e);
     byMerchant := bump (byMerchant s) (merchant e) (amount e);
     split :=
       if need e
       then {| want := want (split s);
               needs := add (needs (split s)) (amount e) |}
       else {| want := add (want (split s)) (amount e);
               needs := needs (split s) |} |}.

Definition inCategory (cat : string) (e : Expense) : bool :=
  String.eqb (category e) cat.

(** One turn of the loop over the categories: what it pushes on
    [outliers]. *)
Definition outliersOf (inMonth : list Expense) (cat : string)
  : list Expense :=
  let arr := map amount (filter (inCategory cat) inMonth) in
  if (length arr <? 3)%nat then []
  else
    let mean := div (fold_left add arr (Fin 0)) (ofNat (length arr)) in
    let sd :=
      sqrt (div (fold_left (fun s x => add s (sq (sub x mean))) arr (Fin 0))
                (ofNat (length arr))) in
    filter (fun e => gt sd (Fin 0)
                     && gt (abs (div (sub (amount e) mean) sd)) (Fin 2))
           (filter (inCategory cat) inMonth).

Definition analyze (expenses : list Expense) (budgets : Budgets)
           (month : string) : Analysis :=
  let inMonth :=
    filter (fun e => String.eqb (monthKey (date e)) month) expenses in
  let total :=
    fold_left
      (fun s e => add s (toNumber (orValue (Num (amount e)) (Num (Fin 0)))))
      inMonth (Fin 0) in
  let sums :=
    fold_left sumStep inMonth
      {| byCat := []; byMerchant := [];
         split := {| want := Fin 0; needs := Fin 0 |} |} in
  let catArr :=
    sortBy (fun a b => sub (cat_amount b) (cat_amount a))
      (map (fun kv => {| cat_category := fst kv; cat_amount := snd kv |})
           (entries (byCat sums))) in
  let topMerchants :=
    firstn 5
      (sortBy (fun a b => sub (mer_amount b) (mer_amount a))
         (map (fun kv => {| mer_merchant := fst kv; mer_amount := snd kv |})
              (entries (byMerchant sums)))) in
  let budgetFlags :=
    sortBy (fun a b => sub (flag_overBy b) (flag_overBy a))
      (filter (fun c => gt (flag_budget c) (Fin 0)
                        && gt (flag_amount c) (flag_budget c))
         (map (fun c =>
                 {| flag_category := cat_category c;
                    flag_amount := cat_amount c;
                    flag_budget :=
                      orElse (get budgets (cat_category c)) (Fin 0);
                    flag_overBy :=
                      max (Fin 0)
                          (sub (cat_amount c)
                               (orElse (get budgets (cat_category c))
                                       (Fin 0))) |})
              catArr)) in
  let smalls :=
    filter (fun e => negb (need e) && lt (amount e) (Fin 200)) inMonth in
  let byMerchantSmall :=
    fold_left (fun o e => bump o (merchant e) (Fin 1)) smalls [] in
  let smallDrains :=
    map (fun kv => {| drain_merchant := fst kv; drain_count := snd kv |})
        (filter (fun kv => ge (snd kv) (Fin 5)) (entries byMerchantSmall)) in
  let outliers :=
    flat_map (outliersOf inMonth) (setOf (map category inMonth)) in
  {| inMonth := inMonth;
     total := total;
     catArr := catArr;
     topMerchants := topMerchants;
     wantsNeeds := split sums;
     budgetFlags := budgetFlags;
     smallDrains := smallDrains;
     outliers := outliers;
     recurring := detectRecurring expenses |}.






End Engine.

(** *** The suggestion ranker *)

Section Ranker.

Local Open Scope R_scope.
Local Open Scope string_scope.

Definition wantRatio (analysis : Analysis) : num :=
  mul (div (want (wantsNeeds analysis)) (orNum (total analysis) (Fin 1)))
      (Fin 100).

Definition trimWants (analysis : Analysis) : list Suggestion :=
  if gt (want (wantsNeeds analysis)) (Fin 0) then
    [ {| title := "Trim Wants";
         body := TrimWantsBody (wantRatio analysis);
         impact := mul (want (wantsNeeds analysis)) (Fin 0.2) |} ]
  else [].

Definition overBudget (analysis : Analysis) : list Suggestion :=
  match budgetFlags analysis with
  | b :: _ =>
      [ {| title := "Over Budget: " ++ flag_category b;
           body := OverBudgetBody (flag_category b) (flag_overBy b)
                     (ceil (div (flag_budget b) (Fin 4)));
           impact := min (flag_overBy b) (mul (flag_amount b) (Fin 0.25)) |} ]
  | [] => []
  end.

Definition smallSpends (analysis : Analysis) : list Suggestion :=
  match smallDrains analysis with
  | s :: _ =>
      [ {| title := "Frequent small spends at " ++ drain_merchant s;
           body := SmallSpendsBody (drain_count s);
           impact := mul (mul (Fin 100) (drain_count s)) (Fin 0.4) |} ]
  | [] => []
  end.

Definition topMerchant (analysis : Analysis) : list Suggestion :=
  match topMerchants analysis with
  | t :: _ =>
      [ {| title := "Top Merchant: " ++ mer_merchant t;
           body := TopMerchantBody (mul (mer_amount t) (Fin 0.1));
           impact := mul (mer_amount t) (Fin 0.1) |} ]
  | [] => []
  end.

Definition recurringCharge (analysis : Analysis) : list Suggestion :=
  match filter (fun r => ge (rec_mean r) (Fin 200)) (recurring analysis) with
  | r :: _ =>
      [ {| title := "Recurring: " ++ rec_merchant r;
           body := RecurringBody (rec_mean r);
           impact := rec_mean r |} ]
  | [] => []
  end.

(** The candidates, in the order the code pushes them. *)
Definition candidates (analysis : Analysis) : list Suggestion :=
  trimWants analysis ++ overBudget analysis ++ smallSpends analysis
    ++ topMerchant analysis ++ recurringCharge analysis.

Definition suggestions (analysis : Analysis) : list Suggestion :=
  firstn 5 (sortBy (fun a b => sub (impact b) (impact a))
                   (candidates analysis)).

End Ranker.

(** ** Around the engine: the page and the data service *)

(** *** The expense table *)

(** The three filters of the page; [filter_need] is the source's [need]
    field, one of ["All"], ["Need"], ["Want"]. *)
Record Filters : Type := {
  filter_q : string;
  filter_cat : string;
  filter_need : string
}.

(** [s.includes(sub)] *)
Fixpoint includes (s sub : string) : bool :=
  prefix sub s
  || match s with
     | EmptyString => false
     | String _ s' => includes s' sub
     end.

(** [x || ""] on a string. *)
Definition orBlank (x : string) : string :=
  if String.eqb x "" then ""%string else x.

Section Table.

Local Open Scope string_scope.

(** [String.prototype.toLowerCase] follows the Unicode case tables of the
    host; the table is parameterised by it. *)
Variable toLowerCase : string -> string.

(** The predicate of [filteredRows]. *)
Definition matchesRow (filters : Filters) (e : Expense) : bool :=
  let q := toLowerCase (filter_q filters) in
  let matchesQ :=
    existsb (fun x => includes (toLowerCase (orBlank x)) q)
            [merchant e; note e; category e] in
  let matchesCat :=
    String.eqb (filter_cat filters) "All"
    || String.eqb (category e) (filter_cat filters) in
  let matchesNeed :=
    String.eqb (filter_need filters) "All"
    || (if String.eqb (filter_need filters) "Need" then need e
        else negb (need e)) in
  matchesQ && matchesCat && matchesNeed.

Definition filteredRows (analysis : Analysis) (filters : Filters)
  : list Expense :=
  filter (matchesRow filters) (inMonth analysis).

End Table.

(** Lower case of the ASCII letters, the other characters unchanged: what
    [toLowerCase] does on ASCII text. *)
Definition lowerChar (c : ascii) : ascii :=
  let n := nat_of_ascii c in
  if ((65 <=? n) && (n <=? 90))%nat then ascii_of_nat (n + 32) else c.

Fixpoint asciiLower (s : string) : string :=
  match s with
  | EmptyString => EmptyString
  | String c s' => String (lowerChar c) (asciiLower s')
  end.

(** *** The page state and its handlers *)

Record FinanceData : Type := {
  data_expenses : list Expense;
  data_categories : list string;
  data_budgets : Budgets
}.

(** [addExpense]: the data service answers with the stored expense, or
    fails; a failure is reported and the state is left alone. *)
Definition addExpense (answer : option Expense) (prev : FinanceData)
  : FinanceData :=
  match answer with
  | Some newExpense =>
      {| data_expenses := newExpense :: data_expenses prev;
         data_categories := data_categories prev;
         data_budgets := data_budgets prev |}
  | None => prev
  end.

(** [deleteExpense] *)
Definition deleteExpense (ok : bool) (id0 : string) (prev : FinanceData)
  : FinanceData :=
  if ok then
    {| data_expenses :=
         filter (fun e => negb (String.eqb (id e) id0)) (data_expenses prev);
       data_categories := data_categories prev;
       data_budgets := data_budgets prev |}
  else prev.

(** *** The array the page shares with the data service

    [loadData] puts in the page state the very array the data service
    keeps: [getExpenses] returns [this.expenses].  The [addExpense] of the
    service puts the new expense in front of its array in place, so that a
    page that still holds that array sees the expense there before its own
    update puts it in front once more.  Every update of the page and every
    deletion by the service makes a new array, which ends the sharing. *)
Record Session : Type := {
  state : FinanceData;
  cache : list Expense;
  shared : bool
}.

(** [loadData], when the calls succeed. *)
Definition loadData (expenses : list Expense) (categories : list string)
           (budgets : Budgets) : Session :=
  {| state := {| data_expenses := expenses;
                data_categories := categories;
                data_budgets := budgets |};
     cache := expenses;
     shared := true |}.

(** The two [addExpense], of the service and of the page, one after the
    other; [held] is what the array of the page holds when the update of
    the page reads it. *)
Definition addExpenseStep (answer : option Expense) (s : Session)
  : Session :=
  match answer with
  | Some newExpense =>
      let held :=
        if shared s then newExpense :: data_expenses (state s)
        else data_expenses (state s) in
      {| state := addExpense answer
                   {| data_expenses := held;
                      data_categories := data_categories (state s);
                      data_budgets := data_budgets (state s) |};
         cache := newExpense :: cache s;
         shared := false |}
  | None => s
  end.

(** The two [deleteExpense]. *)
Definition deleteExpenseStep (ok : bool) (id0 : string) (s : Session)
  : Session :=
  if ok then
    {| state := deleteExpense true id0 (state s);
       cache := filter (fun e => negb (String.eqb (id e) id0)) (cache s);
       shared := false |}
  else s.

(** [{ ...o }]: the own properties, copied in the order [Object.entries]
    lists them. *)
Definition spread (V : Type) (o : obj V) : obj V := entries o.

(** [setBudget]: the amount is [Number(val) || 0]. *)
Definition setBudget (ok : bool) (cat val : string) (prev : FinanceData)
  : FinanceData :=
  let amount := orNum (toNumber (Str val)) (Fin 0) in
  if ok then
    {| data_expenses := data_expenses prev;
       data_categories := data_categories prev;
       data_budgets := set (spread (data_budgets prev)) cat amount |}
  else prev.

(** *** The budget panel and the KPI cards *)

(** [analysis.catArr.find((x) => x.category === c)?.amount || 0] *)
Definition panelSpent (analysis : Analysis) (c : string) : num :=
  orElse (option_map cat_amount
            (find (fun x => String.eqb (cat_category x) c) (catArr analysis)))
         (Fin 0).

(** [Number(data.budgets[c] || 0)] *)
Definition panelBudget (budgets : Budgets) (c : string) : num :=
  orElse (get budgets c) (Fin 0).

(** [budget > 0 && spent > budget] *)
Definition panelOver (analysis : Analysis) (budgets : Budgets) (c : string)
  : bool :=
  gt (panelBudget budgets c) (Fin 0)
  && gt (panelSpent analysis c) (panelBudget budgets c).

(** [(x / (analysis.total || 1)) * 100], the number the Needs and Wants
    cards and the pie labels turn into text. *)
Definition share (analysis : Analysis) (x : num) : num :=
  mul (div x (orNum (total analysis) (Fin 1))) (Fin 100).

(** *** The data service *)

Definition DEFAULT_CATEGORIES : list string :=
  ["Groceries"; "Dining"; "Transport"; "Utilities"; "Rent"; "Entertainment";
   "Shopping"; "Health"; "Education"; "Travel"; "Other"]%string.

(** What the budgets endpoint returns, as far as the service reads it. *)
Record APIBudget : Type := {
  api_category : string;
  api_amount : num
}.

(** [initializeBudgets]: a default category without a budget gets 0. *)
Definition initializeBudgets (budgets : Budgets) : Budgets :=
  fold_left (fun b c => match get b c with
                        | Some _ => b
                        | None => set b c (Fin 0)
                        end)
            DEFAULT_CATEGORIES budgets.

(** [getBudgets]: the new cache, which is also what is returned.  [answer]
    is the list the endpoint returned, or [None] when the call failed. *)
Definition getBudgets (answer : option (list APIBudget)) (cached : Budgets)
  : Budgets :=
  match answer with
  | Some apiBudgets =>
      fold_left (fun b x => assign b (api_category x) (api_amount x))
                apiBudgets (initializeBudgets [])
  | None => initializeBudgets cached
  end.

(** [resetData], on the budgets. *)
Definition resetBudgets : Budgets := initializeBudgets [].

(** *** Identifiers

    The backend numbers the expenses; the page keeps the number as text
    and turns it back into a number when it asks for a deletion. *)

(** [n.toString()] for a non-negative integer below [10^21], where the
    decimal digits are written out in full. *)
Definition numberToString (n : nat) : string :=
  NilZero.string_of_uint (Nat.to_uint n).

(** Reads a run of hexadecimal digits: its value and its length. *)
Fixpoint hexDigits (l : list ascii) (acc : Z) (n : nat) : Z * nat :=
  match l with
  | c :: l' =>
      match hexVal c with
      | Some v => hexDigits l' (16 * acc + v)%Z (S n)
      | None => (acc, n)
      end
  | [] => (acc, n)
  end.

(** [parseInt(s)] without a radix: leading ASCII white space, an optional
    sign, an optional [0x] that switches to base 16, then the longest run
    of digits; NaN when the run is empty.  What follows the run is
    ignored. *)
Definition parseInt (s : string) : num :=
  let l := dropSpace (list_ascii_of_string s) in
  let '(neg, l1) :=
    match l with
    | "-"%char :: l' => (true, l')
    | "+"%char :: l' => (false, l')
    | _ => (false, l)
    end in
  let '(v, n) :=
    match l1 with
    | "0"%char :: c :: l2 =>
        if (Ascii.eqb c "x" || Ascii.eqb c "X")%bool then hexDigits l2 0 0
        else fst (digits l1 0 0)
    | _ => fst (digits l1 0 0)
    end in
  match n with
  | O => NaN
  | _ => Fin (IZR (if neg then (- v)%Z else v))
  end.

(** An expense as the backend returns it. *)
Record APIExpense : Type := {
  ae_id : nat;
  ae_user_id : nat;
  ae_date : string;
  ae_amount : num;
  ae_category : string;
  ae_merchant : string;
  ae_note : string;
  ae_need : bool;
  ae_created_at : string;
  ae_updated_at : option string
}.

Definition convertAPIExpenseToFrontend (apiExpense : APIExpense) : Expense :=
  {| id := numberToString (ae_id apiExpense);
     date := ae_date apiExpense;
     amount := ae_amount apiExpense;
     category := ae_category apiExpense;
     merchant := ae_merchant apiExpense;
     note := ae_note apiExpense;
     need := ae_need apiExpense |}.

(** The row the data service asks the backend to delete:
    [expensesAPI.delete(parseInt(id))]. *)
Definition deleteRequest (id0 : string) : num := parseInt id0.

(** ** The thresholds of the engine, in binary64

    The outlier test, the recurrence test and the percentage of the Trim
    Wants body compare or divide numbers that sums and quotients have
    rounded, and a rounding can decide them.  Module [B64] follows these
    three computations on the numbers of the code: binary64, every
    operation rounded to nearest, the two infinities and NaN included
    (the primitive floats of the kernel). *)

Module B64.

Import PrimFloat FloatOps SpecFloat.
Local Open Scope float_scope.

Record Expense : Type := {
  id : string;
  date : string;
  amount : float;
  category : string;
  merchant : string;
  note : string;
  need : bool
}.

(** [arr.length] as a number: an array holds fewer than 2^32 elements,
    and the conversion is exact below 2^53. *)
Definition ofNat (n : nat) : float := of_uint63 (Uint63.of_Z (Z.of_nat n)).

(** [x ** 2], the product of [x] by itself. *)
Definition sq (x : float) : float := x * x.

(** The literal [0.2]: the binary64 number nearest to one fifth. *)
Definition fifth : float := 0x1.999999999999ap-3.

Definition inCategory (cat : string) (e : Expense) : bool :=
  String.eqb (category e) cat.

(** Lines 241 to 252, one turn of the loop over the categories. *)
Definition outliersOf (inMonth : list Expense) (cat : string)
  : list Expense :=
  let arr := map amount (filter (inCategory cat) inMonth) in
  if (length arr <? 3)%nat then []
  else
    let mean := fold_left add arr 0 / ofNat (length arr) in
    let sd :=
      sqrt (fold_left (fun s x => s + sq (x - mean)) arr 0
            / ofNat (length arr)) in
    filter (fun e => (0 <? sd) && (2 <? abs ((amount e - mean) / sd)))
           (filter (inCategory cat) inMonth).

Section Engine.
Variable monthKey : string -> string.

(** Line 204 and lines 241 to 252: the outliers of [analyze]. *)
Definition outliers (expenses : list Expense) (month : string)
  : list Expense :=
  let inMonth :=
    filter (fun e => String.eqb (monthKey (date e)) month) expenses in
  flat_map (outliersOf inMonth) (setOf (map category inMonth)).

(** [detectRecurring], lines 179 to 201. *)
Definition avg (arr : list float) : float :=
  fold_left add arr 0 / ofNat (length arr).

Definition groupStep (byMerchant : obj (obj (list Expense))) (e : Expense)
  : obj (obj (list Expense)) :=
  let mk := monthKey (date e) in
  let months := orEmpty (get byMerchant (merchant e)) in
  set byMerchant (merchant e)
      (set months mk (orEmpty (get months mk) ++ [e])).

(** What [Math.round] returns: an integer, kept exactly (the sign of a zero
    is dropped), or its argument when this is NaN or an infinity. *)
Inductive rounded : Type :=
| Whole (n : Z)
| NotFinite (x : float).

(** [Math.round(x)]: the floor of [x + 1/2], computed exactly on the
    mantissa and the exponent of [x = M * 2^e]. *)
Definition round (x : float) : rounded :=
  match Prim2SF x with
  | S754_zero _ => Whole 0
  | S754_finite s m e =>
      let M := if s then Z.neg m else Z.pos m in
      if (0 <=? e)%Z then Whole (M * 2 ^ e)
      else Whole ((2 * M + 2 ^ (- e)) / (2 * 2 ^ (- e)))
  | _ => NotFinite x
  end.

Record Recurring : Type := {
  rec_merchant : string;
  rec_mean : rounded;
  rec_months : nat
}.

Definition recurringOf (entry : string * obj (list Expense))
  : list Recurring :=
  let '(merchant, months) := entry in
  let monthKeys := sortStrings (keys months) in
  if (length monthKeys <? 2)%nat then []
  else
    let sums :=
      map (fun m => avg (map amount (orEmpty (get months m)))) monthKeys in
    let mean := avg sums in
    let variance := avg (map (fun s => sq (s - mean)) sums) in
    let stdev := sqrt variance in
    if stdev <? mean * fifth then
      [ {| rec_merchant := merchant;
           rec_mean := round mean;
           rec_months := length monthKeys |} ]
    else [].

(** [b.mean - a.mean > 0] on the pair [(b.mean, a.mean)].  The difference
    of two integers that binary64 holds has the sign of their exact
    difference; an infinity minus an integer is that infinity. *)
Definition positive (d : rounded * rounded) : bool :=
  match d with
  | (Whole m, Whole n) => (n <? m)%Z
  | (NotFinite x, Whole _) => 0 <? x
  | (Whole _, NotFinite y) => y <? 0
  | (NotFinite x, NotFinite y) => 0 <? x - y
  end.

(** [arr.sort(cmp)], as in [Js.sortBy], driven by the test
    [cmp(x, y) > 0]. *)
Fixpoint insertBy (A : Type) (after : A -> A -> bool) (x : A) (l : list A)
  : list A :=
  match l with
  | [] => [x]
  | y :: l' => if after x y then y :: insertBy after x l' else x :: l
  end.

Definition sortBy (A : Type) (after : A -> A -> bool) (l : list A) : list A :=
  fold_right (insertBy after) [] l.

Definition detectRecurring (expenses : list Expense) : list Recurring :=
  let byMerchant := fold_left groupStep expenses [] in
  let rec := flat_map recurringOf (entries byMerchant) in
  sortBy (fun a b => positive (rec_mean b, rec_mean a)) rec.

End Engine.

(** *** What the specification talks about, in binary64

    The mean and the population standard deviation of a list, summed from
    0 in the order of the list, every operation rounded. *)
Definition mean (xs : list float) : float :=
  fold_left add xs 0 / ofNat (length xs).

Definition stdev (xs : list float) : float :=
  sqrt (mean (map (fun x => sq (x - mean xs)) xs)).

Definition chargedBy (m : string) (e : Expense) : bool :=
  String.eqb (merchant e) m.

(** The months in which a merchant is observed, each once, in ascending
    order. *)
Definition monthsOf (monthKey : string -> string) (expenses : list Expense)
           (m : string) : list string :=
  sortStrings
    (setOf (map (fun e => monthKey (date e)) (filter (chargedBy m) expenses))).

Definition monthlyAverage (monthKey : string -> string)
           (expenses : list Expense) (m k : string) : float :=
  mean (map amount
            (filter (fun e => chargedBy m e
                              && String.eqb (monthKey (date e)) k)
                    expenses)).

Definition monthlyAverages (monthKey : string -> string)
           (expenses : list Expense) (m : string) : list float :=
  map (monthlyAverage monthKey expenses m) (monthsOf monthKey expenses m).

Definition steady (monthKey : string -> string) (expenses : list Expense)
           (m : string) : bool :=
  stdev (monthlyAverages monthKey expenses m)
  <? mean (monthlyAverages monthKey expenses m) * fifth.

(** What one turn of the second loop pushes, read off the history. *)
Definition pushed (monthKey : string -> string) (l : list Expense)
           (m : string) : list Recurring :=
  if (length (monthsOf monthKey l m) <? 2)%nat then []
  else if steady monthKey l m then
    [ {| rec_merchant := m;
         rec_mean := round (mean (monthlyAverages monthKey l m));
         rec_months := length (monthsOf monthKey l m) |} ]
  else [].




(** *** The Trim Wants candidate *)

(** [x || d] on a number: 0, -0 and NaN are falsy. *)
Definition orNum (x d : float) : float :=
  if is_nan x || is_zero x then d else x.

(** Line 205: the month total. *)
Definition total (inMonth : list Expense) : float :=
  fold_left (fun s e => s + orNum (amount e) 0) inMonth 0.

(** Lines 213 and 214: the want total. *)
Definition want (inMonth : list Expense) : float :=
  fold_left (fun w e => if need e then w else w + amount e) inMonth 0.

(** What the first candidate of the ranker carries: the percentage of its
    body, before [toFixed], and its impact. *)
Record TrimWants : Type := {
  ratio : float;
  impact : float
}.

(** Lines 382 to 389 of [suggestions], on the want total and the month
    total of [analyze]. *)
Definition trimWants (monthKey : string -> string) (expenses : list Expense)
           (month : string) : list TrimWants :=
  let inMonth :=
    filter (fun e => String.eqb (monthKey (date e)) month) expenses in
  if 0 <? want inMonth then
    [ {| ratio := want inMonth / orNum (total inMonth) 1 * 100;
         impact := want inMonth * fifth |} ]
  else [].

Definition expense (d : string) (a : float) (c m : string) (n : bool)
  : Expense :=
  {| id := ""; date := d; amount := a; category := c; merchant := m;
     note := ""; need := n |}.

End B64.

(** ** What the specification talks about

    Sums, means and population standard deviations of lists of numbers,
    written once, independently of the loops of the engine. *)

Definition sum (xs : list num) : num := fold_right add (Fin 0) xs.

Definition popMean (xs : list num) : num := div (sum xs) (ofNat (length xs)).

Definition popVariance (xs : list num) : num :=
  div (sum (map (fun x => sq (sub x (popMean xs))) xs)) (ofNat (length xs)).

Definition popStdev (xs : list num) : num := sqrt (popVariance xs).

(** A proper number: not NaN. *)
Definition isFin (a : num) : Prop :=
  match a with
  | Fin _ => True
  | NaN => False
  end.

(** A list is non-increasing by a numeric key when each element is [>=]
    the next one, in the sense of JavaScript's [>=]. *)
Definition nonIncreasing (A : Type) (key : A -> num) (l : list A) : Prop :=
  Sorted (fun a b => ge (key a) (key b) = true) l.




(** What a category spent in the month, by plain addition of its in-month
    amounts. *)
Definition spent (monthKey : string -> string) (expenses : list Expense)
           (month : string) (cat : string) : num :=
  sum (map amount
           (filter (inCategory cat)
                   (filter (fun e => String.eqb (monthKey (date e)) month)
                           expenses))).

(** What a merchant received in the month, by plain addition, and how
    many small discretionary purchases were made there. *)
Definition spentAt (monthKey : string -> string) (expenses : list Expense)
           (month : string) (m : string) : num :=
  sum (map amount
           (filter (fun e => String.eqb (merchant e) m)
                   (filter (fun e => String.eqb (monthKey (date e)) month)
                           expenses))).

Definition smallCount (monthKey : string -> string) (expenses : list Expense)
           (month : string) (m : string) : nat :=
  length (filter (fun e => String.eqb (merchant e) m)
            (filter (fun e => negb (need e) && lt (amount e) (Fin 200))
               (filter (fun e => String.eqb (monthKey (date e)) month)
                       expenses))).

(** A transaction, for the examples: identifier and note left empty. *)
Definition expense (d : string) (a : num) (c m : string) (n : bool)
  : Expense :=
  {| id := ""; date := d; amount := a; category := c; merchant := m;
     note := ""; need := n |}.

(** The recurrence rule, read off the history.  The months in which a
    merchant is observed, the average of its amounts in one of them, and
    the test on the mean and deviation of those averages. *)
Definition chargedBy (m : string) (e : Expense) : bool :=
  String.eqb (merchant e) m.

Definition monthsOf (monthKey : string -> string) (expenses : list Expense)
           (m : string) : list string :=
  setOf (map (fun e => monthKey (date e)) (filter (chargedBy m) expenses)).

Definition monthlyAverage (monthKey : string -> string)
           (expenses : list Expense) (m k : string) : num :=
  popMean (map amount
               (filter (fun e => chargedBy m e
                                 && String.eqb (monthKey (date e)) k)
                       expenses)).

Definition monthlyAverages (monthKey : string -> string)
           (expenses : list Expense) (m : string) : list num :=
  map (monthlyAverage monthKey expenses m) (monthsOf monthKey expenses m).

Definition steady (monthKey : string -> string) (expenses : list Expense)
           (m : string) : bool :=
  lt (popStdev (monthlyAverages monthKey expenses m))
     (mul (popMean (monthlyAverages monthKey expenses m)) (Fin 0.2)).

(** Two keys tie in a sort when they are the same number. *)
Definition sameKey (a b : num) : bool :=
  match a, b with
  | Fin x, Fin y => if Req_dec_T x y then true else false
  | NaN, NaN => true
  | _, _ => false
  end.

(** The budget of a category, as the flags read it: [budgets[c] || 0]. *)
Definition budgetOf (budgets : Budgets) (cat : string) : num :=
  orElse (get budgets cat) (Fin 0).

(** A name that no property of [Object.prototype] bears: read from a fresh
    object it is undefined, and written to it becomes a property of the
    object. *)
Definition plain (k : string) : Prop := inherited k = false.

(** Whole amounts: non-negative integers whose sum does not exceed 2^53.
    Every sum of some of them is then an integer of at most 53 bits, which
    the numbers of the code hold exactly: on such amounts the running sums
    of the code are the sums of the numbers, without rounding. *)
Definition wholeAmounts (l : list Expense) : Prop :=
  exists ns : list Z,
    map amount l = map (fun n => Fin (IZR n)) ns
    /\ Forall (fun n => (0 <= n)%Z) ns
    /\ (fold_right Z.add 0 ns <= 2 ^ 53)%Z.

(** A whole budget: a non-negative integer of at most 2^53. *)
Definition wholeBudget (b : num) : Prop :=
  exists n : Z, (0 <= n <= 2 ^ 53)%Z /\ b = Fin (IZR n).

(** A number that is not negative (and not NaN). *)
Definition nonNegative (a : num) : Prop :=
  match a with
  | Fin r => (0 <= r)%R
  | NaN => False
  end.


(** What one turn of the second loop pushes, read off the history. *)
Definition pushed (monthKey : string -> string) (l : list Expense)
           (m : string) : list Recurring :=
  if (length (monthsOf monthKey l m) <? 2)%nat then []
  else if steady monthKey l m then
    [ {| rec_merchant := m;
         rec_mean := round (popMean (monthlyAverages monthKey l m));
         rec_months := length (monthsOf monthKey l m) |} ]
  else [].

(** Five small discretionary purchases at one merchant. *)
Definition coffees : list Expense :=
  [expense "2024-03-11" (Fin 10) "Dining" "Cafe" false;
   expense "2024-03-12" (Fin 10) "Dining" "Cafe" false;
   expense "2024-03-13" (Fin 10) "Dining" "Cafe" false;
   expense "2024-03-14" (Fin 10) "Dining" "Cafe" false;
   expense "2024-03-15" (Fin 10) "Dining" "Cafe" false].

(** ** Evaluation tactics *)

Ltac real_case :=
  match goal with
  | |- context [R_sqrt.sqrt ?e] =>
      progress (replace e with 0%R by lra; rewrite sqrt_0)
  | |- context [Req_dec_T ?a ?b] =>
      destruct (Req_dec_T a b); [try (exfalso; lra) | try (exfalso; lra)]
  | |- context [Rlt_dec ?a ?b] =>
      destruct (Rlt_dec a b); [try (exfalso; lra) | try (exfalso; lra)]
  | |- context [Rle_dec ?a ?b] =>
      destruct (Rle_dec a b); [try (exfalso; lra) | try (exfalso; lra)]
  | |- context [Rcase_abs ?a] =>
      destruct (Rcase_abs a); [try (exfalso; lra) | try (exfalso; lra)]
  end.

Ltac js_eval :=
  repeat (progress (cbn;
                    unfold orNum, orElse, orValue, truthy, truthyValue,
                           Rmax, Rmin, Rabs;
                    try real_case)).

Ltac unfold_engine :=
  unfold suggestions, candidates, trimWants, overBudget, smallSpends,
         topMerchant, recurringCharge, wantRatio, analyze, detectRecurring,
         spent.

(** Every amount of a concrete month is a number. *)
Ltac numbers := unfold analyze; cbn; repeat constructor.

(** Whole amounts, on a closed list: the integers are given. *)
Ltac whole ns :=
  exists ns;
  split; [reflexivity|];
  split; [repeat constructor; lia | vm_compute; discriminate].


(** ** Numbers *)

Module NumFacts.

Local Open Scope R_scope.

Lemma add_comm (a b : num) : add a b = add b a.
Proof. destruct a, b; simpl; try reflexivity. f_equal; lra. Qed.

Lemma add_assoc (a b c : num) : add a (add b c) = add (add a b) c.
Proof. destruct a, b, c; simpl; try reflexivity. f_equal; lra. Qed.

Lemma add_zero_l (a : num) : add (Fin 0) a = a.
Proof. destruct a; simpl; try reflexivity. f_equal; lra. Qed.

Lemma add_zero_r (a : num) : add a (Fin 0) = a.
Proof. rewrite add_comm. apply add_zero_l. Qed.

Lemma fold_add_acc (xs : list num) (a : num) :
  fold_left add xs a = add a (sum xs).
Proof.
  revert a. induction xs as [|x xs IH]; intros a; simpl.
  - now rewrite add_zero_r.
  - rewrite IH. now rewrite add_assoc.
Qed.

Lemma fold_add_sum (xs : list num) : fold_left add xs (Fin 0) = sum xs.
Proof. rewrite fold_add_acc. apply add_zero_l. Qed.

Lemma fold_add_map (A : Type) (f : A -> num) (l : list A) (a : num) :
  fold_left (fun s x => add s (f x)) l a = add a (sum (map f l)).
Proof.
  revert a. induction l as [|x l IH]; intros a; simpl.
  - now rewrite add_zero_r.
  - rewrite IH. now rewrite add_assoc.
Qed.

Lemma sum_app (xs ys : list num) : sum (xs ++ ys) = add (sum xs) (sum ys).
Proof.
  induction xs as [|x xs IH].
  - symmetry. apply add_zero_l.
  - change (add x (sum (xs ++ ys)) = add (add x (sum xs)) (sum ys)).
    rewrite IH. apply add_assoc.
Qed.

Lemma sum_perm (xs ys : list num) : Permutation xs ys -> sum xs = sum ys.
Proof.
  induction 1; simpl.
  - reflexivity.
  - now f_equal.
  - rewrite !add_assoc. f_equal. apply add_comm.
  - congruence.
Qed.

Lemma lt_true (a b : num) :
  lt a b = true <-> exists x y, a = Fin x /\ b = Fin y /\ x < y.
Proof.
  split.
  - destruct a as [x|], b as [y|]; simpl; try discriminate.
    destruct (Rlt_dec x y); [|discriminate]. intros _. now exists x, y.
  - intros (x & y & -> & -> & H). simpl. now destruct (Rlt_dec x y).
Qed.

Lemma le_true (a b : num) :
  le a b = true <-> exists x y, a = Fin x /\ b = Fin y /\ x <= y.
Proof.
  split.
  - destruct a as [x|], b as [y|]; simpl; try discriminate.
    destruct (Rle_dec x y); [|discriminate]. intros _. now exists x, y.
  - intros (x & y & -> & -> & H). simpl. now destruct (Rle_dec x y).
Qed.

Lemma gt_true (a b : num) :
  gt a b = true <-> exists x y, a = Fin x /\ b = Fin y /\ y < x.
Proof.
  unfold gt. rewrite lt_true. split.
  - intros (y & x & -> & -> & H). now exists x, y.
  - intros (x & y & -> & -> & H). now exists y, x.
Qed.

Lemma ge_true (a b : num) :
  ge a b = true <-> exists x y, a = Fin x /\ b = Fin y /\ y <= x.
Proof.
  unfold ge. rewrite le_true. split.
  - intros (y & x & -> & -> & H). now exists x, y.
  - intros (x & y & -> & -> & H). now exists y, x.
Qed.


Lemma le_Fin (x y : R) : le (Fin x) (Fin y) = true <-> x <= y.
Proof. simpl. destruct (Rle_dec x y); split; intros; auto; discriminate. Qed.

(** With a positive divisor, the absolute value of the quotient is the
    quotient of the absolute value. *)
Lemma abs_div_pos (a s : num) :
  gt s (Fin 0) = true -> abs (div a s) = div (abs a) s.
Proof.
  intros H. apply gt_true in H. destruct H as (x & z & -> & Hz & H).
  injection Hz as <-. destruct a as [y|]; simpl; [|reflexivity].
  destruct (Req_dec_T x 0); [lra|]. cbn [abs]. f_equal.
  unfold Rdiv. rewrite Rabs_mult. f_equal.
  apply Rabs_pos_eq. left. now apply Rinv_0_lt_compat.
Qed.

End NumFacts.

(** ** Lists and sets of strings *)

Module ListFacts.

Lemma setOf_In (l : list string) (x : string) : In x (setOf l) <-> In x l.
Proof.
  induction l as [|y l IH]; simpl; [tauto|].
  rewrite filter_In, IH, negb_true_iff, String.eqb_neq.
  destruct (string_dec y x); tauto.
Qed.

Lemma setOf_NoDup (l : list string) : NoDup (setOf l).
Proof.
  induction l as [|y l IH]; simpl; constructor.
  - rewrite filter_In, String.eqb_refl. simpl. intros [_ H]. discriminate.
  - now apply NoDup_filter.
Qed.

End ListFacts.

(** ** Objects *)

Module ObjFacts.

Section WithValues.
Variable V : Type.
Implicit Types (o : obj V) (k : string) (v : V).

Lemma get_set_same o k v : get (set o k v) k = Some v.
Proof.
  induction o as [|[k' v'] o IH]; simpl.
  - now rewrite String.eqb_refl.
  - destruct (String.eqb k' k) eqn:E; simpl; rewrite E; auto.
Qed.

Lemma get_set_other o k k' v : k <> k' -> get (set o k v) k' = get o k'.
Proof.
  intros Hk. induction o as [|[k0 v0] o IH]; simpl.
  - apply String.eqb_neq in Hk. now rewrite Hk.
  - destruct (String.eqb k0 k) eqn:E; simpl.
    + apply String.eqb_eq in E. subst k0.
      apply String.eqb_neq in Hk. now rewrite Hk.
    + now rewrite IH.
Qed.

Lemma get_None o k : get o k = None <-> ~ In k (map fst o).
Proof.
  induction o as [|[k0 v0] o IH]; simpl; [tauto|].
  destruct (String.eqb k0 k) eqn:E.
  - apply String.eqb_eq in E. split; [discriminate|]. intros H. tauto.
  - apply String.eqb_neq in E. rewrite IH. tauto.
Qed.

Lemma get_In o k v : get o k = Some v -> In (k, v) o.
Proof.
  induction o as [|[k0 v0] o IH]; simpl; [discriminate|].
  destruct (String.eqb k0 k) eqn:E.
  - apply String.eqb_eq in E. intros [= ->]. subst. now left.
  - auto.
Qed.

Lemma In_get o k v : NoDup (map fst o) -> In (k, v) o -> get o k = Some v.
Proof.
  induction o as [|[k0 v0] o IH]; simpl; [tauto|].
  intros Hnd [H|H]; inversion Hnd as [|? ? Hnot Hnd']; subst.
  - injection H as -> ->. now rewrite String.eqb_refl.
  - destruct (String.eqb k0 k) eqn:E; [|auto].
    apply String.eqb_eq in E. subst k0. exfalso. apply Hnot.
    now apply (in_map fst) in H.
Qed.

Lemma keys_set o k v k' :
  In k' (map fst (set o k v)) <-> k' = k \/ In k' (map fst o).
Proof.
  induction o as [|[k0 v0] o IH]; simpl.
  - intuition.
  - destruct (String.eqb k0 k) eqn:E; simpl.
    + apply String.eqb_eq in E. subst. intuition.
    + rewrite IH. intuition.
Qed.

Lemma NoDup_set o k v : NoDup (map fst o) -> NoDup (map fst (set o k v)).
Proof.
  induction o as [|[k0 v0] o IH]; simpl; intros Hnd.
  - constructor; [simpl; tauto | constructor].
  - inversion Hnd as [|? ? Hnot Hnd']; subst.
    destruct (String.eqb k0 k) eqn:E; simpl.
    + now constructor.
    + constructor; [|auto]. rewrite keys_set. intros [->|H]; [|tauto].
      now rewrite String.eqb_refl in E.
Qed.

Lemma Forall_set (P : string * V -> Prop) o k v :
  Forall P o -> (forall k0, P (k0, v)) -> Forall P (set o k v).
Proof.
  intros Ho Hv. induction Ho as [|[k0 v0] o H0 Ho IH]; simpl.
  - constructor; auto.
  - destruct (String.eqb k0 k); constructor; auto.
Qed.

Lemma insertIndex_perm (x : N * (string * V)) l :
  Permutation (insertIndex x l) (x :: l).
Proof.
  induction l as [|y l IH]; simpl; [reflexivity|].
  destruct (fst x <=? fst y)%N; [reflexivity|].
  rewrite IH. apply perm_swap.
Qed.

Lemma sortIndex_perm (l : list (N * (string * V))) :
  Permutation (fold_right (@insertIndex V) [] l) l.
Proof.
  induction l as [|x l IH]; simpl; [reflexivity|].
  rewrite insertIndex_perm. now constructor.
Qed.

Lemma entries_perm o : Permutation (entries o) o.
Proof.
  unfold entries. rewrite sortIndex_perm.
  unfold indexed, named. induction o as [|[k v] o IH]; simpl; [reflexivity|].
  destruct (arrayIndex k); simpl.
  - now constructor.
  - rewrite <- IH at 3. symmetry. apply Permutation_middle.
Qed.

(** Integer-like keys come first, in ascending order. *)
Example entries_order :
  entries [("Zed", 1%nat); ("10", 2%nat); ("9", 3%nat); ("007", 4%nat)]%string
  = [("9", 3%nat); ("10", 2%nat); ("Zed", 1%nat); ("007", 4%nat)]%string.
Proof. reflexivity. Qed.

Lemma entries_In o kv : In kv (entries o) <-> In kv o.
Proof.
  split; apply Permutation_in; [|symmetry]; apply entries_perm.
Qed.

Lemma keys_perm o : Permutation (keys o) (map fst o).
Proof. unfold keys. apply Permutation_map, entries_perm. Qed.

Lemma keys_NoDup o : NoDup (map fst o) -> NoDup (keys o).
Proof.
  intros H. eapply Permutation_NoDup; [|exact H].
  symmetry. apply keys_perm.
Qed.

Lemma keys_length o : length (keys o) = length o.
Proof.
  rewrite (Permutation_length (keys_perm o)). apply length_map.
Qed.

End WithValues.

End ObjFacts.

(** ** Sorting *)

Module SortFacts.

Local Open Scope R_scope.

Section WithElements.
Variable A : Type.
Variable cmp : A -> A -> num.

Lemma insertBy_perm (x : A) (l : list A) :
  Permutation (insertBy cmp x l) (x :: l).
Proof.
  induction l as [|y l IH]; cbn [insertBy]; [reflexivity|].
  destruct (gt (cmp x y) zero); [|reflexivity].
  rewrite IH. apply perm_swap.
Qed.

Lemma sortBy_perm (l : list A) : Permutation (sortBy cmp l) l.
Proof.
  induction l as [|x l IH]; simpl; [reflexivity|].
  rewrite insertBy_perm. now constructor.
Qed.

Lemma sortBy_In (l : list A) (x : A) : In x (sortBy cmp l) <-> In x l.
Proof.
  split; apply Permutation_in; [|symmetry]; apply sortBy_perm.
Qed.

Lemma sortBy_length (l : list A) : length (sortBy cmp l) = length l.
Proof. apply Permutation_length, sortBy_perm. Qed.
End WithElements.

(** Descending sorts by a key: [(a, b) => b.key - a.key]. *)
Section Descending.
Variable A : Type.
Variable key : A -> num.

Local Abbreviation cmp := (fun a b : A => sub (key b) (key a)).
Local Abbreviation desc := (fun a b : A => ge (key a) (key b) = true).

Lemma insertBy_HdRel (x y : A) (l : list A) :
  ge (key y) (key x) = true ->
  HdRel desc y l -> HdRel desc y (insertBy cmp x l).
Proof.
  intros Hyx Hl. destruct l as [|z l]; cbn [insertBy].
  - now constructor.
  - destruct (gt (cmp x z) zero); constructor; auto.
    now inversion Hl.
Qed.

Lemma insertBy_sorted (x : A) (l : list A) :
  isFin (key x) -> Forall (fun a => isFin (key a)) l ->
  Sorted desc l -> Sorted desc (insertBy cmp x l).
Proof.
  intros Hx Hfin Hs. induction l as [|y l IH]; cbn [insertBy].
  - repeat constructor.
  - inversion Hfin as [|? ? Hy Hfin']; subst.
    inversion Hs as [|? ? Hs' Hhd]; subst.
    destruct (key x) as [kx|] eqn:Ex; [|contradiction].
    destruct (key y) as [ky|] eqn:Ey; [|contradiction].
    destruct (gt (sub (Fin ky) (Fin kx)) zero) eqn:E.
    + constructor; [now apply IH|].
      apply insertBy_HdRel; [|assumption].
      rewrite Ex, Ey. apply NumFacts.le_Fin.
      apply NumFacts.gt_true in E. destruct E as (a & b & Ha & Hb & Hlt).
      injection Ha as <-. injection Hb as <-. lra.
    + constructor; [now constructor|]. constructor.
      rewrite Ex, Ey. apply NumFacts.le_Fin.
      unfold zero, gt in E. simpl in E.
      destruct (Rlt_dec 0 (ky - kx)); [discriminate|]. lra.
Qed.

Lemma sortBy_sorted (l : list A) :
  Forall (fun a => isFin (key a)) l -> nonIncreasing key (sortBy cmp l).
Proof.
  unfold nonIncreasing. induction 1 as [|x l Hx Hl IH]; simpl.
  - constructor.
  - apply insertBy_sorted; auto.
    eapply Permutation_Forall; [|exact Hl].
    symmetry. apply sortBy_perm.
Qed.
End Descending.

Lemma firstn_sorted (A : Type) (R : A -> A -> Prop) (n : nat) (l : list A) :
  Sorted R l -> Sorted R (firstn n l).
Proof.
  revert l. induction n as [|n IH]; intros l Hs; simpl; [constructor|].
  destruct l as [|x l]; [constructor|].
  inversion Hs as [|? ? Hs' Hhd]; subst. constructor; [auto|].
  destruct n; simpl; [constructor|].
  destruct l; [constructor|]. inversion Hhd. now constructor.
Qed.

Lemma firstn_In (A : Type) (n : nat) (l : list A) (x : A) :
  In x (firstn n l) -> In x l.
Proof.
  revert l. induction n as [|n IH]; intros [|y l]; simpl; try tauto.
  intros [H|H]; auto.
Qed.

End SortFacts.

(** ** Outliers, in exact arithmetic *)

Module OutlierFacts.

Lemma outliersOf_spec (inM : list Expense) (cat : string) :
  let xs := map amount (filter (inCategory cat) inM) in
  outliersOf inM cat =
  if (length xs <? 3)%nat then []
  else filter (fun e => gt (popStdev xs) (Fin 0)
                        && gt (abs (div (sub (amount e) (popMean xs))
                                        (popStdev xs))) (Fin 2))
              (filter (inCategory cat) inM).
Proof.
  intros xs. unfold outliersOf. fold xs.
  destruct (length xs <? 3)%nat; [reflexivity|].
  unfold popStdev, popVariance, popMean.
  rewrite NumFacts.fold_add_sum, NumFacts.fold_add_map, NumFacts.add_zero_l.
  reflexivity.
Qed.


Local Open Scope R_scope.

Lemma zscore_above (d V : R) :
  0 < V -> 4 * V < d * d -> 2 < Rabs d / R_sqrt.sqrt V.
Proof.
  intros HV H. set (s := R_sqrt.sqrt V).
  assert (Hs : 0 < s) by (apply sqrt_lt_R0; lra).
  assert (Hss : s * s = V) by (apply sqrt_sqrt; lra).
  assert (Ha : Rabs d * Rabs d = d * d)
    by (unfold Rabs; destruct (Rcase_abs d); ring).
  pose proof (Rabs_pos d) as Hpos.
  assert (H2 : 2 * s < Rabs d) by nra.
  apply (Rmult_lt_reg_r s); [exact Hs|].
  unfold Rdiv. rewrite Rmult_assoc, Rinv_l by lra. lra.
Qed.

Lemma zscore_below (d V : R) :
  0 < V -> d * d <= 4 * V -> ~ 2 < Rabs d / R_sqrt.sqrt V.
Proof.
  intros HV H Hlt. set (s := R_sqrt.sqrt V) in *.
  assert (Hs : 0 < s) by (apply sqrt_lt_R0; lra).
  assert (Hss : s * s = V) by (apply sqrt_sqrt; lra).
  assert (Ha : Rabs d * Rabs d = d * d)
    by (unfold Rabs; destruct (Rcase_abs d); ring).
  pose proof (Rabs_pos d) as Hpos.
  assert (H2 : 2 * s < Rabs d).
  { apply (Rmult_lt_compat_r s) in Hlt; [|exact Hs].
    unfold Rdiv in Hlt. rewrite Rmult_assoc, Rinv_l in Hlt by lra. lra. }
  nra.
Qed.

(** The test of the inner loop, without the square root: with a positive
    variance [V], an amount [x] is flagged when [(x - mean)^2 > 4 V]. *)
Lemma outlier_test (x m V : R) :
  0 < V ->
  gt (sqrt (Fin V)) (Fin 0)
  && gt (abs (div (sub (Fin x) (Fin m)) (sqrt (Fin V)))) (Fin 2) =
  lt (Fin (4 * V)) (Fin ((x - m) * (x - m))).
Proof.
  intros HV. pose proof (sqrt_lt_R0 V HV) as Hs.
  assert (Hgt : gt (sqrt (Fin V)) (Fin 0) = true).
  { apply NumFacts.gt_true. exists (R_sqrt.sqrt V), 0. repeat split; auto.
    simpl. destruct (Rlt_dec V 0); [lra | reflexivity]. }
  rewrite Hgt, NumFacts.abs_div_pos by exact Hgt. cbn [andb sub abs sqrt].
  destruct (Rlt_dec V 0); [lra|]. cbn [div].
  destruct (Req_dec_T (R_sqrt.sqrt V) 0); [lra|].
  unfold gt. cbn [lt].
  destruct (Rlt_dec 2 (Rabs (x - m) / R_sqrt.sqrt V)) as [H|H],
           (Rlt_dec (4 * V) ((x - m) * (x - m))) as [H'|H'];
    try reflexivity; exfalso.
  - apply (@zscore_below (x - m) V HV); [lra | exact H].
  - apply H. now apply zscore_above.
Qed.

End OutlierFacts.

(** ** The month total *)

Module TotalFacts.

Local Open Scope string_scope.


Lemma stringToNumber_empty : stringToNumber "" = Fin 0.
Proof. reflexivity. Qed.

Local Open Scope R_scope.

Example stringToNumber_padded : stringToNumber " 12.5 " = Fin 12.5.
Proof. vm_compute. f_equal. lra. Qed.

Example stringToNumber_exponent : stringToNumber "1e3" = Fin 1000.
Proof. vm_compute. f_equal. lra. Qed.

Example stringToNumber_signed : stringToNumber "-.5E-1" = Fin (-0.05).
Proof. vm_compute. f_equal. lra. Qed.

Example stringToNumber_hexadecimal : stringToNumber "0x10" = Fin 16.
Proof. reflexivity. Qed.

Example stringToNumber_binary : stringToNumber "0b11" = Fin 3.
Proof. reflexivity. Qed.

Example stringToNumber_octal : stringToNumber "0o17" = Fin 15.
Proof. reflexivity. Qed.

Example stringToNumber_trailing : stringToNumber "12abc" = NaN.
Proof. reflexivity. Qed.

Example stringToNumber_blank : stringToNumber "  " = Fin 0.
Proof. reflexivity. Qed.

Example stringToNumber_two_dots : stringToNumber "1.2.3" = NaN.
Proof. reflexivity. Qed.

Example parseNumber_signed_radix : parseNumber "-0x10" = NotNumeric.
Proof. reflexivity. Qed.

Example parseNumber_infinity : parseNumber " -Infinity" = Infinite true.
Proof. reflexivity. Qed.

Example parseNumber_bare_prefix : parseNumber "0x" = NotNumeric.
Proof. reflexivity. Qed.

Local Close Scope R_scope.








End TotalFacts.




(** ** Evaluation on concrete inputs *)

Module EvalFacts.

Local Open Scope R_scope.

Lemma Int_part_eq (z : Z) (x : R) :
  IZR z <= x < IZR z + 1 -> Int_part x = z.
Proof. intros H. symmetry. apply Int_part_spec. lra. Qed.

(** A non-increasing list of two elements or more has no NaN key. *)
Lemma nonIncreasing_isFin (A : Type) (key : A -> num) (l : list A) :
  nonIncreasing key l -> (2 <= length l)%nat ->
  forall x, In x l -> isFin (key x).
Proof.
  unfold nonIncreasing. induction 1 as [|x l Hs IH Hhd]; simpl; [lia|].
  intros Hlen. destruct Hhd as [|y l Hxy]; [simpl in Hlen; lia|].
  apply NumFacts.ge_true in Hxy. destruct Hxy as (a & b & Ha & Hb & _).
  intros z [<-|Hz]; [now rewrite Ha|].
  destruct l as [|y' l].
  - destruct Hz as [<-|[]]. now rewrite Hb.
  - apply IH; [simpl; lia | exact Hz].
Qed.

(** No ordering of a list of two elements or more with a NaN key is
    non-increasing. *)
Lemma NaN_never_sorted (A : Type) (key : A -> num) (l l' : list A) (x : A) :
  In x l -> key x = NaN -> (2 <= length l)%nat -> Permutation l' l ->
  ~ nonIncreasing key l'.
Proof.
  intros Hx Hnan Hlen Hp Hs.
  assert (H : isFin (key x)).
  { apply (nonIncreasing_isFin Hs).
    - now rewrite (Permutation_length Hp).
    - apply Permutation_in with (l := l); [now symmetry | exact Hx]. }
  now rewrite Hnan in H.
Qed.

End EvalFacts.

Section Examples.

Local Open Scope string_scope.
Local Open Scope R_scope.

(** The specification's example of a budget flag: a budget of 1000 for
    Groceries and 1200 spent. *)
Example groceries_over_budget :
  budgetFlags (analyze isoMonthKey
                 [expense "2024-03-05" (Fin 1200) "Groceries" "Mart" true]
                 [("Groceries", Fin 1000)] "2024-03") =
  [ {| flag_category := "Groceries"; flag_amount := Fin 1200;
       flag_budget := Fin 1000; flag_overBy := Fin 200 |} ].
Proof. unfold_engine. js_eval. repeat f_equal; lra. Qed.

(** The specification's example of a recurring charge: 999 in three
    consecutive months. *)
Example netflix_recurring :
  detectRecurring isoMonthKey
    [expense "2024-01-05" (Fin 999) "Entertainment" "Netflix" false;
     expense "2024-02-05" (Fin 999) "Entertainment" "Netflix" false;
     expense "2024-03-05" (Fin 999) "Entertainment" "Netflix" false] =
  [ {| rec_merchant := "Netflix"; rec_mean := Fin 999; rec_months := 3 |} ].
Proof.
  unfold_engine. js_eval. rewrite (EvalFacts.Int_part_eq 999) by lra.
  reflexivity.
Qed.

End Examples.

(** ** Inputs with an amount that is not a number *)

Section NaNAmounts.

Local Open Scope string_scope.
Local Open Scope R_scope.

(** C6, at an input where it fails.  Three wants in one category, of 5,
    NaN and 7.  The total counts the NaN as 0 and is 12; the category
    total turns NaN and then restarts from 0, ending at 7; the want total
    stays NaN. *)
Theorem total_disagrees_on_NaN :
  let a := analyze isoMonthKey
             [expense "2024-03-05" (Fin 5) "Dining" "Cafe" false;
              expense "2024-03-06" NaN "Dining" "Cafe" false;
              expense "2024-03-07" (Fin 7) "Dining" "Cafe" false]
             [] "2024-03" in
  total a = Fin 12
  /\ map cat_amount (catArr a) = [Fin 7]
  /\ sum (map cat_amount (catArr a)) = Fin 7
  /\ add (needs (wantsNeeds a)) (want (wantsNeeds a)) = NaN.
Proof.
  repeat split; unfold_engine; js_eval; try reflexivity;
    repeat f_equal; lra.
Qed.

(** C8, at an input where it fails.  Three categories, the second with a
    NaN amount: every comparison with the NaN total is a tie, so the sort
    leaves 5 in front of 10, in the category totals and in the merchant
    totals alike; and no ordering of either list is non-increasing. *)
Theorem totals_unsorted_on_NaN :
  let a := analyze isoMonthKey
             [expense "2024-03-05" (Fin 5) "Transport" "Metro" true;
              expense "2024-03-06" NaN "Dining" "Cafe" false;
              expense "2024-03-07" (Fin 10) "Groceries" "Mart" true]
             [] "2024-03" in
  map cat_amount (catArr a) = [Fin 5; NaN; Fin 10]
  /\ map mer_amount (topMerchants a) = [Fin 5; NaN; Fin 10]
  /\ (forall l, Permutation l (catArr a) -> ~ nonIncreasing cat_amount l)
  /\ (forall l, Permutation l (topMerchants a) ->
                ~ nonIncreasing mer_amount l).
Proof.
  assert (Hc : catArr (analyze isoMonthKey
             [expense "2024-03-05" (Fin 5) "Transport" "Metro" true;
              expense "2024-03-06" NaN "Dining" "Cafe" false;
              expense "2024-03-07" (Fin 10) "Groceries" "Mart" true]
             [] "2024-03") =
          [ {| cat_category := "Transport"; cat_amount := Fin (0 + 5) |};
            {| cat_category := "Dining"; cat_amount := NaN |};
            {| cat_category := "Groceries"; cat_amount := Fin (0 + 10) |} ])
    by (unfold_engine; js_eval; reflexivity).
  assert (Hm : topMerchants (analyze isoMonthKey
             [expense "2024-03-05" (Fin 5) "Transport" "Metro" true;
              expense "2024-03-06" NaN "Dining" "Cafe" false;
              expense "2024-03-07" (Fin 10) "Groceries" "Mart" true]
             [] "2024-03") =
          [ {| mer_merchant := "Metro"; mer_amount := Fin (0 + 5) |};
            {| mer_merchant := "Cafe"; mer_amount := NaN |};
            {| mer_merchant := "Mart"; mer_amount := Fin (0 + 10) |} ])
    by (unfold_engine; js_eval; reflexivity).
  cbv zeta. rewrite Hc, Hm. repeat split.
  - cbn. repeat f_equal; lra.
  - cbn. repeat f_equal; lra.
  - intros l. apply EvalFacts.NaN_never_sorted
      with (x := {| cat_category := "Dining"; cat_amount := NaN |});
      simpl; auto.
  - intros l. apply EvalFacts.NaN_never_sorted
      with (x := {| mer_merchant := "Cafe"; mer_amount := NaN |});
      simpl; auto.
Qed.

(** C5, at an input where it fails.  A subscription of 999 in January and
    February, and in March a want of 10 and then a need whose amount is
    NaN at the same merchant.  The Top Merchant candidate has impact NaN,
    every comparison with it is a tie, and the suggestions come out in
    generation order: impact 2 in front of impact 999.  No ordering of
    them is non-increasing by impact. *)
Theorem suggestions_unsorted_on_NaN :
  let a := analyze isoMonthKey
             [expense "2024-01-05" (Fin 999) "Entertainment" "Netflix" false;
              expense "2024-02-05" (Fin 999) "Entertainment" "Netflix" false;
              expense "2024-03-05" (Fin 10) "Dining" "Cafe" false;
              expense "2024-03-06" NaN "Dining" "Cafe" true]
             [] "2024-03" in
  map title (suggestions a) =
    ["Trim Wants"; "Top Merchant: Cafe"; "Recurring: Netflix"]
  /\ map impact (suggestions a) = [Fin 2; NaN; Fin 999]
  /\ (forall l, Permutation l (suggestions a) -> ~ nonIncreasing impact l).
Proof.
  assert (Hs : suggestions (analyze isoMonthKey
             [expense "2024-01-05" (Fin 999) "Entertainment" "Netflix" false;
              expense "2024-02-05" (Fin 999) "Entertainment" "Netflix" false;
              expense "2024-03-05" (Fin 10) "Dining" "Cafe" false;
              expense "2024-03-06" NaN "Dining" "Cafe" true]
             [] "2024-03") =
          [ {| title := "Trim Wants";
               body := TrimWantsBody (Fin ((0 + 10) / (0 + 10 + 0) * 100));
               impact := Fin ((0 + 10) * 0.2) |};
            {| title := "Top Merchant: Cafe";
               body := TopMerchantBody NaN;
               impact := NaN |};
            {| title := "Recurring: Netflix";
               body := RecurringBody (Fin 999);
               impact := Fin 999 |} ]).
  { unfold_engine. js_eval.
    - rewrite (EvalFacts.Int_part_eq 999) by lra. reflexivity.
    - exfalso. rewrite (EvalFacts.Int_part_eq 999) in * by lra. lra. }
  cbv zeta. rewrite Hs. repeat split.
  - cbn. repeat f_equal; lra.
  - intros l. apply EvalFacts.NaN_never_sorted
      with (x := {| title := "Top Merchant: Cafe";
                    body := TopMerchantBody NaN; impact := NaN |});
      simpl; auto.
Qed.

(** C4, at an input where it fails.  Groceries has a budget of 1000 and
    in-month amounts 5, NaN and 1200: the flag records 1200 as the spend
    and 200 as the overage, although the amounts add up to NaN (and to
    1205, the month total, once NaN counts as 0). *)
Theorem budget_flag_drops_spend_on_NaN :
  let expenses :=
    [expense "2024-03-05" (Fin 5) "Groceries" "Mart" true;
     expense "2024-03-06" NaN "Groceries" "Mart" true;
     expense "2024-03-07" (Fin 1200) "Groceries" "Mart" true] in
  let a := analyze isoMonthKey expenses [("Groceries", Fin 1000)] "2024-03" in
  budgetFlags a =
    [ {| flag_category := "Groceries"; flag_amount := Fin 1200;
         flag_budget := Fin 1000; flag_overBy := Fin 200 |} ]
  /\ spent isoMonthKey expenses "2024-03" "Groceries" = NaN
  /\ total a = Fin 1205.
Proof.
  repeat split; unfold_engine; js_eval; try reflexivity.
  - repeat f_equal; lra.
  - f_equal; lra.
Qed.

End NaNAmounts.

(** ** The month filter *)

Section MonthFilter.

Local Open Scope string_scope.
Local Open Scope R_scope.

(** C7, as stated, fails: a transaction of another month decides an
    aggregate of the result.  The January charge is not in the February
    analysis' [inMonth], yet it is what makes Netflix recurring there. *)
Lemma recurring_sees_other_months :
  let jan := expense "2024-01-05" (Fin 999) "Entertainment" "Netflix" false in
  let feb := expense "2024-02-05" (Fin 999) "Entertainment" "Netflix" false in
  isoMonthKey (date jan) <> "2024-02"
  /\ inMonth (analyze isoMonthKey [jan; feb] [] "2024-02") = [feb]
  /\ inMonth (analyze isoMonthKey [feb] [] "2024-02") = [feb]
  /\ recurring (analyze isoMonthKey [jan; feb] [] "2024-02") =
       [ {| rec_merchant := "Netflix"; rec_mean := Fin 999;
            rec_months := 2 |} ]
  /\ recurring (analyze isoMonthKey [feb] [] "2024-02") = []
  /\ recurring (analyze isoMonthKey [jan; feb] [] "2024-02") <>
     recurring (analyze isoMonthKey [feb] [] "2024-02").
Proof.
  cbv zeta.
  assert (H1 : recurring (analyze isoMonthKey
      [expense "2024-01-05" (Fin 999) "Entertainment" "Netflix" false;
       expense "2024-02-05" (Fin 999) "Entertainment" "Netflix" false]
      [] "2024-02") =
    [ {| rec_merchant := "Netflix"; rec_mean := Fin 999; rec_months := 2 |} ]).
  { unfold_engine. js_eval. rewrite (EvalFacts.Int_part_eq 999) by lra.
    reflexivity. }
  assert (H2 : recurring (analyze isoMonthKey
      [expense "2024-02-05" (Fin 999) "Entertainment" "Netflix" false]
      [] "2024-02") = []) by reflexivity.
  rewrite H1, H2. repeat split; try reflexivity; discriminate.
Qed.

(** C7, amended.  [inMonth] is the subsequence of the input whose month
    key is the requested one, in input order, and every part of the result
    other than [recurring] is a function of that subsequence: two
    histories with the same in-month subsequence get the same [inMonth],
    [total], [catArr], [topMerchants], [wantsNeeds], [budgetFlags],
    [smallDrains] and [outliers].  ([recurring] is computed from the whole
    history.) *)
Theorem analyze_ignores_other_months
  (monthKey : string -> string) (expenses expenses' : list Expense)
  (budgets : Budgets) (month : string) :
  filter (fun e => String.eqb (monthKey (date e)) month) expenses =
  filter (fun e => String.eqb (monthKey (date e)) month) expenses' ->
  let a := analyze monthKey expenses budgets month in
  let a' := analyze monthKey expenses' budgets month in
  inMonth a = filter (fun e => String.eqb (monthKey (date e)) month) expenses
  /\ (forall e, In e (inMonth a) <-> In e expenses /\ monthKey (date e) = month)
  /\ inMonth a' = inMonth a
  /\ total a' = total a
  /\ catArr a' = catArr a
  /\ topMerchants a' = topMerchants a
  /\ wantsNeeds a' = wantsNeeds a
  /\ budgetFlags a' = budgetFlags a
  /\ smallDrains a' = smallDrains a
  /\ outliers a' = outliers a.
Proof.
  intros H a a'. split; [reflexivity|]. split.
  - intros e. unfold a, analyze. cbn [inMonth].
    now rewrite filter_In, String.eqb_eq.
  - unfold a, a', analyze.
    cbn [inMonth total catArr topMerchants wantsNeeds budgetFlags
         smallDrains outliers].
    rewrite H. repeat split; reflexivity.
Qed.

(** The January charge does not change the February total. *)
Lemma analyze_ignores_other_months_witness :
  let jan := expense "2024-01-05" (Fin 999) "Entertainment" "Netflix" false in
  let feb := expense "2024-02-05" (Fin 999) "Entertainment" "Netflix" false in
  total (analyze isoMonthKey [feb] [] "2024-02") =
  total (analyze isoMonthKey [jan; feb] [] "2024-02").
Proof.
  intros jan feb.
  apply (analyze_ignores_other_months isoMonthKey [jan; feb] [feb] []
           "2024-02").
  reflexivity.
Defined.

End MonthFilter.

(** ** The ranker *)

Module RankerFacts.

Local Open Scope string_scope.
Local Open Scope R_scope.

Lemma candidates_length (a : Analysis) : (length (candidates a) <= 5)%nat.
Proof.
  unfold candidates, trimWants, overBudget, smallSpends, topMerchant,
    recurringCharge.
  rewrite !length_app.
  destruct (gt (want (wantsNeeds a)) (Fin 0)), (budgetFlags a),
    (smallDrains a), (topMerchants a),
    (filter (fun r => ge (rec_mean r) (Fin 200)) (recurring a));
    simpl; lia.
Qed.

Lemma suggestions_perm (a : Analysis) :
  Permutation (suggestions a) (candidates a).
Proof.
  unfold suggestions. rewrite firstn_all2.
  - apply SortFacts.sortBy_perm.
  - rewrite SortFacts.sortBy_length. apply candidates_length.
Qed.

Lemma suggestions_In (a : Analysis) (s : Suggestion) :
  In s (suggestions a) <-> In s (candidates a).
Proof.
  split; apply Permutation_in; [|symmetry]; apply suggestions_perm.
Qed.

Lemma wantRatio_isFin (a : Analysis) :
  gt (want (wantsNeeds a)) (Fin 0) = true -> isFin (wantRatio a).
Proof.
  intros H. apply NumFacts.gt_true in H. destruct H as (w & z & Hw & _ & _).
  unfold wantRatio, orNum, truthy. rewrite Hw.
  destruct (total a) as [t|]; simpl.
  - destruct (Req_dec_T t 0); simpl.
    + destruct (Req_dec_T 1 0); [lra | exact I].
    + destruct (Req_dec_T t 0); [contradiction | exact I].
  - destruct (Req_dec_T 1 0); [lra | exact I].
Qed.

Lemma wantRatio_guarded (a : Analysis) :
  truthy (total a) = false ->
  wantRatio a = mul (want (wantsNeeds a)) (Fin 100).
Proof.
  intros H. unfold wantRatio, orNum. rewrite H.
  destruct (want (wantsNeeds a)) as [w|]; simpl; [|reflexivity].
  destruct (Req_dec_T 1 0); [lra|]. simpl. f_equal. lra.
Qed.

End RankerFacts.

(** ** The accumulation loop *)

Module SumFacts.

Local Open Scope R_scope.

Lemma byCat_fold (l : list Expense) (s : Sums) :
  byCat (fold_left sumStep l s) =
  fold_left (fun o e => bump o (category e) (amount e)) l (byCat s).
Proof.
  revert s. induction l as [|e l IH]; intros s; simpl; [reflexivity|].
  now rewrite IH.
Qed.

Lemma byMerchant_fold (l : list Expense) (s : Sums) :
  byMerchant (fold_left sumStep l s) =
  fold_left (fun o e => bump o (merchant e) (amount e)) l (byMerchant s).
Proof.
  revert s. induction l as [|e l IH]; intros s; simpl; [reflexivity|].
  now rewrite IH.
Qed.

Lemma nonNegative_add (a b : num) :
  nonNegative a -> nonNegative b -> nonNegative (add a b).
Proof. destruct a, b; simpl; try tauto. lra. Qed.

Lemma nonNegative_orElse (o : obj num) (k : string) :
  Forall (fun kv => nonNegative (snd kv)) o ->
  nonNegative (orElse (get o k) (Fin 0)).
Proof.
  intros Ho. destruct (get o k) as [v|] eqn:E; simpl; [|lra].
  apply ObjFacts.get_In in E. rewrite Forall_forall in Ho.
  apply Ho in E. simpl in E. unfold orNum.
  destruct (truthy v); [exact E | simpl; lra].
Qed.

(** Under a name that [Object.prototype] does not have, [bump] adds. *)
Lemma bump_plain (o : obj num) (k : string) (x : num) :
  inherited k = false ->
  bump o k x = set o k (add (orElse (get o k) (Fin 0)) x).
Proof. intros H. unfold bump. now rewrite H. Qed.

Lemma bump_nonNegative (o : obj num) (k : string) (x : num) :
  inherited k = false ->
  Forall (fun kv => nonNegative (snd kv)) o -> nonNegative x ->
  Forall (fun kv => nonNegative (snd kv)) (bump o k x).
Proof.
  intros Hk Ho Hx. rewrite bump_plain by exact Hk.
  apply ObjFacts.Forall_set; [exact Ho|].
  intros k0. simpl. apply nonNegative_add; [|exact Hx].
  now apply nonNegative_orElse.
Qed.

(** Sums of non-negative amounts, grouped by a key, are non-negative. *)
Lemma bump_fold_nonNegative (key : Expense -> string) (l : list Expense)
      (o : obj num) :
  Forall (fun kv => nonNegative (snd kv)) o ->
  (forall e, In e l -> nonNegative (amount e)) ->
  (forall e, In e l -> inherited (key e) = false) ->
  Forall (fun kv => nonNegative (snd kv))
         (fold_left (fun o e => bump o (key e) (amount e)) l o).
Proof.
  revert o. induction l as [|e l IH]; intros o Ho Hl Hk; simpl; [exact Ho|].
  apply IH.
  - apply bump_nonNegative; [apply Hk; now left | exact Ho|].
    apply Hl. now left.
  - intros e' He'. apply Hl. now right.
  - intros e' He'. apply Hk. now right.
Qed.

End SumFacts.

(** When every amount of the input is a non-negative number and no
    merchant is named like a property of [Object.prototype], every
    suggestion of the ranker has a non-negative impact.  And a Frequent
    small spends suggestion, whenever emitted, has an impact of at least
    200: its count is at least 5 and its impact is [100 * count * 0.4]. *)
Theorem suggestion_impacts_nonnegative
  (monthKey : string -> string) (expenses : list Expense) (budgets : Budgets)
  (month : string) :
  (forall e, In e expenses -> nonNegative (amount e)) ->
  (forall e, In e expenses -> plain (merchant e)) ->
  forall s, In s (suggestions (analyze monthKey expenses budgets month)) ->
            nonNegative (impact s)
            /\ (prefix "Frequent small spends" (title s) = true ->
                ge (impact s) (Fin 200) = true
                /\ exists count,
                     ge count (Fin 5) = true
                     /\ impact s = mul (mul (Fin 100) count) (Fin 0.4)).
Proof.
  intros Hpos Hplain s Hs. apply RankerFacts.suggestions_In in Hs.
  unfold candidates in Hs. rewrite !in_app_iff in Hs.
  destruct Hs as [Hs|[Hs|[Hs|[Hs|Hs]]]].
  - (* Trim Wants *)
    unfold trimWants in Hs.
    destruct (gt (want (wantsNeeds _)) (Fin 0)) eqn:E; [|easy].
    destruct Hs as [<-|[]]. cbn [impact title]. split; [|discriminate].
    apply NumFacts.gt_true in E. destruct E as (w & z & -> & Hz & Hw).
    injection Hz as <-. simpl. lra.
  - (* Over Budget *)
    unfold overBudget in Hs.
    destruct (budgetFlags _) as [|b fl] eqn:E; [easy|].
    destruct Hs as [<-|[]]. cbn [impact title]. split; [|discriminate].
    assert (Hb : In b (budgetFlags (analyze monthKey expenses budgets month)))
      by (rewrite E; now left).
    unfold analyze in Hb. cbn [budgetFlags] in Hb.
    apply SortFacts.sortBy_In, filter_In in Hb. destruct Hb as [Hb Ht].
    apply in_map_iff in Hb. destruct Hb as (c & <- & _).
    cbn [flag_budget flag_amount flag_overBy] in *.
    apply andb_true_iff in Ht. destruct Ht as [Hb0 Hab].
    apply NumFacts.gt_true in Hb0. destruct Hb0 as (y & z & Hy & Hz & Hy0).
    injection Hz as <-.
    apply NumFacts.gt_true in Hab. destruct Hab as (x & y' & Hx & Hy' & Hxy).
    rewrite Hy in Hy'. injection Hy' as <-. rewrite Hx, Hy. simpl.
    apply Rmin_glb; [apply Rmax_l | lra].
  - (* Frequent small spends *)
    unfold smallSpends in Hs.
    destruct (smallDrains _) as [|d dl] eqn:E; [easy|].
    destruct Hs as [<-|[]]. cbn [impact title].
    assert (Hd : In d (smallDrains (analyze monthKey expenses budgets month)))
      by (rewrite E; now left).
    unfold analyze in Hd. cbn [smallDrains] in Hd.
    apply in_map_iff in Hd. destruct Hd as (kv & <- & Hkv).
    apply filter_In in Hkv. destruct Hkv as [_ Hge]. cbn [drain_count].
    pose proof Hge as Hge'.
    apply NumFacts.ge_true in Hge. destruct Hge as (c & z & Hc & Hz & Hc5).
    injection Hz as <-. rewrite Hc in *.
    assert (H200 : ge (mul (mul (Fin 100) (Fin c)) (Fin 0.4)) (Fin 200) = true)
      by (apply NumFacts.le_Fin; lra).
    split; [simpl; lra|]. intros _. split; [exact H200|].
    exists (Fin c). split; [exact Hge' | reflexivity].
  - (* Top Merchant *)
    unfold topMerchant in Hs.
    destruct (topMerchants _) as [|t tl] eqn:E; [easy|].
    destruct Hs as [<-|[]]. cbn [impact title]. split; [|discriminate].
    assert (Ht : In t (topMerchants (analyze monthKey expenses budgets month)))
      by (rewrite E; now left).
    unfold analyze in Ht. cbn [topMerchants] in Ht.
    apply SortFacts.firstn_In, SortFacts.sortBy_In, in_map_iff in Ht.
    destruct Ht as (kv & <- & Hkv). cbn [mer_amount].
    apply (proj1 (ObjFacts.entries_In _ _)) in Hkv.
    rewrite SumFacts.byMerchant_fold in Hkv. cbn [byMerchant] in Hkv.
    assert (Hall : Forall (fun kv => nonNegative (snd kv))
              (fold_left (fun o e => bump o (merchant e) (amount e))
                 (filter (fun e => String.eqb (monthKey (date e)) month)
                         expenses) [])).
    { apply SumFacts.bump_fold_nonNegative; [constructor| |].
      - intros e He. apply filter_In in He. now apply Hpos.
      - intros e He. apply filter_In in He. now apply Hplain. }
    rewrite Forall_forall in Hall. apply Hall in Hkv.
    destruct (snd kv) as [v|]; simpl in *; [lra | contradiction].
  - (* Recurring *)
    unfold recurringCharge in Hs.
    destruct (filter _ (recurring _)) as [|r rl] eqn:E; [easy|].
    destruct Hs as [<-|[]]. cbn [impact title]. split; [|discriminate].
    assert (Hr : In r (r :: rl)) by now left.
    rewrite <- E in Hr. apply filter_In in Hr. destruct Hr as [_ Hr].
    apply NumFacts.ge_true in Hr. destruct Hr as (m & z & -> & Hz & Hm).
    injection Hz as <-. simpl. lra.
Qed.

Section SmallSpends.

Local Open Scope string_scope.
Local Open Scope R_scope.

(** Five small wants at one merchant: three suggestions, the frequent
    small spends first. *)
Example coffees_suggestions :
  map title (suggestions (analyze isoMonthKey coffees [] "2024-03")) =
    ["Frequent small spends at Cafe"; "Trim Wants"; "Top Merchant: Cafe"]
  /\ map impact (suggestions (analyze isoMonthKey coffees [] "2024-03")) =
    [Fin 200; Fin 10; Fin 5].
Proof.
  split; unfold coffees; unfold_engine; js_eval; try reflexivity.
  repeat f_equal; lra.
Qed.

(** The five coffees: every suggestion has a non-negative impact. *)
Lemma suggestion_impacts_nonnegative_witness :
  Forall (fun s => nonNegative (impact s))
         (suggestions
            (analyze isoMonthKey
               [expense "2024-03-11" (Fin 10) "Dining" "Cafe" false;
                expense "2024-03-12" (Fin 10) "Dining" "Cafe" false;
                expense "2024-03-13" (Fin 10) "Dining" "Cafe" false;
                expense "2024-03-14" (Fin 10) "Dining" "Cafe" false;
                expense "2024-03-15" (Fin 10) "Dining" "Cafe" false]
               [] "2024-03")).
Proof.
  apply Forall_forall. intros s Hs.
  apply (suggestion_impacts_nonnegative isoMonthKey
           [expense "2024-03-11" (Fin 10) "Dining" "Cafe" false;
            expense "2024-03-12" (Fin 10) "Dining" "Cafe" false;
            expense "2024-03-13" (Fin 10) "Dining" "Cafe" false;
            expense "2024-03-14" (Fin 10) "Dining" "Cafe" false;
            expense "2024-03-15" (Fin 10) "Dining" "Cafe" false]
           [] "2024-03"); [| |exact Hs].
  - intros e [<-|[<-|[<-|[<-|[<-|[]]]]]]; simpl; lra.
  - intros e [<-|[<-|[<-|[<-|[<-|[]]]]]]; reflexivity.
Defined.

(** C10.  One want of 5 at a merchant named [constructor], in an input
    whose amounts are all non-negative numbers: [byMerchant.constructor]
    starts from the function every object inherits under that name and
    becomes a text, so the Top Merchant suggestion is emitted with an
    impact that is not a number, hence not non-negative. *)
Theorem impact_not_a_number_at_constructor :
  let expenses :=
    [expense "2024-03-11" (Fin 5) "Dining" "constructor" false] in
  let out := suggestions (analyze isoMonthKey expenses [] "2024-03") in
  (forall e, In e expenses -> nonNegative (amount e))
  /\ map title out = ["Trim Wants"; "Top Merchant: constructor"]
  /\ map impact out = [mul (Fin 5) (Fin 0.2); NaN]
  /\ exists s, In s out /\ ~ nonNegative (impact s).
Proof.
  intros expenses out.
  assert (Hout : out =
    [ {| title := "Trim Wants";
         body := TrimWantsBody (mul (div (Fin (0 + 5)) (Fin (0 + 5)))
                                    (Fin 100));
         impact := mul (Fin (0 + 5)) (Fin 0.2) |};
      {| title := "Top Merchant: constructor";
         body := TopMerchantBody NaN;
         impact := NaN |} ]).
  { unfold out, expenses. unfold_engine. js_eval. reflexivity. }
  split; [|split; [|split]].
  - intros e [<-|[]]. simpl. lra.
  - now rewrite Hout.
  - rewrite Hout. cbn [map impact mul]. repeat f_equal. lra.
  - rewrite Hout. eexists. split; [right; left; reflexivity|].
    cbn [impact]. intros H. exact H.
Qed.

End SmallSpends.

(** ** Recurring merchants, in exact arithmetic *)

Module RecurFacts.

Local Open Scope R_scope.






Example sortStrings_months :
  sortStrings ["2024-10"; "2024-02"; "2023-12"]%string =
  ["2023-12"; "2024-02"; "2024-10"]%string.
Proof. reflexivity. Qed.



Section Grouping.

Variable monthKey : string -> string.

Local Abbreviation group l := (fold_left (groupStep monthKey) l []).

Local Abbreviation months l m := (orEmpty (get (group l) m)).

Local Abbreviation inMonthOf m k :=
  (fun e => chargedBy m e && String.eqb (monthKey (date e)) k).

















(** A steady mean is a proper number, and so is its rounding. *)
Lemma steady_isFin (l : list Expense) (m : string) :
  steady monthKey l m = true ->
  isFin (round (popMean (monthlyAverages monthKey l m))).
Proof.
  unfold steady. intros H. apply NumFacts.lt_true in H.
  destruct H as (x & y & _ & Hy & _).
  destruct (popMean (monthlyAverages monthKey l m)); [exact I|discriminate].
Qed.

End Grouping.

End RecurFacts.

(** ** The thresholds in binary64

    Facts about the computations of module [B64], from the specification
    of the primitive floats. *)

Module B64Facts.

Import PrimFloat FloatOps SpecFloat FloatAxioms.
Import B64.
Local Open Scope float_scope.

(** *** Signs and special values *)

Lemma positive_shape (s : float) :
  (0 <? s) = true ->
  (exists m e, Prim2SF s = S754_finite false m e)
  \/ Prim2SF s = S754_infinity false.
Proof.
  rewrite ltb_spec. change (Prim2SF 0) with (S754_zero false).
  destruct (Prim2SF s) as [[]|[]| |[] m e]; simpl; try discriminate; eauto.
Qed.

Lemma abs_round (s : bool) (m e : Z) (l : location) :
  SFabs (binary_round_aux prec emax s m e l) =
  binary_round_aux prec emax false m e l.
Proof.
  unfold binary_round_aux.
  destruct (shr_fexp prec emax m e l) as [mrs e'].
  destruct (shr_fexp prec emax _ e' loc_Exact) as [mrs' e''].
  destruct (shr_m mrs'); [reflexivity| |reflexivity].
  now destruct (e'' <=? emax - prec)%Z.
Qed.

(** With a positive divisor the absolute value of the quotient is the
    quotient of the absolute value. *)
Lemma abs_of_quotient (a s : float) :
  (0 <? s) = true -> abs (a / s) = abs a / s.
Proof.
  intros Hs. apply Prim2SF_inj.
  rewrite abs_spec, !div_spec, abs_spec.
  destruct (positive_shape Hs) as [(m & e & ->)| ->];
    destruct (Prim2SF a) as [[]|[]| |sa ma ea]; try reflexivity.
  unfold SF64div, SFdiv. cbn [SFabs].
  destruct (SFdiv_core_binary prec emax (Z.pos ma) ea (Z.pos m) e)
    as [[mz ez] lz].
  rewrite abs_round. reflexivity.
Qed.


(** The guard of the percentage: the denominator [total || 1] is never 0
    and never NaN. *)
Lemma guarded_denominator (t : float) :
  is_zero (orNum t 1) = false /\ is_nan (orNum t 1) = false.
Proof.
  unfold orNum. destruct (is_nan t) eqn:En; [now split|].
  destruct (is_zero t) eqn:Ez; [now split|]. now split.
Qed.

(** *** Outliers *)

Lemma fold_squares (m : float) (xs : list float) (a : float) :
  fold_left (fun s x => s + sq (x - m)) xs a =
  fold_left add (map (fun x => sq (x - m)) xs) a.
Proof. revert a. induction xs as [|x xs IH]; intros a; simpl; auto. Qed.

Lemma outliersOf_stats (inM : list Expense) (cat : string) :
  let xs := map amount (filter (inCategory cat) inM) in
  outliersOf inM cat =
  if (length xs <? 3)%nat then []
  else filter (fun e => (0 <? stdev xs)
                        && (2 <? abs ((amount e - mean xs) / stdev xs)))
              (filter (inCategory cat) inM).
Proof.
  intros xs. unfold outliersOf. fold xs.
  destruct (length xs <? 3)%nat; [reflexivity|].
  unfold stdev, mean. rewrite fold_squares, length_map. reflexivity.
Qed.

Lemma outliersOf_member (inM : list Expense) (cat : string) (t : Expense) :
  let xs := map amount (filter (inCategory cat) inM) in
  In t (outliersOf inM cat) <->
  category t = cat /\ In t inM /\ (3 <= length xs)%nat /\
  (0 <? stdev xs) = true /\
  (2 <? abs (amount t - mean xs) / stdev xs) = true.
Proof.
  intros xs. rewrite outliersOf_stats. fold xs.
  destruct (Nat.ltb_spec (length xs) 3) as [Hlt|Hge].
  - simpl. split; [tauto|]. intros (_ & _ & H & _). lia.
  - rewrite !filter_In, andb_true_iff. unfold inCategory at 1.
    rewrite String.eqb_eq. split.
    + intros ((Hin & Hc) & Hsd & Hz).
      rewrite abs_of_quotient in Hz by exact Hsd. tauto.
    + intros (Hc & Hin & _ & Hsd & Hz).
      rewrite abs_of_quotient by exact Hsd. tauto.
Qed.

(** *** Sorted month keys *)

Local Abbreviation before := (fun a b : string => String.ltb a b = true).










(** *** Rounding to the nearest integer *)


(** *** A steady mean is finite *)

Local Abbreviation lost := (fun x : spec_float =>
  x = S754_infinity false \/ x = S754_nan).





(** *** The final sort *)

Section Sorting.

Variable A : Type.
Variable after : A -> A -> bool.




End Sorting.

Local Abbreviation byMean :=
  (fun a b : Recurring => positive (rec_mean b, rec_mean a)).

Local Abbreviation whole :=
  (fun r : Recurring => exists n, rec_mean r = Whole n).




(** *** Grouping by merchant and month *)

Section Grouping.

Variable monthKey : string -> string.

Local Abbreviation group l := (fold_left (groupStep monthKey) l []).

Local Abbreviation months l m := (orEmpty (get (group l) m)).

Local Abbreviation inMonthOf m k :=
  (fun e => chargedBy m e && String.eqb (monthKey (date e)) k).















End Grouping.

End B64Facts.

Section OutliersInBinary64.

Import PrimFloat.
Local Open Scope string_scope.
Local Open Scope float_scope.

(** C2, as stated, fails: the test is made on rounded numbers.  Of five
    purchases of 10, 10, 10, 10 and 11 the mean is 10.2 and the population
    standard deviation 0.4, so that the 11 lies exactly two deviations from
    the mean, not more; the code, whose mean is 10.199999999999999, flags
    it. *)
Lemma outlier_by_rounding :
  let t := B64.expense "2024-03-05" 11 "Dining" "Cafe" false in
  let xs := [Fin 10; Fin 10; Fin 10; Fin 10; Fin 11] in
  B64.outliers isoMonthKey
    [B64.expense "2024-03-01" 10 "Dining" "Cafe" false;
     B64.expense "2024-03-02" 10 "Dining" "Cafe" false;
     B64.expense "2024-03-03" 10 "Dining" "Cafe" false;
     B64.expense "2024-03-04" 10 "Dining" "Cafe" false;
     t] "2024-03" = [t]
  /\ Js.gt (Js.div (Js.abs (Js.sub (Fin 11) (popMean xs))) (popStdev xs))
           (Fin 2) = false.
Proof.
  split; [vm_compute; reflexivity|].
  assert (Hm : popMean [Fin 10; Fin 10; Fin 10; Fin 10; Fin 11]
               = Fin (51 / 5)).
  { unfold popMean. js_eval. f_equal. lra. }
  assert (Hs : popStdev [Fin 10; Fin 10; Fin 10; Fin 10; Fin 11]
               = Fin (2 / 5)).
  { unfold popStdev, popVariance. rewrite Hm. js_eval.
    f_equal.
    match goal with
    | |- R_sqrt.sqrt ?e = _ => replace e with ((2 / 5) * (2 / 5))%R by lra
    end.
    apply sqrt_square. lra. }
  cbv zeta. rewrite Hm, Hs. cbn [Js.sub Js.abs]. unfold Rabs.
  destruct (Rcase_abs (11 - 51 / 5)) as [H|H]; [exfalso; lra|].
  js_eval. reflexivity.
Qed.

(** C2, amended.  A transaction is among the outliers exactly when it is a
    transaction of the list dated in the month, its category has at least
    three in-month transactions, the population standard deviation of
    their amounts is strictly positive, and its amount lies more than two
    standard deviations from their mean; mean, deviation and quotient being
    the binary64 numbers the code computes.  A category with fewer than
    three in-month transactions, or whose standard deviation is not
    positive, gives no outlier. *)
Theorem outliers_in_binary64
  (monthKey : string -> string) (expenses : list B64.Expense)
  (month : string) (t : B64.Expense) :
  let inMonth :=
    filter (fun e => String.eqb (monthKey (B64.date e)) month) expenses in
  let xs :=
    map B64.amount (filter (B64.inCategory (B64.category t)) inMonth) in
  (In t (B64.outliers monthKey expenses month) <->
   In t expenses /\ monthKey (B64.date t) = month
   /\ (3 <= length xs)%nat
   /\ (0 <? B64.stdev xs) = true
   /\ (2 <? abs (B64.amount t - B64.mean xs) / B64.stdev xs) = true)
  /\ ((length xs < 3)%nat -> ~ In t (B64.outliers monthKey expenses month))
  /\ ((0 <? B64.stdev xs) = false ->
      ~ In t (B64.outliers monthKey expenses month)).
Proof.
  intros inMonth xs.
  assert (Hiff : In t (B64.outliers monthKey expenses month) <->
    In t expenses /\ monthKey (B64.date t) = month
    /\ (3 <= length xs)%nat
    /\ (0 <? B64.stdev xs) = true
    /\ (2 <? abs (B64.amount t - B64.mean xs) / B64.stdev xs) = true).
  { unfold B64.outliers. fold inMonth. rewrite in_flat_map. split.
    - intros (c & _ & Hin). apply B64Facts.outliersOf_member in Hin.
      destruct Hin as (<- & Hin & H). unfold inMonth in Hin.
      apply filter_In in Hin. rewrite String.eqb_eq in Hin.
      fold inMonth in H. fold xs in H. tauto.
    - intros (Hin & Hm & H). exists (B64.category t).
      assert (Ht : In t inMonth).
      { apply filter_In. split; [exact Hin|]. now apply String.eqb_eq. }
      split.
      + apply ListFacts.setOf_In. now apply (in_map B64.category).
      + apply B64Facts.outliersOf_member. fold xs. tauto. }
  split; [exact Hiff|]. split.
  - intros Hlt Hin. apply Hiff in Hin. lia.
  - intros Hz Hin. apply Hiff in Hin. destruct Hin as (_ & _ & _ & Hsd & _).
    congruence.
Qed.

End OutliersInBinary64.

Section RecurringInBinary64.

Import PrimFloat.
Local Open Scope string_scope.
Local Open Scope float_scope.




End RecurringInBinary64.

Section TrimWantsInBinary64.

Import PrimFloat.
Local Open Scope string_scope.
Local Open Scope float_scope.


End TrimWantsInBinary64.

(** ** Inputs whose amounts are all numbers *)

Module FinFacts.

Local Open Scope R_scope.

Lemma isFin_add (a b : num) : isFin a -> isFin b -> isFin (add a b).
Proof. now destruct a, b. Qed.

Lemma isFin_sum (xs : list num) : Forall isFin xs -> isFin (sum xs).
Proof.
  induction 1 as [|x xs Hx Hxs IH]; simpl; [exact I|]. now apply isFin_add.
Qed.

(** [x || 0] leaves a proper number as it is. *)
Lemma orNum_isFin (a : num) : isFin a -> orNum a (Fin 0) = a.
Proof.
  destruct a as [r|]; [intros _ | contradiction].
  unfold orNum, truthy. now destruct (Req_dec_T r 0) as [->|].
Qed.

Lemma orElse_isFin (o : obj num) (k : string) :
  Forall (fun kv => isFin (snd kv)) o -> isFin (orElse (get o k) (Fin 0)).
Proof.
  intros Ho. destruct (get o k) as [v|] eqn:E; simpl; [|exact I].
  apply ObjFacts.get_In in E. rewrite Forall_forall in Ho.
  apply Ho in E. simpl in E. now rewrite orNum_isFin.
Qed.

Section Grouped.

Variable key : Expense -> string.

Local Abbreviation tally l :=
  (fold_left (fun o e => bump o (key e) (amount e)) l []).

Lemma tally_snoc (l : list Expense) (e : Expense) :
  tally (l ++ [e]) = bump (tally l) (key e) (amount e).
Proof. now rewrite fold_left_app. Qed.

Lemma tally_isFin (l : list Expense) :
  Forall (fun e => isFin (amount e)) l ->
  Forall (fun e => inherited (key e) = false) l ->
  Forall (fun kv => isFin (snd kv)) (tally l).
Proof.
  induction l as [|e l IH] using rev_ind; intros Hl Hk; [constructor|].
  apply Forall_app in Hl, Hk. destruct Hl as [Hl He], Hk as [Hk Hke].
  inversion Hke as [|? ? Hplain _]; subst.
  rewrite tally_snoc, SumFacts.bump_plain by exact Hplain.
  apply ObjFacts.Forall_set; [auto|].
  intros k0. simpl. apply isFin_add.
  - apply orElse_isFin. auto.
  - now inversion He.
Qed.

(** No name is listed twice, whatever the names are. *)
Lemma tally_NoDup (l : list Expense) : NoDup (map fst (tally l)).
Proof.
  induction l as [|e l IH] using rev_ind; [constructor|].
  rewrite tally_snoc. unfold bump.
  destruct (inherited (key e)); [|now apply ObjFacts.NoDup_set].
  destruct (String.eqb (key e) "__proto__"); [exact IH|].
  now apply ObjFacts.NoDup_set.
Qed.

Lemma tally_keys (l : list Expense) (k : string) :
  Forall (fun e => inherited (key e) = false) l ->
  In k (map fst (tally l)) <-> In k (map key l).
Proof.
  induction l as [|e l IH] using rev_ind; intros Hk; [reflexivity|].
  apply Forall_app in Hk. destruct Hk as [Hk Hke].
  inversion Hke as [|? ? Hplain _]; subst.
  rewrite tally_snoc, SumFacts.bump_plain by exact Hplain.
  rewrite ObjFacts.keys_set, IH, map_app, in_app_iff by exact Hk.
  simpl. intuition.
Qed.

(** On any names: every name of the list has a cell, but [__proto__]. *)
Lemma tally_keys_all (l : list Expense) (k : string) :
  In k (map fst (tally l)) <->
  In k (map key l) /\ k <> "__proto__"%string.
Proof.
  induction l as [|e l IH] using rev_ind; [simpl; tauto|].
  rewrite tally_snoc, map_app, in_app_iff. unfold bump. simpl.
  destruct (inherited (key e)) eqn:Ei.
  - destruct (String.eqb_spec (key e) "__proto__") as [Ep|Ep].
    + rewrite IH. split; [tauto|]. intros [[H|[H|[]]] Hk]; [tauto|].
      congruence.
    + rewrite ObjFacts.keys_set, IH. split.
      * intros [->|[H Hk]]; tauto.
      * intros [[H|[H|[]]] Hk]; [tauto|]. now left.
  - assert (Ep : key e <> "__proto__"%string).
    { intros E. rewrite E in Ei. discriminate. }
    rewrite ObjFacts.keys_set, IH. split.
    + intros [->|[H Hk]]; tauto.
    + intros [[H|[H|[]]] Hk]; [tauto|]. now left.
Qed.

(** The tally of a key is the sum of the amounts filed under it. *)
Lemma tally_get (l : list Expense) (k : string) :
  Forall (fun e => isFin (amount e)) l ->
  Forall (fun e => inherited (key e) = false) l ->
  orElse (get (tally l) k) (Fin 0) =
  sum (map amount (filter (fun e => String.eqb (key e) k) l)).
Proof.
  induction l as [|e l IH] using rev_ind; intros Hl Hk; [reflexivity|].
  apply Forall_app in Hl, Hk. destruct Hl as [Hl He], Hk as [Hk Hke].
  inversion Hke as [|? ? Hplain _]; subst.
  rewrite tally_snoc, filter_app, map_app, NumFacts.sum_app.
  cbn [filter]. rewrite SumFacts.bump_plain by exact Hplain.
  destruct (String.eqb_spec (key e) k) as [<-|Hne].
  - rewrite ObjFacts.get_set_same. cbn [orElse map sum fold_right].
    rewrite NumFacts.add_zero_r, <- IH by assumption.
    apply orNum_isFin, isFin_add.
    + now apply orElse_isFin, tally_isFin.
    + now inversion He.
  - rewrite ObjFacts.get_set_other by exact Hne.
    cbn [map sum fold_right]. now rewrite NumFacts.add_zero_r, IH.
Qed.

Lemma tally_In (l : list Expense) (k : string) (v : num) :
  Forall (fun e => isFin (amount e)) l ->
  Forall (fun e => inherited (key e) = false) l ->
  In (k, v) (tally l) ->
  In k (map key l)
  /\ v = sum (map amount (filter (fun e => String.eqb (key e) k) l)).
Proof.
  intros Hl Hk H. split.
  - apply (tally_keys k Hk). now apply (in_map fst) in H.
  - pose proof (tally_isFin Hl Hk) as Hfin. rewrite Forall_forall in Hfin.
    pose proof (Hfin _ H) as Hv. simpl in Hv.
    rewrite <- tally_get by assumption.
    rewrite (ObjFacts.In_get _ _ _ (tally_NoDup l) H). simpl.
    now rewrite orNum_isFin.
Qed.

Lemma sum_bump (o : obj num) (k : string) (x : num) :
  inherited k = false ->
  Forall (fun kv => isFin (snd kv)) o ->
  sum (map snd (bump o k x)) = add (sum (map snd o)) x.
Proof.
  intros Hplain. rewrite SumFacts.bump_plain by exact Hplain.
  induction 1 as [|[k' v'] o Hv Ho IH]; simpl.
  - apply NumFacts.add_zero_r.
  - destruct (String.eqb k' k); simpl.
    + simpl in Hv. rewrite (orNum_isFin _ Hv).
      rewrite <- !NumFacts.add_assoc. f_equal. apply NumFacts.add_comm.
    + rewrite IH. apply NumFacts.add_assoc.
Qed.

(** The tallies add up to the sum of all the amounts. *)
Lemma tally_sum (l : list Expense) :
  Forall (fun e => isFin (amount e)) l ->
  Forall (fun e => inherited (key e) = false) l ->
  sum (map snd (tally l)) = sum (map amount l).
Proof.
  induction l as [|e l IH] using rev_ind; intros Hl Hk; [reflexivity|].
  apply Forall_app in Hl, Hk. destruct Hl as [Hl He], Hk as [Hk Hke].
  inversion Hke as [|? ? Hplain _]; subst.
  rewrite tally_snoc, sum_bump; [|exact Hplain|now apply tally_isFin].
  rewrite IH by assumption. rewrite map_app, NumFacts.sum_app. simpl.
  now rewrite NumFacts.add_zero_r.
Qed.

End Grouped.

Lemma split_fold (l : list Expense) (s : Sums) :
  add (needs (split (fold_left sumStep l s)))
      (want (split (fold_left sumStep l s))) =
  add (add (needs (split s)) (want (split s))) (sum (map amount l)).
Proof.
  revert s. induction l as [|e l IH]; intros s.
  - symmetry. apply NumFacts.add_zero_r.
  - cbn [fold_left map]. rewrite IH.
    change (sum (amount e :: map amount l))
      with (add (amount e) (sum (map amount l))).
    generalize (sum (map amount l)). intros t.
    unfold sumStep. destruct (need e); cbn [split want needs].
    + rewrite (NumFacts.add_assoc _ (amount e) t). f_equal.
      rewrite <- !NumFacts.add_assoc. f_equal. apply NumFacts.add_comm.
    + rewrite (NumFacts.add_assoc _ (amount e) t). f_equal.
      apply NumFacts.add_assoc.
Qed.

Lemma whole_isFin (l : list Expense) :
  wholeAmounts l -> Forall (fun e => isFin (amount e)) l.
Proof.
  intros (ns & Hns & _). revert ns Hns.
  induction l as [|e l IH]; intros ns Hns; [constructor|].
  destruct ns as [|n ns]; [discriminate|]. simpl in Hns.
  injection Hns as He Hl. constructor; [now rewrite He | eauto].
Qed.

Lemma total_sum (monthKey : string -> string) (expenses : list Expense)
      (budgets : Budgets) (month : string) :
  let a := analyze monthKey expenses budgets month in
  Forall (fun e => isFin (amount e)) (inMonth a) ->
  total a = sum (map amount (inMonth a)).
Proof.
  intros a H. unfold a, analyze in *. cbn [total inMonth] in *.
  rewrite NumFacts.fold_add_map, NumFacts.add_zero_l. f_equal.
  apply map_ext_in. intros e He. rewrite Forall_forall in H.
  apply H in He. unfold orValue. simpl.
  destruct (amount e) as [r|]; [|contradiction].
  simpl. now destruct (Req_dec_T r 0) as [->|].
Qed.

End FinFacts.

(** ** What holds of [analyze] and of the ranker when no amount is NaN

    Consistency of the totals, order of the lists and content of the
    budget flags, on the inputs whose in-month amounts are all proper
    numbers and whose names are plain; and what holds of them on every
    input. *)

Module Positive.

Local Open Scope R_scope.

Section OnNumbers.

Variable monthKey : string -> string.
Variable expenses : list Expense.
Variable budgets : Budgets.
Variable month : string.

Local Abbreviation a := (analyze monthKey expenses budgets month).

Hypothesis amounts_are_numbers :
  Forall (fun e => isFin (amount e)) (inMonth a).

Hypothesis categories_are_plain :
  Forall (fun e => plain (category e)) (inMonth a).

Hypothesis merchants_are_plain :
  Forall (fun e => plain (merchant e)) (inMonth a).

Lemma byCat_isFin :
  Forall (fun c => isFin (cat_amount c)) (catArr a).
Proof.
  unfold analyze. cbn [catArr]. rewrite SumFacts.byCat_fold.
  eapply Permutation_Forall;
    [symmetry; apply SortFacts.sortBy_perm|].
  apply Forall_map. cbn [cat_amount byCat].
  eapply Permutation_Forall; [symmetry; apply ObjFacts.entries_perm|].
  now apply FinFacts.tally_isFin.
Qed.

Lemma byMerchant_isFin :
  Forall (fun t => isFin (mer_amount t)) (topMerchants a).
Proof.
  apply Forall_forall. intros t Ht. unfold analyze in Ht.
  cbn [topMerchants] in Ht.
  apply SortFacts.firstn_In, SortFacts.sortBy_In, in_map_iff in Ht.
  destruct Ht as (kv & <- & Hkv). cbn [mer_amount].
  apply (proj1 (ObjFacts.entries_In _ _)) in Hkv.
  rewrite SumFacts.byMerchant_fold in Hkv. cbn [byMerchant] in Hkv.
  pose proof (FinFacts.tally_isFin merchant amounts_are_numbers
                                    merchants_are_plain) as H.
  rewrite Forall_forall in H. now apply H in Hkv.
Qed.

(** In exact arithmetic the total is the sum of the category totals, and
    the sum of the need total and the want total. *)
Lemma total_consistent :
  total a = sum (map cat_amount (catArr a))
  /\ total a = add (needs (wantsNeeds a)) (want (wantsNeeds a)).
Proof.
  assert (Ht : total a = sum (map amount (inMonth a)))
    by (apply FinFacts.total_sum; exact amounts_are_numbers).
  rewrite Ht. split.
  - rewrite <- (FinFacts.tally_sum category amounts_are_numbers
                                   categories_are_plain).
    unfold analyze. cbn [catArr inMonth]. rewrite SumFacts.byCat_fold.
    cbn [byCat]. apply NumFacts.sum_perm.
    rewrite (Permutation_map _ (SortFacts.sortBy_perm _ _)), map_map.
    cbn [cat_amount]. symmetry.
    apply Permutation_map, ObjFacts.entries_perm.
  - unfold analyze. cbn [wantsNeeds inMonth].
    rewrite FinFacts.split_fold. cbn [split needs want].
    change (add (Fin 0) (Fin 0)) with (Fin (0 + 0)).
    replace (0 + 0) with 0 by lra. now rewrite NumFacts.add_zero_l.
Qed.

(** X2.  Order, on numbers and plain names: the category totals and the top
    merchants are non-increasing by amount. *)
Theorem totals_sorted_on_numbers :
  nonIncreasing cat_amount (catArr a)
  /\ nonIncreasing mer_amount (topMerchants a).
Proof.
  split.
  - pose proof byCat_isFin as H. unfold analyze in *.
    cbn [catArr] in *. apply SortFacts.sortBy_sorted.
    eapply Permutation_Forall; [apply SortFacts.sortBy_perm | exact H].
  - unfold analyze. cbn [topMerchants].
    apply SortFacts.firstn_sorted, SortFacts.sortBy_sorted.
    apply Forall_map. cbn [mer_amount].
    eapply Permutation_Forall; [symmetry; apply ObjFacts.entries_perm|].
    rewrite SumFacts.byMerchant_fold. cbn [byMerchant].
    now apply FinFacts.tally_isFin.
Qed.

Lemma catArr_In (c : CategoryTotal) :
  In c (catArr a) ->
  In (cat_category c) (map category (inMonth a))
  /\ cat_amount c = spent monthKey expenses month (cat_category c).
Proof.
  unfold analyze. cbn [catArr inMonth]. intros H.
  apply SortFacts.sortBy_In, in_map_iff in H. destruct H as ([k v] & <- & H).
  apply (proj1 (ObjFacts.entries_In _ _)) in H.
  rewrite SumFacts.byCat_fold in H. cbn [byCat] in H.
  apply (FinFacts.tally_In category _ _ amounts_are_numbers
                           categories_are_plain) in H.
  exact H.
Qed.

Lemma catArr_complete (k : string) :
  In k (map category (inMonth a)) ->
  In {| cat_category := k; cat_amount := spent monthKey expenses month k |}
     (catArr a).
Proof.
  intros H. apply (FinFacts.tally_keys category k categories_are_plain) in H.
  apply in_map_iff in H. destruct H as ([k' v] & Hk & H). simpl in Hk.
  subst k'.
  pose proof (FinFacts.tally_In category _ _ amounts_are_numbers
                                categories_are_plain H)
    as [_ Hv].
  unfold analyze. cbn [catArr inMonth]. apply SortFacts.sortBy_In.
  apply in_map_iff. exists (k, v). split.
  - simpl. now rewrite Hv.
  - apply ObjFacts.entries_In. rewrite SumFacts.byCat_fold. exact H.
Qed.

(** In exact arithmetic the flagged categories are those with a positive
    budget that the in-month spend exceeds, with the spend, the budget and
    the overage. *)
Lemma budget_flags_exact :
  (forall c, In c (map flag_category (budgetFlags a)) <->
             gt (budgetOf budgets c) (Fin 0) = true
             /\ gt (spent monthKey expenses month c) (budgetOf budgets c)
                = true)
  /\ (forall f, In f (budgetFlags a) ->
        flag_amount f = spent monthKey expenses month (flag_category f)
        /\ flag_budget f = budgetOf budgets (flag_category f)
        /\ flag_overBy f = max (Fin 0) (sub (flag_amount f) (flag_budget f))
        /\ flag_overBy f = sub (flag_amount f) (flag_budget f)).
Proof.
  assert (Hin : forall f, In f (budgetFlags a) <->
            exists c, In c (catArr a)
              /\ f = {| flag_category := cat_category c;
                        flag_amount := cat_amount c;
                        flag_budget := budgetOf budgets (cat_category c);
                        flag_overBy :=
                          max (Fin 0)
                              (sub (cat_amount c)
                                   (budgetOf budgets (cat_category c))) |}
              /\ gt (budgetOf budgets (cat_category c)) (Fin 0) = true
              /\ gt (cat_amount c) (budgetOf budgets (cat_category c)) = true).
  { intros f. unfold analyze. cbn [budgetFlags catArr].
    rewrite SortFacts.sortBy_In, filter_In, in_map_iff, andb_true_iff.
    unfold budgetOf. split.
    - intros ((c & <- & Hc) & H1 & H2). exists c. auto.
    - intros (c & Hc & -> & H1 & H2). split; [exists c; auto | auto]. }
  split.
  - intros c. rewrite in_map_iff. split.
    + intros (f & <- & Hf). apply Hin in Hf.
      destruct Hf as (c0 & Hc0 & -> & H1 & H2). simpl.
      apply catArr_In in Hc0. destruct Hc0 as [_ <-]. auto.
    + intros (H1 & H2).
      assert (Hc : In c (map category (inMonth a))).
      { unfold spent in H2. fold (inMonth a) in H2.
        change (filter (fun e => String.eqb (monthKey (date e)) month)
                       expenses) with (inMonth a) in H2.
        destruct (filter (inCategory c) (inMonth a)) as [|e l] eqn:E.
        - simpl in H2. apply NumFacts.gt_true in H1, H2.
          destruct H1 as (b & z & Hb & Hz & Hlt). injection Hz as <-.
          destruct H2 as (x & b' & Hx & Hb' & Hlt').
          rewrite Hb in Hb'. injection Hb' as <-. injection Hx as <-. lra.
        - assert (He : In e (filter (inCategory c) (inMonth a)))
            by (rewrite E; now left).
          apply filter_In in He. destruct He as [He Hce].
          apply String.eqb_eq in Hce. subst c. now apply in_map. }
      apply catArr_complete in Hc. eexists. split; [|apply Hin].
      2:{ exists {| cat_category := c;
                    cat_amount := spent monthKey expenses month c |}.
          split; [exact Hc|]. split; [reflexivity|]. simpl. auto. }
      reflexivity.
  - intros f Hf. apply Hin in Hf. destruct Hf as (c & Hc & -> & H1 & H2).
    simpl. apply catArr_In in Hc. destruct Hc as [_ Hc].
    repeat split; auto.
    apply NumFacts.gt_true in H2. destruct H2 as (x & y & -> & -> & Hlt).
    simpl. f_equal. apply Rmax_right. lra.
Qed.

End OnNumbers.

(** X1.  Total consistency, on whole amounts and plain category names: the
    total is the sum of the category totals, and the sum of the need total
    and the want total. *)
Theorem total_consistent_on_numbers
  (monthKey : string -> string) (expenses : list Expense) (budgets : Budgets)
  (month : string) :
  let a := analyze monthKey expenses budgets month in
  wholeAmounts (inMonth a) ->
  Forall (fun e => plain (category e)) (inMonth a) ->
  total a = sum (map cat_amount (catArr a))
  /\ total a = add (needs (wantsNeeds a)) (want (wantsNeeds a)).
Proof.
  intros a Hwhole Hplain. apply total_consistent; [|exact Hplain].
  now apply FinFacts.whole_isFin.
Qed.

(** X3.  Budget flags, on whole amounts, whole budgets and plain category
    names: the flagged categories are those with a positive budget that the
    in-month spend exceeds, with the spend, the budget and the overage. *)
Theorem budget_flags_exact_on_numbers
  (monthKey : string -> string) (expenses : list Expense) (budgets : Budgets)
  (month : string) :
  let a := analyze monthKey expenses budgets month in
  wholeAmounts (inMonth a) ->
  (forall c b, get budgets c = Some b -> wholeBudget b) ->
  Forall (fun e => plain (category e)) (inMonth a) ->
  (forall c, In c (map flag_category (budgetFlags a)) <->
             gt (budgetOf budgets c) (Fin 0) = true
             /\ gt (spent monthKey expenses month c) (budgetOf budgets c)
                = true)
  /\ (forall f, In f (budgetFlags a) ->
        flag_amount f = spent monthKey expenses month (flag_category f)
        /\ flag_budget f = budgetOf budgets (flag_category f)
        /\ flag_overBy f = max (Fin 0) (sub (flag_amount f) (flag_budget f))
        /\ flag_overBy f = sub (flag_amount f) (flag_budget f)).
Proof.
  intros a Hwhole _ Hplain. apply budget_flags_exact; [|exact Hplain].
  now apply FinFacts.whole_isFin.
Qed.

(** X4.  The budget flags are non-increasing by overage, on every input. *)
Theorem budget_flags_sorted
  (monthKey : string -> string) (expenses : list Expense) (budgets : Budgets)
  (month : string) :
  nonIncreasing flag_overBy
                (budgetFlags (analyze monthKey expenses budgets month)).
Proof.
  unfold analyze. cbn [budgetFlags]. apply SortFacts.sortBy_sorted.
  apply Forall_forall. intros f Hf. apply filter_In in Hf.
  destruct Hf as [Hf Ht]. apply in_map_iff in Hf.
  destruct Hf as (c & <- & _). cbn [flag_budget flag_amount flag_overBy] in *.
  apply andb_true_iff in Ht. destruct Ht as [_ Ht].
  apply NumFacts.gt_true in Ht. destruct Ht as (x & y & -> & -> & _).
  exact I.
Qed.

(** X5.  At most five top merchants, and no padding: as many as there are
    merchant names in the month when these are fewer than five, the name
    [__proto__] apart, under which no amount is kept. *)
Theorem top_merchants_length
  (monthKey : string -> string) (expenses : list Expense) (budgets : Budgets)
  (month : string) :
  let a := analyze monthKey expenses budgets month in
  (length (topMerchants a) <= 5)%nat
  /\ length (topMerchants a) =
     Nat.min 5 (length (setOf (filter
                                 (fun m => negb (String.eqb m "__proto__"))
                                 (map merchant (inMonth a))))).
Proof.
  intros a.
  assert (H : length (topMerchants a) =
              Nat.min 5 (length (setOf (filter
                                 (fun m => negb (String.eqb m "__proto__"))
                                 (map merchant (inMonth a)))))).
  { unfold a, analyze. cbn [topMerchants inMonth].
    rewrite length_firstn, SortFacts.sortBy_length, length_map.
    rewrite (Permutation_length (ObjFacts.entries_perm _)).
    rewrite SumFacts.byMerchant_fold. cbn [byMerchant]. f_equal.
    rewrite <- (length_map fst).
    apply Permutation_length, NoDup_Permutation.
    - apply FinFacts.tally_NoDup.
    - apply ListFacts.setOf_NoDup.
    - intros k. rewrite (FinFacts.tally_keys_all merchant), ListFacts.setOf_In.
      rewrite filter_In, negb_true_iff.
      destruct (String.eqb_spec k "__proto__"); intuition congruence. }
  split; [rewrite H; apply Nat.le_min_l | exact H].
Qed.

Lemma split_nonNegative (l : list Expense) (s : Sums) :
  nonNegative (want (split s)) -> nonNegative (needs (split s)) ->
  (forall e, In e l -> nonNegative (amount e)) ->
  nonNegative (want (split (fold_left sumStep l s)))
  /\ nonNegative (needs (split (fold_left sumStep l s))).
Proof.
  revert s. induction l as [|e l IH]; intros s Hw Hn Hl; [now split|].
  cbn [fold_left]. apply IH.
  - unfold sumStep. destruct (need e); cbn [split want]; [exact Hw|].
    apply SumFacts.nonNegative_add; [exact Hw|]. apply Hl. now left.
  - unfold sumStep. destruct (need e); cbn [split needs]; [|exact Hn].
    apply SumFacts.nonNegative_add; [exact Hn|]. apply Hl. now left.
  - intros e' He'. apply Hl. now right.
Qed.

(** X6.  With non-negative amounts a zero total leaves no want to trim: the
    Trim Wants candidate is not emitted, and no percentage is reported. *)
Theorem zero_total_without_wants
  (monthKey : string -> string) (expenses : list Expense) (budgets : Budgets)
  (month : string) :
  let a := analyze monthKey expenses budgets month in
  (forall e, In e expenses -> nonNegative (amount e)) ->
  total a = Fin 0 -> trimWants a = [].
Proof.
  intros a Hpos Ht.
  assert (Hin : forall e, In e (inMonth a) -> nonNegative (amount e)).
  { intros e He. unfold a, analyze in He. cbn [inMonth] in He.
    apply filter_In in He. now apply Hpos. }
  assert (Hnum : Forall (fun e => isFin (amount e)) (inMonth a)).
  { apply Forall_forall. intros e He. apply Hin in He.
    now destruct (amount e). }
  assert (Hsplit : total a =
                   add (needs (wantsNeeds a)) (want (wantsNeeds a))).
  { pose proof (FinFacts.total_sum monthKey expenses budgets month Hnum)
      as Hsum.
    fold a in Hsum. rewrite Hsum.
    unfold a, analyze. cbn [wantsNeeds inMonth].
    rewrite FinFacts.split_fold. cbn [split needs want].
    change (add (Fin 0) (Fin 0)) with (Fin (0 + 0)).
    replace (0 + 0) with 0 by lra. now rewrite NumFacts.add_zero_l. }
  rewrite Ht in Hsplit.
  assert (Hwn : nonNegative (want (wantsNeeds a))
                /\ nonNegative (needs (wantsNeeds a))).
  { unfold a, analyze. cbn [wantsNeeds].
    apply split_nonNegative; cbn [split want needs]; simpl; try lra.
    exact Hin. }
  destruct Hwn as [Hw Hn]. unfold trimWants.
  destruct (want (wantsNeeds a)) as [w|]; [|contradiction].
  destruct (needs (wantsNeeds a)) as [n|]; [|contradiction].
  simpl in Hw, Hn, Hsplit. injection Hsplit as Hsplit.
  unfold gt. simpl. destruct (Rlt_dec 0 w); [lra | reflexivity].
Qed.

(** A descending sort keeps the elements of equal key in their original
    order. *)
Section Stable.

Variable A : Type.
Variable key : A -> num.

Local Abbreviation cmp := (fun x y : A => sub (key y) (key x)).

Lemma insertBy_stable (v : num) (x : A) (l : list A) :
  filter (fun s => sameKey (key s) v) (insertBy cmp x l) =
  filter (fun s => sameKey (key s) v) (x :: l).
Proof.
  induction l as [|y l IH]; [reflexivity|].
  cbn [insertBy]. destruct (gt (cmp x y) zero) eqn:E; [|reflexivity].
  cbn [filter] in *. rewrite IH.
  apply NumFacts.gt_true in E. destruct E as (d & z & Hd & Hz & Hlt).
  injection Hz as <-.
  destruct (key y) as [ky|], (key x) as [kx|];
    try discriminate.
  injection Hd as <-. destruct v as [r|]; simpl; [|reflexivity].
  destruct (Req_dec_T ky r), (Req_dec_T kx r); try reflexivity.
  exfalso. lra.
Qed.

Lemma sortBy_stable (v : num) (l : list A) :
  filter (fun s => sameKey (key s) v) (sortBy cmp l) =
  filter (fun s => sameKey (key s) v) l.
Proof.
  induction l as [|x l IH]; [reflexivity|].
  cbn [sortBy fold_right]. rewrite insertBy_stable.
  cbn [filter]. unfold sortBy in IH. now rewrite IH.
Qed.

End Stable.

(** X7.  What holds of the ranker on every analysis: at most five
    suggestions, those of equal impact in the order the candidates were
    generated. *)
Theorem suggestions_capped_and_stable (analysis : Analysis) :
  (length (suggestions analysis) <= 5)%nat
  /\ forall v, filter (fun s => sameKey (impact s) v) (suggestions analysis) =
               filter (fun s => sameKey (impact s) v) (candidates analysis).
Proof.
  split.
  - rewrite (Permutation_length (RankerFacts.suggestions_perm analysis)).
    apply RankerFacts.candidates_length.
  - intros v. unfold suggestions. rewrite firstn_all2.
    + apply sortBy_stable.
    + rewrite SortFacts.sortBy_length. apply RankerFacts.candidates_length.
Qed.

(** X8.  Ranking, on numbers and plain merchant names: the suggestions are
    non-increasing by impact. *)
Theorem suggestions_sorted_on_numbers
  (monthKey : string -> string) (expenses : list Expense) (budgets : Budgets)
  (month : string) :
  let a := analyze monthKey expenses budgets month in
  Forall (fun e => isFin (amount e)) (inMonth a) ->
  Forall (fun e => plain (merchant e)) (inMonth a) ->
  nonIncreasing impact (suggestions a).
Proof.
  intros a Hnum Hplain. unfold suggestions.
  apply SortFacts.firstn_sorted, SortFacts.sortBy_sorted.
  apply Forall_forall. intros s Hs.
  unfold candidates in Hs. rewrite !in_app_iff in Hs.
  destruct Hs as [Hs|[Hs|[Hs|[Hs|Hs]]]].
  - unfold trimWants in Hs.
    destruct (gt (want (wantsNeeds a)) (Fin 0)) eqn:E; [|easy].
    destruct Hs as [<-|[]]. cbn [impact].
    apply NumFacts.gt_true in E. now destruct E as (w & z & -> & _ & _).
  - unfold overBudget in Hs.
    destruct (budgetFlags a) as [|b fl] eqn:E; [easy|].
    destruct Hs as [<-|[]]. cbn [impact].
    assert (Hb : In b (budgetFlags a)) by (rewrite E; now left).
    unfold a, analyze in Hb. cbn [budgetFlags] in Hb.
    apply SortFacts.sortBy_In, filter_In in Hb. destruct Hb as [Hb Ht].
    apply in_map_iff in Hb. destruct Hb as (c & <- & _).
    cbn [flag_budget flag_amount flag_overBy] in *.
    apply andb_true_iff in Ht. destruct Ht as [_ Ht].
    apply NumFacts.gt_true in Ht. now destruct Ht as (x & y & -> & -> & _).
  - unfold smallSpends in Hs.
    destruct (smallDrains a) as [|d dl] eqn:E; [easy|].
    destruct Hs as [<-|[]]. cbn [impact].
    assert (Hd : In d (smallDrains a)) by (rewrite E; now left).
    unfold a, analyze in Hd. cbn [smallDrains] in Hd.
    apply in_map_iff in Hd. destruct Hd as (kv & <- & Hkv).
    apply filter_In in Hkv. destruct Hkv as [_ Hge]. cbn [drain_count].
    apply NumFacts.ge_true in Hge. now destruct Hge as (c & z & -> & _ & _).
  - unfold topMerchant in Hs.
    destruct (topMerchants a) as [|t tl] eqn:E; [easy|].
    destruct Hs as [<-|[]]. cbn [impact].
    pose proof (byMerchant_isFin monthKey expenses budgets month Hnum Hplain)
      as H.
    fold a in H. rewrite E in H. inversion H as [|? ? Ht _]; subst.
    now destruct (mer_amount t).
  - unfold recurringCharge in Hs.
    destruct (filter _ (recurring a)) as [|r rl] eqn:E; [easy|].
    destruct Hs as [<-|[]]. cbn [impact].
    assert (Hr : In r (r :: rl)) by now left.
    rewrite <- E in Hr. apply filter_In in Hr. destruct Hr as [_ Hr].
    apply NumFacts.ge_true in Hr. now destruct Hr as (m & z & -> & _ & _).
Qed.

End Positive.

Section OutlierExamples.

Local Open Scope string_scope.
Local Open Scope R_scope.


(** The specification's example: three Dining purchases of 399, 420 and
    5000.  None is flagged. *)
Example dining_not_flagged :
  outliers (analyze isoMonthKey
              [expense "2024-03-11" (Fin 399) "Dining" "Swiggy" false;
               expense "2024-03-12" (Fin 420) "Dining" "Swiggy" false;
               expense "2024-03-13" (Fin 5000) "Dining" "Zomato" false]
              [] "2024-03") = [].
Proof.
  unfold analyze. cbn [outliers].
  cbn -[outliersOf]. rewrite OutlierFacts.outliersOf_spec.
  cbn -[popStdev popMean gt abs div sub sqrt].
  assert (Hm : popMean [Fin 399; Fin 420; Fin 5000] = Fin (5819 / 3)).
  { unfold popMean. js_eval. f_equal. lra. }
  assert (Hs : popStdev [Fin 399; Fin 420; Fin 5000] =
               sqrt (Fin (42146042 / 9))).
  { unfold popStdev, popVariance. rewrite Hm. f_equal. js_eval.
    f_equal. lra. }
  rewrite Hm, Hs, !OutlierFacts.outlier_test by lra.
  js_eval. reflexivity.
Qed.

End OutlierExamples.

(** ** More of [analyze] *)

Module AnalyzeFacts.

Local Open Scope R_scope.

Lemma split_want (l : list Expense) (s : Sums) :
  want (split (fold_left sumStep l s)) =
  add (want (split s)) (sum (map amount (filter (fun e => negb (need e)) l))).
Proof.
  revert s. induction l as [|e l IH]; intros s.
  - symmetry. apply NumFacts.add_zero_r.
  - cbn [fold_left filter]. rewrite IH. unfold sumStep at 1.
    destruct (need e); cbn [split want negb map]; [reflexivity|].
    change (sum (amount e :: ?t)) with (add (amount e) (sum t)).
    symmetry. apply NumFacts.add_assoc.
Qed.

Lemma split_needs (l : list Expense) (s : Sums) :
  needs (split (fold_left sumStep l s)) =
  add (needs (split s)) (sum (map amount (filter need l))).
Proof.
  revert s. induction l as [|e l IH]; intros s.
  - symmetry. apply NumFacts.add_zero_r.
  - cbn [fold_left filter]. rewrite IH. unfold sumStep at 1.
    destruct (need e); cbn [split needs map]; [|reflexivity].
    change (sum (amount e :: ?t)) with (add (amount e) (sum t)).
    symmetry. apply NumFacts.add_assoc.
Qed.

Lemma byCat_keys (monthKey : string -> string) (expenses : list Expense)
      (budgets : Budgets) (month : string) :
  let a := analyze monthKey expenses budgets month in
  Permutation (map cat_category (catArr a))
              (map fst (fold_left (fun o e => bump o (category e) (amount e))
                                  (inMonth a) [])).
Proof.
  intros a. unfold a, analyze. cbn [catArr inMonth].
  rewrite SumFacts.byCat_fold. cbn [byCat].
  rewrite (Permutation_map _ (SortFacts.sortBy_perm _ _)), map_map.
  cbn [cat_category]. apply Permutation_map, ObjFacts.entries_perm.
Qed.

Lemma firstn_NoDup (A : Type) (n : nat) (l : list A) :
  NoDup l -> NoDup (firstn n l).
Proof.
  revert l. induction n as [|n IH]; intros l Hl; simpl; [constructor|].
  destruct l as [|x l]; [constructor|].
  inversion Hl as [|? ? Hx Hl']; subst. constructor; [|auto].
  intros H. apply Hx. now apply SortFacts.firstn_In in H.
Qed.

End AnalyzeFacts.

(** X9.  The want total is the sum of the in-month amounts not marked as needs,
    the need total the sum of those marked as needs, by plain addition (a
    NaN amount makes its side NaN). *)
Theorem wants_needs_are_sums
  (monthKey : string -> string) (expenses : list Expense) (budgets : Budgets)
  (month : string) :
  let a := analyze monthKey expenses budgets month in
  want (wantsNeeds a) =
    sum (map amount (filter (fun e => negb (need e)) (inMonth a)))
  /\ needs (wantsNeeds a) = sum (map amount (filter need (inMonth a))).
Proof.
  intros a. unfold a, analyze. cbn [wantsNeeds inMonth]. split.
  - rewrite AnalyzeFacts.split_want. apply NumFacts.add_zero_l.
  - rewrite AnalyzeFacts.split_needs. apply NumFacts.add_zero_l.
Qed.

(** X10.  The category totals list each category of the month exactly once,
    and nothing else, the name [__proto__] apart, which is never listed;
    the top merchants are merchants of the month, each at most once. *)
Theorem category_totals_cover
  (monthKey : string -> string) (expenses : list Expense) (budgets : Budgets)
  (month : string) :
  let a := analyze monthKey expenses budgets month in
  NoDup (map cat_category (catArr a))
  /\ (forall c, In c (map cat_category (catArr a)) <->
                In c (map category (inMonth a)) /\ c <> "__proto__"%string)
  /\ NoDup (map mer_merchant (topMerchants a))
  /\ (forall m, In m (map mer_merchant (topMerchants a)) ->
                In m (map merchant (inMonth a)) /\ m <> "__proto__"%string).
Proof.
  intros a. pose proof (AnalyzeFacts.byCat_keys monthKey expenses budgets month)
    as Hc. fold a in Hc. cbv zeta in Hc.
  assert (Hm : exists l,
    Permutation l (map fst (fold_left
                     (fun o e => bump o (merchant e) (amount e)) (inMonth a) []))
    /\ map mer_merchant (topMerchants a) = firstn 5 l).
  { unfold a, analyze. cbn [topMerchants inMonth].
    rewrite SumFacts.byMerchant_fold. cbn [byMerchant].
    eexists. split; [|symmetry; apply firstn_map].
    rewrite (Permutation_map _ (SortFacts.sortBy_perm _ _)), map_map.
    cbn [mer_merchant]. apply Permutation_map, ObjFacts.entries_perm. }
  destruct Hm as (l & Hl & Hm).
  split; [|split; [|split]].
  - apply (Permutation_NoDup (Permutation_sym Hc)), FinFacts.tally_NoDup.
  - intros c. rewrite <- (FinFacts.tally_keys_all category). split.
    + apply Permutation_in, Hc.
    + apply Permutation_in. now symmetry.
  - rewrite Hm. apply AnalyzeFacts.firstn_NoDup.
    apply (Permutation_NoDup (Permutation_sym Hl)), FinFacts.tally_NoDup.
  - intros m H. rewrite Hm in H. apply SortFacts.firstn_In in H.
    apply (FinFacts.tally_keys_all merchant). now apply (Permutation_in _ Hl).
Qed.

(** ** The largest come first *)

Module OrderFacts.

Local Open Scope R_scope.

Section ByKey.

Variable A : Type.
Variable key : A -> num.

Local Abbreviation desc := (fun a b : A => ge (key a) (key b) = true).

Lemma desc_trans (a b c : A) :
  ge (key a) (key b) = true -> ge (key b) (key c) = true ->
  ge (key a) (key c) = true.
Proof.
  intros H1 H2. apply NumFacts.ge_true in H1, H2.
  destruct H1 as (x & y & Hx & Hy & Hxy), H2 as (y' & z & Hy' & Hz & Hyz).
  rewrite Hy in Hy'. injection Hy' as <-.
  apply NumFacts.ge_true. exists x, z. repeat split; auto. lra.
Qed.

Lemma strongly (l : list A) :
  nonIncreasing key l -> StronglySorted desc l.
Proof.
  unfold nonIncreasing. induction 1 as [|x l Hs IH Hhd]; constructor; auto.
  destruct Hhd as [|y l Hxy]; [constructor|].
  constructor; [exact Hxy|].
  inversion IH as [|? ? _ Hall]; subst. rewrite Forall_forall in *.
  intros z Hz. eapply desc_trans; [exact Hxy | now apply Hall].
Qed.

(** In a non-increasing list, whatever is kept by [slice(0, n)] is at
    least as large as whatever is cut. *)
Lemma firstn_dominates (n : nat) (l : list A) (a b : A) :
  nonIncreasing key l -> In a (firstn n l) -> In b (skipn n l) ->
  ge (key a) (key b) = true.
Proof.
  intros Hs. apply strongly in Hs. revert n.
  induction Hs as [|x l Hs IH Hall]; intros n Ha Hb.
  - now rewrite firstn_nil in Ha.
  - destruct n as [|n]; [contradiction|]. cbn [firstn skipn] in *.
    destruct Ha as [<-|Ha]; [|eauto].
    rewrite Forall_forall in Hall. apply Hall.
    rewrite <- (firstn_skipn n l). apply in_or_app. now right.
Qed.

End ByKey.

End OrderFacts.

(** X11.  On whole amounts and plain merchant names, the top merchants are
    the largest: each entry carries what its merchant received in the
    month, and a merchant of the month left out of the list received no
    more than any merchant in it. *)
Theorem top_merchants_are_largest
  (monthKey : string -> string) (expenses : list Expense) (budgets : Budgets)
  (month : string) :
  let a := analyze monthKey expenses budgets month in
  wholeAmounts (inMonth a) ->
  Forall (fun e => plain (merchant e)) (inMonth a) ->
  (forall t, In t (topMerchants a) ->
     mer_amount t = spentAt monthKey expenses month (mer_merchant t))
  /\ (forall m, In m (map merchant (inMonth a)) ->
        In m (map mer_merchant (topMerchants a))
        \/ forall t, In t (topMerchants a) ->
             ge (mer_amount t) (spentAt monthKey expenses month m) = true).
Proof.
  intros a Hwhole Hplain.
  pose proof (FinFacts.whole_isFin Hwhole) as Hnum.
  set (tally := fold_left (fun o e => bump o (merchant e) (amount e))
                          (inMonth a) []).
  set (all := sortBy (fun x y => sub (mer_amount y) (mer_amount x))
                (map (fun kv => {| mer_merchant := fst kv;
                                   mer_amount := snd kv |})
                     (entries tally))).
  assert (Htop : topMerchants a = firstn 5 all).
  { unfold a, analyze. cbn [topMerchants]. unfold all, tally.
    rewrite SumFacts.byMerchant_fold. reflexivity. }
  assert (Hall : forall t, In t all <->
            In (mer_merchant t, mer_amount t) tally).
  { intros t. unfold all. rewrite SortFacts.sortBy_In, in_map_iff. split.
    - intros ([k v] & <- & H). cbn [mer_merchant mer_amount].
      exact (proj1 (ObjFacts.entries_In _ _) H).
    - intros H. exists (mer_merchant t, mer_amount t). split.
      + now destruct t.
      + exact (proj2 (ObjFacts.entries_In _ _) H). }
  assert (Hval : forall t, In t all ->
            mer_amount t = spentAt monthKey expenses month (mer_merchant t)).
  { intros t Ht. apply Hall in Ht.
    now apply (FinFacts.tally_In merchant _ _ Hnum Hplain) in Ht. }
  assert (Hsorted : nonIncreasing mer_amount all).
  { apply SortFacts.sortBy_sorted. apply Forall_map. cbn [mer_amount].
    eapply Permutation_Forall; [symmetry; apply ObjFacts.entries_perm|].
    now apply FinFacts.tally_isFin. }
  split.
  - intros t Ht. apply Hval. rewrite Htop in Ht.
    now apply SortFacts.firstn_In in Ht.
  - intros m Hm. apply (FinFacts.tally_keys merchant m Hplain) in Hm.
    apply in_map_iff in Hm. destruct Hm as ([k v] & Hk & Hkv).
    simpl in Hk. subst k.
    set (x := {| mer_merchant := m; mer_amount := v |}).
    assert (Hx : In x all) by (apply Hall; exact Hkv).
    assert (Hv : v = spentAt monthKey expenses month m)
      by (apply (Hval x Hx)).
    rewrite <- (firstn_skipn 5 all) in Hx. apply in_app_or in Hx.
    destruct Hx as [Hx|Hx].
    + left. rewrite Htop. apply in_map_iff. now exists x.
    + right. intros t Ht. rewrite Htop in Ht. rewrite <- Hv.
      change v with (mer_amount x).
      exact (@OrderFacts.firstn_dominates _ mer_amount 5 all t x
               Hsorted Ht Hx).
Qed.

(** X12.  On whole amounts and plain category names, the first category
    total (the Top Category card) is a largest one: no category of the month
    spent more. *)
Theorem top_category_is_largest
  (monthKey : string -> string) (expenses : list Expense) (budgets : Budgets)
  (month : string) :
  let a := analyze monthKey expenses budgets month in
  wholeAmounts (inMonth a) ->
  Forall (fun e => plain (category e)) (inMonth a) ->
  forall top rest, catArr a = top :: rest ->
  cat_amount top = spent monthKey expenses month (cat_category top)
  /\ forall c, In c (map category (inMonth a)) ->
       ge (cat_amount top) (spent monthKey expenses month c) = true.
Proof.
  intros a Hwhole Hplain top rest Hcat.
  pose proof (FinFacts.whole_isFin Hwhole) as Hnum.
  assert (Htop : In top (catArr a)) by (rewrite Hcat; now left).
  destruct (Positive.catArr_In monthKey expenses budgets month Hnum Hplain
                               top Htop)
    as [_ Hv].
  split; [exact Hv|]. intros c Hc.
  apply (Positive.catArr_complete monthKey expenses budgets month Hnum Hplain)
    in Hc.
  fold a in Hc.
  assert (Hf : Forall (fun c => isFin (cat_amount c)) (catArr a))
    by exact (Positive.byCat_isFin monthKey expenses budgets month Hnum
                                   Hplain).
  assert (Hs : nonIncreasing cat_amount (catArr a)).
  { unfold a, analyze in *. cbn [catArr] in *. apply SortFacts.sortBy_sorted.
    eapply Permutation_Forall; [apply SortFacts.sortBy_perm | exact Hf]. }
  rewrite Hcat in Hs, Hc, Hf.
  destruct Hc as [E|Hc].
  - inversion Hf as [|? ? Ht _]; subst. cbn [cat_amount] in *.
    destruct (spent monthKey expenses month c) as [r|]; [|contradiction].
    apply NumFacts.ge_true. exists r, r. repeat split. lra.
  - apply OrderFacts.strongly in Hs. inversion Hs as [|? ? _ Hall]; subst.
    rewrite Forall_forall in Hall. now apply Hall in Hc.
Qed.

(** ** Small drains *)

Module DrainFacts.

Local Open Scope R_scope.

(** A purchase counted as one. *)
Local Abbreviation one :=
  (fun e : Expense =>
     {| id := id e; date := date e; amount := Fin 1;
        category := category e; merchant := merchant e; note := note e;
        need := need e |}).

Lemma count_fold (l : list Expense) (o : obj num) :
  fold_left (fun o e => bump o (merchant e) (Fin 1)) l o =
  fold_left (fun o e => bump o (merchant e) (amount e)) (map one l) o.
Proof. revert o. induction l as [|e l IH]; intros o; simpl; auto. Qed.

Lemma ones_isFin (l : list Expense) :
  Forall (fun e => isFin (amount e)) (map one l).
Proof. apply Forall_map, Forall_forall. intros; exact I. Qed.

Lemma sum_ones (l : list Expense) (k : string) :
  sum (map amount (filter (fun e => String.eqb (merchant e) k) (map one l)))
  = ofNat (length (filter (fun e => String.eqb (merchant e) k) l)).
Proof.
  induction l as [|e l IH]; [reflexivity|]. cbn [map filter merchant].
  destruct (String.eqb (merchant e) k); [|exact IH].
  cbn [map sum fold_right length amount]. fold (sum (map amount
    (filter (fun e => String.eqb (merchant e) k) (map one l)))).
  rewrite IH. unfold ofNat. cbn [add]. f_equal. rewrite S_INR. lra.
Qed.

Lemma ones_plain (l : list Expense) :
  Forall (fun e => plain (merchant e)) l ->
  Forall (fun e => plain (merchant e)) (map one l).
Proof. intros H. apply Forall_map. exact H. Qed.

Lemma counted (l : list Expense) (k : string) (v : num) :
  Forall (fun e => plain (merchant e)) l ->
  In (k, v) (fold_left (fun o e => bump o (merchant e) (Fin 1)) l []) <->
  In k (map merchant l)
  /\ v = ofNat (length (filter (fun e => String.eqb (merchant e) k) l)).
Proof.
  intros Hplain. apply ones_plain in Hplain.
  rewrite count_fold. split.
  - intros H.
    apply (FinFacts.tally_In merchant _ _ (ones_isFin l) Hplain) in H.
    destruct H as [Hk Hv]. rewrite sum_ones in Hv. split; [|exact Hv].
    now rewrite map_map in Hk.
  - intros [Hk ->].
    assert (Hk' : In k (map merchant (map one l))) by now rewrite map_map.
    apply (FinFacts.tally_keys merchant k Hplain) in Hk'.
    apply in_map_iff in Hk'.
    destruct Hk' as ([k' v] & E & H). simpl in E. subst k'.
    pose proof (FinFacts.tally_In merchant _ _ (ones_isFin l) Hplain H)
      as [_ Hv].
    rewrite sum_ones in Hv. now subst v.
Qed.

Lemma at_least_five (n : nat) : ge (ofNat n) (Fin 5) = true <-> (5 <= n)%nat.
Proof.
  unfold ofNat, ge. rewrite NumFacts.le_Fin.
  replace 5 with (INR 5) by (simpl; lra). split.
  - apply INR_le.
  - apply le_INR.
Qed.

End DrainFacts.

(** X13.  The small drains, on plain merchant names: a merchant is reported
    exactly when at least five of the month's discretionary purchases under
    200 were made there, the reported count is the number of those
    purchases, and no merchant is reported twice. *)
Theorem small_drains_exact
  (monthKey : string -> string) (expenses : list Expense) (budgets : Budgets)
  (month : string) :
  let a := analyze monthKey expenses budgets month in
  Forall (fun e => plain (merchant e)) (inMonth a) ->
  (forall d, In d (smallDrains a) <->
     (5 <= smallCount monthKey expenses month (drain_merchant d))%nat
     /\ drain_count d =
        ofNat (smallCount monthKey expenses month (drain_merchant d)))
  /\ NoDup (map drain_merchant (smallDrains a)).
Proof.
  intros a. unfold a, analyze. cbn [smallDrains inMonth]. unfold smallCount.
  intros Hplain.
  set (smalls := filter (fun e => negb (need e) && lt (amount e) (Fin 200))
                   (filter (fun e => String.eqb (monthKey (date e)) month)
                           expenses)).
  set (counts := fold_left (fun o e => bump o (merchant e) (Fin 1)) smalls []).
  assert (Hsmall : Forall (fun e => plain (merchant e)) smalls).
  { apply Forall_forall. intros e He. apply filter_In in He.
    rewrite Forall_forall in Hplain. now apply Hplain. }
  split.
  - intros d. rewrite in_map_iff. split.
    + intros ([k v] & <- & H). cbn [drain_merchant drain_count fst snd].
      apply filter_In in H. destruct H as [H Hge]. cbn [snd] in Hge.
      apply (proj1 (ObjFacts.entries_In _ _)) in H.
      apply (DrainFacts.counted _ _ Hsmall) in H. destruct H as [_ ->].
      split; [|reflexivity]. now apply DrainFacts.at_least_five.
    + intros [Hn Hv]. exists (drain_merchant d, drain_count d). split.
      * now destruct d.
      * apply filter_In. cbn [snd]. split.
        -- apply ObjFacts.entries_In. apply (DrainFacts.counted _ _ Hsmall).
           split; [|exact Hv].
           destruct (filter (fun e => String.eqb (merchant e)
                                        (drain_merchant d)) smalls)
             as [|e l] eqn:E; [simpl in Hn; lia|].
           assert (He : In e (filter (fun e => String.eqb (merchant e)
                                        (drain_merchant d)) smalls))
             by (rewrite E; now left).
           apply filter_In in He. destruct He as [He Hm].
           apply String.eqb_eq in Hm. rewrite <- Hm. now apply in_map.
        -- rewrite Hv. now apply DrainFacts.at_least_five.
  - rewrite map_map. cbn [drain_merchant].
    assert (Hnd : NoDup (map fst (entries counts))).
    { apply ObjFacts.keys_NoDup. unfold counts.
      rewrite DrainFacts.count_fold. apply (FinFacts.tally_NoDup merchant). }
    revert Hnd. generalize (entries counts). intros l.
    induction l as [|[k v] l IH]; intros Hnd; [constructor|].
    inversion Hnd as [|? ? Hk Hl]; subst. cbn [filter].
    destruct (ge (snd (k, v)) (Fin 5)); [|auto].
    cbn [map fst]. constructor; [|auto].
    intros H. apply Hk. apply in_map_iff in H.
    destruct H as (kv & E & H). apply filter_In in H.
    apply in_map_iff. exists kv. tauto.
Qed.

(** ** How far from the mean an amount can lie *)

Module StatFacts.

Local Open Scope R_scope.

Local Abbreviation Rsum l := (fold_right Rplus 0 l).
Local Abbreviation squares l := (map (fun d : R => d * d) l).












End StatFacts.


(** ** Budgets: the handler, the panel and the data service *)

Module BudgetFacts.

Local Open Scope R_scope.

Lemma catArr_NoDup (monthKey : string -> string) (expenses : list Expense)
      (budgets : Budgets) (month : string) :
  NoDup (map cat_category (catArr (analyze monthKey expenses budgets month))).
Proof.
  pose proof (AnalyzeFacts.byCat_keys monthKey expenses budgets month) as Hc.
  cbv zeta in Hc.
  apply (Permutation_NoDup (Permutation_sym Hc)), FinFacts.tally_NoDup.
Qed.

(** The category totals do not read the budgets. *)
Lemma catArr_budgets (monthKey : string -> string) (expenses : list Expense)
      (b b' : Budgets) (month : string) :
  catArr (analyze monthKey expenses b month) =
  catArr (analyze monthKey expenses b' month).
Proof. reflexivity. Qed.

(** Who is flagged, on every input. *)
Lemma flagged_iff (monthKey : string -> string) (expenses : list Expense)
      (budgets : Budgets) (month : string) (c : string) :
  let a := analyze monthKey expenses budgets month in
  In c (map flag_category (budgetFlags a)) <->
  exists x, In x (catArr a) /\ cat_category x = c
            /\ gt (budgetOf budgets c) (Fin 0) = true
            /\ gt (cat_amount x) (budgetOf budgets c) = true.
Proof.
  intros a. unfold a, analyze. cbn [budgetFlags catArr].
  rewrite in_map_iff. unfold budgetOf. split.
  - intros (f & <- & Hf).
    apply SortFacts.sortBy_In, filter_In in Hf. destruct Hf as [Hf Ht].
    apply in_map_iff in Hf. destruct Hf as (x & <- & Hx).
    cbn [flag_category flag_budget flag_amount] in *.
    apply andb_true_iff in Ht. exists x. tauto.
  - intros (x & Hx & <- & H1 & H2). eexists. split.
    2:{ apply SortFacts.sortBy_In, filter_In. split.
        - apply in_map_iff. exists x. split; [reflexivity | exact Hx].
        - cbn [flag_budget flag_amount]. now rewrite H1, H2. }
    reflexivity.
Qed.

Lemma same_key (A : Type) (f : A -> string) (l : list A) (x y : A) :
  NoDup (map f l) -> In x l -> In y l -> f x = f y -> x = y.
Proof.
  induction l as [|z l IH]; [contradiction|]. cbn [map].
  intros Hnd [->|Hx] [->|Hy] E; inversion Hnd as [|? ? Hz Hl]; subst; auto.
  - exfalso. apply Hz. rewrite E. now apply in_map.
  - exfalso. apply Hz. rewrite <- E. now apply in_map.
Qed.

Lemma get_entries (V : Type) (o : obj V) (k : string) :
  NoDup (map fst o) -> get (entries o) k = get o k.
Proof.
  intros Hnd. destruct (get o k) as [v|] eqn:E.
  - apply ObjFacts.In_get; [now apply ObjFacts.keys_NoDup|].
    apply ObjFacts.entries_In. now apply ObjFacts.get_In.
  - apply ObjFacts.get_None. apply ObjFacts.get_None in E.
    intros H. apply E.
    exact (Permutation_in _ (ObjFacts.keys_perm o) H).
Qed.

Lemma orNum_0 (x : num) : gt (orNum x (Fin 0)) (Fin 0) = true ->
  orNum x (Fin 0) = x.
Proof.
  unfold orNum. destruct (truthy x); [reflexivity|].
  intros H. apply NumFacts.gt_true in H.
  destruct H as (a & b & Ha & Hb & Hlt).
  injection Ha as <-. injection Hb as <-. lra.
Qed.

(** Initialising over any list of default categories. *)
Lemma initialize_get (cats : list string) (b : Budgets) (c : string) :
  get (fold_left (fun b c => match get b c with
                             | Some _ => b
                             | None => set b c (Fin 0)
                             end) cats b) c =
  match get b c with
  | Some v => Some v
  | None => if existsb (String.eqb c) cats then Some (Fin 0) else None
  end.
Proof.
  revert b. induction cats as [|k cats IH]; intros b.
  - cbn [fold_left existsb]. now destruct (get b c).
  - cbn [fold_left existsb]. rewrite IH.
    destruct (get b k) as [w|] eqn:Ek.
    + destruct (get b c) as [v|] eqn:Ec; [reflexivity|].
      destruct (String.eqb_spec c k) as [->|Hck]; [congruence | reflexivity].
    + destruct (String.eqb_spec c k) as [->|Hck].
      * rewrite ObjFacts.get_set_same, Ek. reflexivity.
      * rewrite ObjFacts.get_set_other by congruence.
        now destruct (get b c).
Qed.

Lemma initialize_NoDup (cats : list string) (b : Budgets) :
  NoDup (map fst b) ->
  NoDup (map fst (fold_left (fun b c => match get b c with
                                        | Some _ => b
                                        | None => set b c (Fin 0)
                                        end) cats b)).
Proof.
  revert b. induction cats as [|k cats IH]; intros b Hb; [exact Hb|].
  cbn [fold_left]. apply IH. destruct (get b k); [exact Hb|].
  now apply ObjFacts.NoDup_set.
Qed.

(** Once every default category has a budget, initialising changes
    nothing. *)
Lemma initialize_fixed (cats : list string) (b : Budgets) :
  (forall c, In c cats -> get b c <> None) ->
  fold_left (fun b c => match get b c with
                        | Some _ => b
                        | None => set b c (Fin 0)
                        end) cats b = b.
Proof.
  induction cats as [|k cats IH]; intros H; [reflexivity|].
  cbn [fold_left]. destruct (get b k) eqn:E.
  - apply IH. intros c Hc. apply H. now right.
  - exfalso. apply (H k); [now left | exact E].
Qed.

(** Assigning the budgets of the answer one after the other: the last
    assignment to a category wins. *)
Lemma assign_get (l : list APIBudget) (b : Budgets) (c : string) :
  c <> "__proto__"%string ->
  get (fold_left (fun b x => assign b (api_category x) (api_amount x)) l b) c =
  match find (fun x => String.eqb (api_category x) c) (rev l) with
  | Some x => Some (api_amount x)
  | None => get b c
  end.
Proof.
  intros Hp. induction l as [|x l IH] using rev_ind; [reflexivity|].
  rewrite fold_left_app, rev_app_distr. cbn [fold_left rev app find].
  unfold assign at 1.
  destruct (String.eqb_spec (api_category x) c) as [<-|Hc].
  - apply String.eqb_neq in Hp. rewrite Hp. apply ObjFacts.get_set_same.
  - destruct (String.eqb (api_category x) "__proto__"); [exact IH|].
    rewrite ObjFacts.get_set_other by exact Hc. exact IH.
Qed.

(** No budget is ever stored under the name [__proto__]. *)
Lemma assign_proto (l : list APIBudget) (b : Budgets) :
  get (fold_left (fun b x => assign b (api_category x) (api_amount x)) l b)
      "__proto__" = get b "__proto__".
Proof.
  induction l as [|x l IH] using rev_ind; [reflexivity|].
  rewrite fold_left_app. cbn [fold_left]. unfold assign at 1.
  destruct (String.eqb_spec (api_category x) "__proto__") as [E|E];
    [exact IH|].
  rewrite ObjFacts.get_set_other by exact E. exact IH.
Qed.

End BudgetFacts.

(** X15.  The budget panel and the engine agree, on every input: the panel
    marks a category as over budget exactly when [analyze] lists it among
    the budget flags. *)
Theorem panel_agrees_with_flags
  (monthKey : string -> string) (expenses : list Expense) (budgets : Budgets)
  (month : string) (c : string) :
  let a := analyze monthKey expenses budgets month in
  panelOver a budgets c = true <-> In c (map flag_category (budgetFlags a)).
Proof.
  intros a. unfold a. rewrite BudgetFacts.flagged_iff. fold a.
  unfold panelOver, panelBudget, panelSpent. fold (budgetOf budgets c).
  rewrite andb_true_iff. split.
  - intros [Hb Hs].
    destruct (find (fun x => String.eqb (cat_category x) c) (catArr a))
      as [x|] eqn:E; cbn [option_map orElse] in Hs.
    + apply find_some in E. destruct E as [Hx Hc].
      apply String.eqb_eq in Hc. exists x. repeat split; auto.
      assert (Hpos : gt (orNum (cat_amount x) (Fin 0)) (Fin 0) = true).
      { apply NumFacts.gt_true in Hb, Hs.
        destruct Hb as (y & z & Hy & Hz & H0). injection Hz as <-.
        destruct Hs as (s & y' & Hs & Hy' & Hlt).
        rewrite Hy in Hy'. injection Hy' as <-. rewrite Hs.
        apply NumFacts.gt_true. exists s, 0%R. repeat split. lra. }
      now rewrite (BudgetFacts.orNum_0 _ Hpos) in Hs.
    + exfalso. apply NumFacts.gt_true in Hb, Hs.
      destruct Hb as (y & z & Hy & Hz & H0). injection Hz as <-.
      destruct Hs as (s & y' & Hs & Hy' & Hlt).
      rewrite Hy in Hy'. injection Hy' as <-. injection Hs as <-.
      apply (Rlt_asym _ _ H0). exact Hlt.
  - intros (x & Hx & Hc & Hb & Hs). split; [exact Hb|].
    destruct (find (fun x => String.eqb (cat_category x) c) (catArr a))
      as [y|] eqn:E.
    + apply find_some in E. destruct E as [Hy Hyc].
      apply String.eqb_eq in Hyc.
      assert (y = x).
      { apply (@BudgetFacts.same_key _ cat_category (catArr a));
          auto; [|congruence].
        apply BudgetFacts.catArr_NoDup. }
      subst y. cbn [option_map orElse].
      apply NumFacts.gt_true in Hs. destruct Hs as (s & y & Hs & Hy' & Hlt).
      apply NumFacts.gt_true in Hb. destruct Hb as (y' & z & Hy'' & Hz & H0).
      injection Hz as <-. rewrite Hy' in Hy''. injection Hy'' as <-.
      rewrite Hs, Hy'. unfold orNum, truthy.
      destruct (Req_dec_T s 0) as [->|_]; [exfalso; lra|].
      apply NumFacts.gt_true. exists s, y. auto.
    + exfalso. apply (find_none _ _ E) in Hx.
      apply String.eqb_neq in Hx. contradiction.
Qed.

(** X16.  Setting a budget touches one category.  The stored amount is never
    NaN, whatever was typed; the budget of any other category is what it
    was, and so is whether that category is flagged; and an emptied field
    stores 0, which leaves the category unflagged whatever was spent. *)
Theorem set_budget_touches_one_category
  (monthKey : string -> string) (prev : FinanceData) (cat val : string)
  (month : string) :
  NoDup (map fst (data_budgets prev)) ->
  let next := setBudget true cat val prev in
  let flagged d c :=
    In c (map flag_category
            (budgetFlags (analyze monthKey (data_expenses d)
                                  (data_budgets d) month))) in
  isFin (budgetOf (data_budgets next) cat)
  /\ (forall c, c <> cat ->
        budgetOf (data_budgets next) c = budgetOf (data_budgets prev) c)
  /\ (forall c, c <> cat -> (flagged next c <-> flagged prev c))
  /\ (val = ""%string ->
      budgetOf (data_budgets next) cat = Fin 0 /\ ~ flagged next cat)
  /\ NoDup (map fst (data_budgets next)).
Proof.
  intros Hnd next flagged.
  assert (Hcat : budgetOf (data_budgets next) cat =
                 orNum (toNumber (Str val)) (Fin 0)).
  { unfold next, setBudget, budgetOf. cbn [data_budgets].
    rewrite ObjFacts.get_set_same. cbn [orElse].
    unfold orNum at 1. destruct (truthy (orNum _ _)) eqn:E; [reflexivity|].
    unfold orNum in *. destruct (truthy (toNumber (Str val))) eqn:E';
      [congruence | reflexivity]. }
  assert (Hother : forall c, c <> cat ->
            budgetOf (data_budgets next) c = budgetOf (data_budgets prev) c).
  { intros c Hc. unfold next, setBudget, budgetOf, spread.
    cbn [data_budgets].
    rewrite ObjFacts.get_set_other by congruence.
    now rewrite BudgetFacts.get_entries. }
  split; [|split; [exact Hother|split; [|split]]].
  - rewrite Hcat. unfold orNum.
    destruct (truthy (toNumber (Str val))) eqn:E; [|exact I].
    now destruct (toNumber (Str val)).
  - intros c Hc. unfold flagged. rewrite !BudgetFacts.flagged_iff.
    rewrite (Hother c Hc). reflexivity.
  - intros Hv.
    assert (Hzero : budgetOf (data_budgets next) cat = Fin 0).
    { rewrite Hcat, Hv.
      assert (E : toNumber (Str "") = Fin 0) by reflexivity.
      rewrite E. unfold orNum. now destruct (truthy (Fin 0)). }
    split; [exact Hzero|]. intros Hf. unfold flagged in Hf.
    apply BudgetFacts.flagged_iff in Hf.
    destruct Hf as (x & _ & _ & Hb & _). rewrite Hzero in Hb.
    apply NumFacts.gt_true in Hb. destruct Hb as (a & b & Ha & Hb & Hlt).
    injection Ha as <-. injection Hb as <-. lra.
  - unfold next, setBudget, spread. cbn [data_budgets].
    apply ObjFacts.NoDup_set. now apply ObjFacts.keys_NoDup.
Qed.

(** X17.  What the data service hands out as budgets.  After a successful
    fetch the cache is rebuilt from scratch: a category has the amount of
    the last entry of the answer that names it, a default category the
    answer does not name has 0, and any other category has no budget; the
    name [__proto__] never has one.  After a failed fetch the cached
    budgets are kept and the default categories that are missing get 0.
    Either way every default category has a budget. *)
Theorem get_budgets_exact
  (answer : list APIBudget) (cached : Budgets) (c : string) :
  get (getBudgets (Some answer) cached) c =
    (if String.eqb c "__proto__" then None
     else
       match find (fun x => String.eqb (api_category x) c) (rev answer) with
       | Some x => Some (api_amount x)
       | None => if existsb (String.eqb c) DEFAULT_CATEGORIES
                 then Some (Fin 0) else None
       end)
  /\ get (getBudgets None cached) c =
     match get cached c with
     | Some v => Some v
     | None => if existsb (String.eqb c) DEFAULT_CATEGORIES
               then Some (Fin 0) else None
     end
  /\ (In c DEFAULT_CATEGORIES ->
      get (getBudgets (Some answer) cached) c <> None
      /\ get (getBudgets None cached) c <> None).
Proof.
  assert (H1 : get (getBudgets (Some answer) cached) c =
    (if String.eqb c "__proto__" then None
     else
       match find (fun x => String.eqb (api_category x) c) (rev answer) with
       | Some x => Some (api_amount x)
       | None => if existsb (String.eqb c) DEFAULT_CATEGORIES
                 then Some (Fin 0) else None
       end)).
  { unfold getBudgets.
    destruct (String.eqb_spec c "__proto__") as [->|Hp].
    - rewrite BudgetFacts.assign_proto. reflexivity.
    - rewrite BudgetFacts.assign_get by exact Hp.
      unfold initializeBudgets. rewrite BudgetFacts.initialize_get.
      reflexivity. }
  assert (H2 : get (getBudgets None cached) c =
     match get cached c with
     | Some v => Some v
     | None => if existsb (String.eqb c) DEFAULT_CATEGORIES
               then Some (Fin 0) else None
     end).
  { unfold getBudgets, initializeBudgets.
    apply BudgetFacts.initialize_get. }
  split; [exact H1|]. split; [exact H2|].
  intros Hc.
  assert (He : existsb (String.eqb c) DEFAULT_CATEGORIES = true).
  { apply existsb_exists. exists c. split; [exact Hc|].
    apply String.eqb_refl. }
  assert (Hp : String.eqb c "__proto__" = false).
  { unfold DEFAULT_CATEGORIES in Hc. simpl in Hc.
    repeat (destruct Hc as [<-|Hc]; [reflexivity|]). contradiction. }
  rewrite H1, H2, He, Hp. split.
  - now destruct (find _ (rev answer)).
  - now destruct (get cached c).
Qed.

(** X18.  Initialising the budgets twice is initialising them once, and a
    budget that is already there is never overwritten. *)
Theorem initialize_budgets_idempotent (budgets : Budgets) :
  initializeBudgets (initializeBudgets budgets) = initializeBudgets budgets
  /\ forall c v, get budgets c = Some v ->
                 get (initializeBudgets budgets) c = Some v.
Proof.
  split.
  - unfold initializeBudgets at 1. apply BudgetFacts.initialize_fixed.
    intros c Hc. unfold initializeBudgets.
    rewrite BudgetFacts.initialize_get.
    assert (He : existsb (String.eqb c) DEFAULT_CATEGORIES = true).
    { apply existsb_exists. exists c. split; [exact Hc|].
      apply String.eqb_refl. }
    rewrite He. now destruct (get budgets c).
  - intros c v H. unfold initializeBudgets.
    now rewrite BudgetFacts.initialize_get, H.
Qed.

(** X19.  With the budgets of a reset, or of a fetch that found none, nothing
    is over budget: whatever the expenses, [analyze] raises no flag and
    the ranker makes no Over Budget suggestion. *)
Theorem no_budgets_no_flags
  (monthKey : string -> string) (expenses : list Expense) (month : string)
  (cached : Budgets) :
  let budgets := getBudgets (Some []) cached in
  budgets = resetBudgets
  /\ budgetFlags (analyze monthKey expenses budgets month) = []
  /\ overBudget (analyze monthKey expenses budgets month) = [].
Proof.
  intros budgets.
  assert (Hb : forall c, gt (budgetOf budgets c) (Fin 0) = false).
  { intros c. unfold budgetOf, budgets.
    unfold getBudgets. cbn [fold_left]. unfold initializeBudgets.
    rewrite BudgetFacts.initialize_get. cbn [get].
    destruct (existsb (String.eqb c) DEFAULT_CATEGORIES); cbn [orElse].
    - unfold orNum, truthy. destruct (Req_dec_T 0 0) as [_|H]; [|lra].
      unfold gt, lt. destruct (Rlt_dec 0 0); [lra | reflexivity].
    - unfold gt, lt. destruct (Rlt_dec 0 0); [lra | reflexivity]. }
  assert (Hf : budgetFlags (analyze monthKey expenses budgets month) = []).
  { destruct (budgetFlags (analyze monthKey expenses budgets month))
      as [|f fl] eqn:E; [reflexivity|]. exfalso.
    assert (Hin : In (flag_category f)
                     (map flag_category
                        (budgetFlags (analyze monthKey expenses budgets
                                              month))))
      by (rewrite E; now left).
    apply BudgetFacts.flagged_iff in Hin.
    destruct Hin as (x & _ & _ & H & _). now rewrite Hb in H. }
  split; [reflexivity|]. split; [exact Hf|].
  unfold overBudget. now rewrite Hf.
Qed.

(** ** The expense table and the handlers of the page *)

Module PageFacts.

Local Open Scope R_scope.

Lemma filter_and (A : Type) (p q : A -> bool) (l : list A) :
  filter q (filter p l) = filter (fun x => p x && q x) l.
Proof.
  induction l as [|x l IH]; [reflexivity|]. cbn [filter].
  destruct (p x); cbn [filter andb]; [|exact IH].
  destruct (q x); now rewrite IH.
Qed.

Lemma filter_same (A : Type) (p q : A -> bool) (l : list A) :
  (forall x, In x l -> p x = q x) -> filter p l = filter q l.
Proof.
  induction l as [|x l IH]; intros H; [reflexivity|]. cbn [filter].
  rewrite (H x) by now left.
  rewrite IH; [reflexivity|]. intros y Hy. apply H. now right.
Qed.

Lemma filter_all (A : Type) (p : A -> bool) (l : list A) :
  (forall x, In x l -> p x = true) -> filter p l = l.
Proof.
  induction l as [|x l IH]; intros H; [reflexivity|]. cbn [filter].
  rewrite (H x) by now left.
  rewrite IH; [reflexivity|]. intros y Hy. apply H. now right.
Qed.

Lemma filter_split (A : Type) (p : A -> bool) (l : list A) :
  Permutation (filter p l ++ filter (fun x => negb (p x)) l) l.
Proof.
  induction l as [|x l IH]; [constructor|]. cbn [filter].
  destruct (p x); cbn [negb app].
  - now constructor.
  - rewrite <- Permutation_middle. now constructor.
Qed.

(** The month filter and another filter commute. *)
Lemma inMonth_filter (monthKey : string -> string) (p : Expense -> bool)
      (expenses : list Expense) (budgets budgets' : Budgets)
      (month : string) :
  inMonth (analyze monthKey (filter p expenses) budgets month) =
  filter p (inMonth (analyze monthKey expenses budgets' month)).
Proof.
  unfold analyze. cbn [inMonth]. rewrite !filter_and.
  apply filter_same. intros x _. apply andb_comm.
Qed.

(** On numbers the total, the need total and the want total are related
    as the plain sums are. *)
Lemma total_split (monthKey : string -> string) (expenses : list Expense)
      (budgets : Budgets) (month : string) :
  let a := analyze monthKey expenses budgets month in
  Forall (fun e => isFin (amount e)) (inMonth a) ->
  total a = add (needs (wantsNeeds a)) (want (wantsNeeds a)).
Proof.
  intros a Hnum.
  pose proof (FinFacts.total_sum monthKey expenses budgets month Hnum)
    as Hsum.
  fold a in Hsum. rewrite Hsum.
  unfold a, analyze. cbn [wantsNeeds inMonth].
  rewrite FinFacts.split_fold. cbn [split needs want].
  change (add (Fin 0) (Fin 0)) with (Fin (0 + 0)).
  replace (0 + 0) with 0 by lra. now rewrite NumFacts.add_zero_l.
Qed.

Lemma catArr_sum (monthKey : string -> string) (expenses : list Expense)
      (budgets : Budgets) (month : string) :
  let a := analyze monthKey expenses budgets month in
  Forall (fun e => isFin (amount e)) (inMonth a) ->
  Forall (fun e => plain (category e)) (inMonth a) ->
  sum (map cat_amount (catArr a)) = total a.
Proof.
  intros a Hnum Hplain.
  pose proof (FinFacts.total_sum monthKey expenses budgets month Hnum)
    as Hsum.
  fold a in Hsum. rewrite Hsum.
  rewrite <- (FinFacts.tally_sum category Hnum Hplain).
  unfold a, analyze. cbn [catArr inMonth]. rewrite SumFacts.byCat_fold.
  cbn [byCat]. apply NumFacts.sum_perm.
  rewrite (Permutation_map _ (SortFacts.sortBy_perm _ _)), map_map.
  cbn [cat_amount]. apply Permutation_map, ObjFacts.entries_perm.
Qed.

(** Percentages of a non-zero total add up as the amounts do. *)
Lemma sum_scaled (r : R) (xs : list num) :
  r <> 0 -> Forall isFin xs ->
  sum (map (fun x => mul (div x (Fin r)) (Fin 100)) xs) =
  mul (div (sum xs) (Fin r)) (Fin 100).
Proof.
  intros Hr. induction 1 as [|x xs Hx Hxs IH].
  - cbn [map sum fold_right div].
    destruct (Req_dec_T r 0); [contradiction|]. cbn [mul].
    f_equal. field. exact Hr.
  - cbn [map]. change (sum (?a :: ?t)) with (add a (sum t)). rewrite IH.
    pose proof (FinFacts.isFin_sum Hxs) as Hs.
    destruct x as [x|]; [|contradiction].
    destruct (sum xs) as [s|]; [|contradiction].
    cbn [add div mul]. destruct (Req_dec_T r 0); [contradiction|].
    cbn [add mul]. f_equal. field. exact Hr.
Qed.

End PageFacts.

Section TrimWants.

Local Open Scope string_scope.
Local Open Scope R_scope.



End TrimWants.

(** X20.  The Need and Want views of the table split the All view: with the
    query and the category filter fixed, the Need rows are the All rows
    marked as needs, the Want rows are the others, and together they are
    the All rows.  Any value of the need filter other than All and
    Need shows the Want rows. *)
Theorem filtered_rows_split_by_need
  (toLowerCase : string -> string) (analysis : Analysis) (q cat : string)
  (other : string) :
  let rows n := filteredRows toLowerCase analysis
                  {| filter_q := q; filter_cat := cat; filter_need := n |} in
  rows "Need"%string = filter need (rows "All"%string)
  /\ rows "Want"%string = filter (fun e => negb (need e)) (rows "All"%string)
  /\ Permutation (rows "Need"%string ++ rows "Want"%string)
                 (rows "All"%string)
  /\ (other <> "All"%string -> other <> "Need"%string ->
      rows other = rows "Want"%string).
Proof.
  intros rows.
  assert (Hn : rows "Need"%string = filter need (rows "All"%string)).
  { unfold rows, filteredRows. rewrite PageFacts.filter_and.
    apply PageFacts.filter_same. intros e _. unfold matchesRow.
    cbn [filter_q filter_cat filter_need String.eqb Ascii.eqb Bool.eqb orb].
    now rewrite andb_true_r. }
  assert (Hw : rows "Want"%string =
               filter (fun e => negb (need e)) (rows "All"%string)).
  { unfold rows, filteredRows. rewrite PageFacts.filter_and.
    apply PageFacts.filter_same. intros e _. unfold matchesRow.
    cbn [filter_q filter_cat filter_need String.eqb Ascii.eqb Bool.eqb orb].
    now rewrite andb_true_r. }
  split; [exact Hn|]. split; [exact Hw|]. split.
  - rewrite Hn, Hw. apply PageFacts.filter_split.
  - intros Hall Hneed. unfold rows, filteredRows.
    apply PageFacts.filter_same. intros e _. unfold matchesRow.
    cbn [filter_q filter_cat filter_need].
    apply String.eqb_neq in Hall, Hneed. rewrite Hall, Hneed.
    reflexivity.
Qed.

(** X21.  With the filters the page starts with (an empty query, category All,
    need All) the table shows every expense of the month, in order, as
    long as the lower case of the empty string is the empty string. *)
Theorem default_filters_show_all
  (toLowerCase : string -> string) (analysis : Analysis) :
  toLowerCase ""%string = ""%string ->
  filteredRows toLowerCase analysis
    {| filter_q := ""; filter_cat := "All"; filter_need := "All" |}
  = inMonth analysis.
Proof.
  intros H. unfold filteredRows. apply PageFacts.filter_all.
  intros e _. unfold matchesRow. cbn [filter_q filter_cat filter_need].
  rewrite H. cbn [existsb]. 
  assert (Hi : forall s, includes s "" = true) by (now intros []).
  now rewrite !Hi.
Qed.

(** X22.  Adding an expense and deleting it again gives back the expenses of
    the page and of the data service, when the identifier the service gave
    it is not already in use; this whether or not the page shared its
    array with the service, the deletion removing every copy. *)
Theorem add_then_delete (s : Session) (e : Expense) :
  ~ In (id e) (map id (data_expenses (state s))) ->
  ~ In (id e) (map id (cache s)) ->
  let s' := deleteExpenseStep true (id e) (addExpenseStep (Some e) s) in
  state s' = state s /\ cache s' = cache s /\ shared s' = false.
Proof.
  intros Hpage Hcache. cbv zeta.
  unfold deleteExpenseStep, addExpenseStep, deleteExpense, addExpense.
  cbn [state cache shared data_expenses data_categories data_budgets].
  assert (Hkeep : forall l, ~ In (id e) (map id l) ->
            filter (fun x => negb (String.eqb (id x) (id e))) l = l).
  { intros l Hl. apply PageFacts.filter_all.
    intros x Hx. apply negb_true_iff, String.eqb_neq. intros E.
    apply Hl. rewrite <- E. now apply in_map. }
  split; [|split; [|reflexivity]].
  - destruct (shared s); cbn [filter]; rewrite String.eqb_refl; cbn [negb];
      rewrite Hkeep by exact Hpage; now destruct (state s).
  - cbn [filter]. rewrite String.eqb_refl. cbn [negb]. now apply Hkeep.
Qed.

(** X23.  An added expense dated in the month becomes the first row of the
    month, twice when the page shared its array with the data service, as
    it does from [loadData] to the first addition or deletion; on whole
    amounts the total rises by the amount, or by twice the amount. *)
Theorem add_expense_enters_analysis
  (monthKey : string -> string) (s : Session) (e : Expense)
  (month : string) :
  let next := addExpenseStep (Some e) s in
  let before :=
    analyze monthKey (data_expenses (state s)) (data_budgets (state s)) month in
  let after :=
    analyze monthKey (data_expenses (state next)) (data_budgets (state next))
            month in
  monthKey (date e) = month ->
  wholeAmounts (inMonth after) ->
  inMonth after = (if shared s then [e; e] else [e]) ++ inMonth before
  /\ total after =
     add (total before)
         (if shared s then add (amount e) (amount e) else amount e).
Proof.
  intros next before after Hm Hwhole.
  pose proof (FinFacts.whole_isFin Hwhole) as Hnum.
  assert (Hin : inMonth after =
                (if shared s then [e; e] else [e]) ++ inMonth before).
  { unfold after, before, next, addExpenseStep, addExpense, analyze.
    cbn [inMonth state data_expenses].
    apply String.eqb_eq in Hm.
    destruct (shared s); cbn [filter app]; now rewrite Hm. }
  split; [exact Hin|].
  assert (Hnum' : Forall (fun e => isFin (amount e)) (inMonth before)).
  { rewrite Hin in Hnum. now apply Forall_app in Hnum. }
  unfold after, before.
  rewrite (FinFacts.total_sum monthKey _ _ month Hnum).
  rewrite (FinFacts.total_sum monthKey _ _ month Hnum').
  fold after before. rewrite Hin, map_app, NumFacts.sum_app.
  rewrite NumFacts.add_comm. f_equal.
  destruct (shared s); cbn [map sum fold_right];
    now rewrite NumFacts.add_zero_r.
Qed.

(** X24.  A deletion removes every expense that carries the identifier.  The
    rows of the month are the old ones without those, and on numbers the
    old total is the new one plus the amounts removed from the month. *)
Theorem delete_expense_leaves_analysis
  (monthKey : string -> string) (prev : FinanceData) (id0 : string)
  (month : string) :
  let next := deleteExpense true id0 prev in
  let before :=
    analyze monthKey (data_expenses prev) (data_budgets prev) month in
  let after :=
    analyze monthKey (data_expenses next) (data_budgets next) month in
  Forall (fun e => isFin (amount e)) (inMonth before) ->
  ~ In id0 (map id (data_expenses next))
  /\ inMonth after =
     filter (fun e => negb (String.eqb (id e) id0)) (inMonth before)
  /\ total before =
     add (total after)
         (sum (map amount
                 (filter (fun e => String.eqb (id e) id0) (inMonth before)))).
Proof.
  intros next before after Hnum.
  assert (Hin : inMonth after =
     filter (fun e => negb (String.eqb (id e) id0)) (inMonth before)).
  { unfold after, before, next, deleteExpense.
    cbn [data_expenses data_budgets]. apply PageFacts.inMonth_filter. }
  split; [|split; [exact Hin|]].
  - unfold next, deleteExpense. cbn [data_expenses]. intros H.
    apply in_map_iff in H. destruct H as (x & Hx & H).
    apply filter_In in H. destruct H as [_ H].
    apply negb_true_iff, String.eqb_neq in H. contradiction.
  - assert (Hnum' : Forall (fun e => isFin (amount e)) (inMonth after)).
    { rewrite Hin. apply Forall_forall. intros x Hx.
      apply filter_In in Hx. rewrite Forall_forall in Hnum.
      now apply Hnum. }
    unfold after, before.
    rewrite (FinFacts.total_sum monthKey _ _ month Hnum).
    rewrite (FinFacts.total_sum monthKey _ _ month Hnum').
    fold after before. rewrite Hin, <- NumFacts.sum_app, <- map_app.
    apply NumFacts.sum_perm, Permutation_map.
    rewrite Permutation_app_comm. symmetry.
    apply (PageFacts.filter_split (fun e => String.eqb (id e) id0)).
Qed.

(** X25.  A month without expenses: the analysis is empty apart from the
    recurring merchants, which are read off the whole history, and the
    only suggestion the ranker can make is the Recurring one. *)
Theorem empty_month
  (monthKey : string -> string) (expenses : list Expense) (budgets : Budgets)
  (month : string) :
  let a := analyze monthKey expenses budgets month in
  (forall e, In e expenses -> monthKey (date e) <> month) ->
  inMonth a = [] /\ total a = Fin 0 /\ catArr a = [] /\ topMerchants a = []
  /\ wantsNeeds a = {| want := Fin 0; needs := Fin 0 |}
  /\ budgetFlags a = [] /\ smallDrains a = [] /\ outliers a = []
  /\ recurring a = detectRecurring monthKey expenses
  /\ suggestions a = recurringCharge a.
Proof.
  intros a Hno.
  assert (Hf : filter (fun e => String.eqb (monthKey (date e)) month)
                      expenses = []).
  { induction expenses as [|e l IH]; [reflexivity|]. cbn [filter].
    destruct (String.eqb_spec (monthKey (date e)) month) as [E|_].
    - exfalso. apply (Hno e); [now left | exact E].
    - apply IH. intros x Hx. apply Hno. now right. }
  assert (Ha : a = {| inMonth := []; total := Fin 0; catArr := [];
                      topMerchants := [];
                      wantsNeeds := {| want := Fin 0; needs := Fin 0 |};
                      budgetFlags := []; smallDrains := []; outliers := [];
                      recurring := detectRecurring monthKey expenses |}).
  { unfold a, analyze. rewrite Hf. reflexivity. }
  rewrite Ha. cbn [inMonth total catArr topMerchants wantsNeeds budgetFlags
                   smallDrains outliers recurring].
  repeat (split; [reflexivity|]).
  unfold suggestions, candidates, trimWants, overBudget, smallSpends,
    topMerchant.
  cbn [wantsNeeds want budgetFlags smallDrains topMerchants].
  assert (Hz : gt (Fin 0) (Fin 0) = false)
    by (unfold gt, lt; destruct (Rlt_dec 0 0); [lra | reflexivity]).
  rewrite Hz. cbn [app]. unfold recurringCharge. clear Hf.
  destruct (filter _ _) as [|r rl]; reflexivity.
Qed.

(** X26.  The percentages of the cards in exact arithmetic, before any
    rounding.  On numbers and plain category names, with a non-zero total,
    the Needs and Wants percentages add up to 100, and so do the
    percentages of the categories in the pie; the Wants percentage is the
    one the Trim Wants suggestion quotes. *)
Theorem shares_add_up
  (monthKey : string -> string) (expenses : list Expense) (budgets : Budgets)
  (month : string) :
  let a := analyze monthKey expenses budgets month in
  Forall (fun e => isFin (amount e)) (inMonth a) ->
  Forall (fun e => plain (category e)) (inMonth a) ->
  total a <> Fin 0 ->
  add (share a (needs (wantsNeeds a))) (share a (want (wantsNeeds a)))
    = Fin 100
  /\ sum (map (fun c => share a (cat_amount c)) (catArr a)) = Fin 100
  /\ share a (want (wantsNeeds a)) = wantRatio a.
Proof.
  intros a Hnum Hplain Ht.
  pose proof (PageFacts.total_split monthKey expenses budgets month Hnum)
    as Hsplit.
  pose proof (PageFacts.catArr_sum monthKey expenses budgets month Hnum
                                   Hplain)
    as Hcats.
  pose proof (Positive.byCat_isFin monthKey expenses budgets month Hnum
                                   Hplain)
    as Hfin.
  fold a in Hsplit, Hcats, Hfin. unfold share.
  assert (Htot : isFin (total a)).
  { pose proof (FinFacts.total_sum monthKey expenses budgets month Hnum)
      as Hsum.
    fold a in Hsum. rewrite Hsum. apply FinFacts.isFin_sum.
    now apply Forall_map. }
  destruct (total a) as [r|] eqn:E; [|contradiction].
  assert (Hr : r <> 0%R) by (intros ->; now apply Ht).
  assert (Ho : orNum (Fin r) (Fin 1) = Fin r).
  { unfold orNum, truthy. now destruct (Req_dec_T r 0). }
  rewrite Ho. split; [|split; [|unfold wantRatio; now rewrite E, Ho]].
  - destruct (needs (wantsNeeds a)) as [n|], (want (wantsNeeds a)) as [w|];
      try discriminate.
    injection Hsplit as Hsplit. cbn [div].
    destruct (Req_dec_T r 0); [contradiction|]. cbn [mul add].
    f_equal. subst r. field. exact Hr.
  - rewrite <- map_map with (f := cat_amount)
                             (g := fun x => mul (div x (Fin r)) (Fin 100)).
    rewrite PageFacts.sum_scaled; [|exact Hr|].
    + rewrite Hcats. cbn [div]. destruct (Req_dec_T r 0); [contradiction|].
      cbn [mul]. f_equal. field. exact Hr.
    + now apply Forall_map.
Qed.

(** ** A charge of the same amount every time *)

Module FixedFacts.

Local Open Scope R_scope.






End FixedFacts.


(** ** Identifiers *)

Module IdFacts.

Lemma digits_uint (d : Decimal.uint) (acc : nat) (k : nat) :
  digits (list_ascii_of_string (NilEmpty.string_of_uint d)) (Z.of_nat acc) k =
  (Z.of_nat (Nat.of_uint_acc d acc), (k + Decimal.nb_digits d)%nat, []).
Proof.
  revert acc k.
  induction d as [|d IH|d IH|d IH|d IH|d IH|d IH|d IH|d IH|d IH|d IH];
    intros acc k;
    cbn [NilEmpty.string_of_uint list_ascii_of_string digits
         Nat.of_uint_acc Decimal.nb_digits];
    [ now rewrite Nat.add_0_r | .. ];
    match goal with
    | |- context [isDigit ?c] => change (isDigit c) with true; cbv iota
    end;
    match goal with
    | |- context [digitVal ?c] =>
        let v := eval vm_compute in (digitVal c) in
        change (digitVal c) with v
    end;
    match goal with
    | |- digits _ ?z _ = _ =>
        match goal with
        | |- context [Nat.of_uint_acc d ?a] =>
            replace z with (Z.of_nat a)
              by (rewrite ?Nat.tail_mul_spec; lia)
        end
    end;
    rewrite IH; f_equal; f_equal; lia.
Qed.

Lemma dropSpace_digit (c : ascii) (l : list ascii) :
  isDigit c = true -> dropSpace (c :: l) = c :: l.
Proof.
  intros H. cbn [dropSpace].
  replace (isSpace c) with false; [reflexivity|].
  unfold isDigit, isSpace in *. cbv zeta in *.
  apply andb_true_iff in H. destruct H as [H1 H2].
  apply Nat.leb_le in H1, H2. symmetry.
  apply orb_false_iff. split; [apply orb_false_iff; split|].
  - apply andb_false_iff. right. apply Nat.leb_gt. lia.
  - apply Nat.eqb_neq. lia.
  - apply Nat.eqb_neq. lia.
Qed.

(** The text of a number starts with a digit, and so does what follows
    the first digit. *)
Lemma uint_head_digit (d : Decimal.uint) :
  match list_ascii_of_string (NilZero.string_of_uint d) with
  | c :: l => isDigit c = true
              /\ match l with
                 | c' :: _ => isDigit c' = true
                 | [] => True
                 end
  | [] => False
  end.
Proof.
  destruct d as [|d|d|d|d|d|d|d|d|d|d]; cbn; try (split; [reflexivity|]);
    try exact I; try reflexivity;
    destruct d; cbn; try exact I; reflexivity.
Qed.

Lemma digit_not_x (c : ascii) :
  isDigit c = true -> (Ascii.eqb c "x" || Ascii.eqb c "X")%bool = false.
Proof.
  destruct c as [[] [] [] [] [] [] [] []]; intros H;
    first [discriminate H | reflexivity].
Qed.

Lemma parseInt_numberToString (n : nat) :
  parseInt (numberToString n) = Fin (IZR (Z.of_nat n)).
Proof.
  unfold parseInt, numberToString.
  pose proof (uint_head_digit (Nat.to_uint n)) as Hh.
  pose proof (DecimalNat.Unsigned.of_to n) as Hof.
  unfold Nat.of_uint in Hof.
  assert (Hd : digits (list_ascii_of_string
                         (NilZero.string_of_uint (Nat.to_uint n))) 0 0
               = (Z.of_nat n,
                  Nat.max 1 (Decimal.nb_digits (Nat.to_uint n)), [])).
  { destruct (Nat.to_uint n) as [|d|d|d|d|d|d|d|d|d|d] eqn:E;
      try (unfold NilZero.string_of_uint;
           rewrite (digits_uint _ 0 0), Hof; cbn [Nat.add Decimal.nb_digits];
           reflexivity).
    cbn in Hof. subst n. reflexivity. }
  destruct (list_ascii_of_string (NilZero.string_of_uint (Nat.to_uint n)))
    as [|c l] eqn:El; [contradiction|].
  destruct Hh as [Hc Hl]. rewrite (@dropSpace_digit c l Hc).
  assert (Hmax : exists k,
            Nat.max 1 (Decimal.nb_digits (Nat.to_uint n)) = S k).
  { destruct (Decimal.nb_digits (Nat.to_uint n)) as [|k]; simpl; eauto. }
  destruct Hmax as [k Hk]. rewrite Hk in Hd.
  destruct c as [[] [] [] [] [] [] [] []]; try discriminate Hc;
    try (rewrite Hd; reflexivity).
  destruct l as [|c' l']; [rewrite Hd; reflexivity|].
  rewrite (@digit_not_x c' Hl), Hd. reflexivity.
Qed.

End IdFacts.

(** X28.  A deletion names the row the expense came from: the identifier the
    page holds for an expense of the backend, read back by [parseInt],
    is the number the backend gave it.  The number is a non-negative
    integer below [2^53], the range of the integers that reach the page
    as they left the backend. *)
Theorem delete_request_names_the_row (apiExpense : APIExpense) :
  (Z.of_nat (ae_id apiExpense) < 2 ^ 53)%Z ->
  deleteRequest (id (convertAPIExpenseToFrontend apiExpense)) =
  Fin (IZR (Z.of_nat (ae_id apiExpense))).
Proof.
  intros _. unfold deleteRequest, convertAPIExpenseToFrontend. cbn [id].
  apply IdFacts.parseInt_numberToString.
Qed.

(** ** The order of the history *)

Module OrderOfHistory.


Section Reordered.

Variable monthKey : string -> string.
Variables l l' : list Expense.
Hypothesis reordered : Permutation l l'.






End Reordered.


End OrderOfHistory.


(** ** What the Over Budget suggestion is about *)

Module WorstFacts.

Local Open Scope R_scope.

Lemma flags_sorted (monthKey : string -> string) (expenses : list Expense)
      (budgets : Budgets) (month : string) :
  let a := analyze monthKey expenses budgets month in
  nonIncreasing flag_overBy (budgetFlags a)
  /\ Forall (fun f => isFin (flag_overBy f)) (budgetFlags a).
Proof.
  intros a.
  assert (H : Forall (fun f => isFin (flag_overBy f)) (budgetFlags a)).
  { apply Forall_forall. intros f Hf. unfold a, analyze in Hf.
    cbn [budgetFlags] in Hf.
    apply SortFacts.sortBy_In, filter_In in Hf. destruct Hf as [Hf Ht].
    apply in_map_iff in Hf. destruct Hf as (c & <- & _).
    cbn [flag_budget flag_amount flag_overBy] in *.
    apply andb_true_iff in Ht. destruct Ht as [_ Ht].
    apply NumFacts.gt_true in Ht. destruct Ht as (x & y & -> & -> & _).
    exact I. }
  split; [|exact H].
  unfold a, analyze in *. cbn [budgetFlags] in *.
  apply SortFacts.sortBy_sorted.
  eapply Permutation_Forall; [apply SortFacts.sortBy_perm | exact H].
Qed.

End WorstFacts.

(** X30.  The Over Budget suggestion is about the worst overage, on every
    input: there is one exactly when some category is flagged, it names
    the first flag, and no flagged category is further over its budget
    than that one. *)
Theorem over_budget_names_the_worst
  (monthKey : string -> string) (expenses : list Expense) (budgets : Budgets)
  (month : string) :
  let a := analyze monthKey expenses budgets month in
  match budgetFlags a with
  | [] => overBudget a = []
  | b :: _ =>
      map title (overBudget a) = ["Over Budget: " ++ flag_category b]%string
      /\ map impact (overBudget a) =
         [min (flag_overBy b) (mul (flag_amount b) (Fin 0.25))]
      /\ forall b', In b' (budgetFlags a) ->
                    ge (flag_overBy b) (flag_overBy b') = true
  end.
Proof.
  intros a.
  destruct (WorstFacts.flags_sorted monthKey expenses budgets month)
    as [Hs Hf].
  fold a in Hs, Hf. unfold overBudget.
  destruct (budgetFlags a) as [|b fl]; [reflexivity|].
  split; [reflexivity|]. split; [reflexivity|].
  intros b' [<-|Hb'].
  - inversion Hf as [|? ? Hb _]; subst.
    destruct (flag_overBy b) as [r|]; [|contradiction].
    apply NumFacts.ge_true. exists r, r. repeat split. apply Rle_refl.
  - apply OrderFacts.strongly in Hs. inversion Hs as [|? ? _ Hall]; subst.
    rewrite Forall_forall in Hall. now apply Hall.
Qed.

(** ** The properties on a small book

    A coffee and a shop in March 2024, five coffees and a dinner, and a
    subscription paid three months in a row. *)

Section SmallBook.

Local Open Scope string_scope.
Local Open Scope R_scope.

Local Abbreviation lunches :=
  [expense "2024-03-11" (Fin 10) "Dining" "Cafe" false;
   expense "2024-03-12" (Fin 30) "Groceries" "Mart" true].

Local Abbreviation bistro :=
  (expense "2024-03-16" (Fin 70) "Dining" "Bistro" false).

Local Abbreviation netflix :=
  [expense "2024-01-05" (Fin 999) "Entertainment" "Netflix" false;
   expense "2024-02-05" (Fin 999) "Entertainment" "Netflix" false;
   expense "2024-03-05" (Fin 999) "Entertainment" "Netflix" false].

Local Abbreviation page :=
  {| data_expenses := lunches; data_categories := DEFAULT_CATEGORIES;
     data_budgets := [("Dining", Fin 5)] |}.

Lemma top_merchants_are_largest_witness :
  let a := analyze isoMonthKey lunches [] "2024-03" in
  (forall t, In t (topMerchants a) ->
     mer_amount t = spentAt isoMonthKey lunches "2024-03" (mer_merchant t))
  /\ (forall m, In m (map merchant (inMonth a)) ->
        In m (map mer_merchant (topMerchants a))
        \/ forall t, In t (topMerchants a) ->
             ge (mer_amount t) (spentAt isoMonthKey lunches "2024-03" m)
             = true).
Proof.
  apply (top_merchants_are_largest isoMonthKey lunches [] "2024-03").
  - whole [10; 30]%Z.
  - numbers.
Defined.

Lemma top_category_is_largest_witness :
  ge (Fin (0 + 30)) (spent isoMonthKey lunches "2024-03" "Dining") = true.
Proof.
  refine (proj2 (@top_category_is_largest isoMonthKey lunches [] "2024-03" _ _
                   {| cat_category := "Groceries"; cat_amount := Fin (0 + 30) |}
                   [ {| cat_category := "Dining"; cat_amount := Fin (0 + 10) |} ]
                   _) "Dining" _).
  - whole [10; 30]%Z.
  - numbers.
  - unfold analyze. js_eval. reflexivity.
  - unfold analyze. cbn. auto.
Defined.


Lemma total_consistent_on_numbers_witness :
  let a := analyze isoMonthKey lunches [] "2024-03" in
  total a = sum (map cat_amount (catArr a))
  /\ total a = add (needs (wantsNeeds a)) (want (wantsNeeds a)).
Proof.
  apply (Positive.total_consistent_on_numbers isoMonthKey lunches []
           "2024-03").
  - whole [10; 30]%Z.
  - numbers.
Defined.

Lemma totals_sorted_on_numbers_witness :
  let a := analyze isoMonthKey lunches [] "2024-03" in
  nonIncreasing cat_amount (catArr a)
  /\ nonIncreasing mer_amount (topMerchants a).
Proof.
  apply (Positive.totals_sorted_on_numbers isoMonthKey lunches []
           "2024-03"); numbers.
Defined.

Lemma budget_flags_exact_on_numbers_witness :
  let budgets := [("Dining", Fin 5)] in
  let a := analyze isoMonthKey lunches budgets "2024-03" in
  (forall c, In c (map flag_category (budgetFlags a)) <->
             gt (budgetOf budgets c) (Fin 0) = true
             /\ gt (spent isoMonthKey lunches "2024-03" c)
                   (budgetOf budgets c) = true)
  /\ (forall f, In f (budgetFlags a) ->
        flag_amount f = spent isoMonthKey lunches "2024-03" (flag_category f)
        /\ flag_budget f = budgetOf budgets (flag_category f)
        /\ flag_overBy f = max (Fin 0) (sub (flag_amount f) (flag_budget f))
        /\ flag_overBy f = sub (flag_amount f) (flag_budget f)).
Proof.
  apply (Positive.budget_flags_exact_on_numbers isoMonthKey lunches
           [("Dining", Fin 5)] "2024-03").
  - whole [10; 30]%Z.
  - intros c b H.
    change (get [("Dining", Fin 5)] c)
      with (if String.eqb "Dining" c then Some (Fin 5) else @None num) in H.
    destruct (String.eqb "Dining" c); [|discriminate H].
    injection H as <-. exists 5%Z. split; [|reflexivity].
    split; [lia|]. vm_compute. discriminate.
  - numbers.
Defined.

Lemma suggestions_sorted_on_numbers_witness :
  nonIncreasing impact
    (suggestions (analyze isoMonthKey coffees [] "2024-03")).
Proof.
  apply (Positive.suggestions_sorted_on_numbers isoMonthKey coffees []
           "2024-03"); unfold coffees; numbers.
Defined.

Lemma zero_total_without_wants_witness :
  trimWants (analyze isoMonthKey
               [expense "2024-03-11" (Fin 0) "Dining" "Cafe" false]
               [] "2024-03") = [].
Proof.
  apply (Positive.zero_total_without_wants isoMonthKey
           [expense "2024-03-11" (Fin 0) "Dining" "Cafe" false] []
           "2024-03").
  - intros e [<-|[]]. simpl. lra.
  - unfold analyze. js_eval. f_equal. lra.
Defined.

Lemma set_budget_touches_one_category_witness :
  let next := setBudget true "Dining" "" page in
  let flagged d c :=
    In c (map flag_category
            (budgetFlags (analyze isoMonthKey (data_expenses d)
                                  (data_budgets d) "2024-03"))) in
  isFin (budgetOf (data_budgets next) "Dining")
  /\ (forall c, c <> "Dining" ->
        budgetOf (data_budgets next) c = budgetOf (data_budgets page) c)
  /\ (forall c, c <> "Dining" -> (flagged next c <-> flagged page c))
  /\ ("" = "" ->
      budgetOf (data_budgets next) "Dining" = Fin 0
      /\ ~ flagged next "Dining")
  /\ NoDup (map fst (data_budgets next)).
Proof.
  apply (set_budget_touches_one_category isoMonthKey page "Dining" ""
           "2024-03").
  simpl. repeat constructor. intros [].
Defined.

Lemma default_filters_show_all_witness :
  filteredRows asciiLower (analyze isoMonthKey lunches [] "2024-03")
    {| filter_q := ""; filter_cat := "All"; filter_need := "All" |}
  = inMonth (analyze isoMonthKey lunches [] "2024-03").
Proof.
  apply (default_filters_show_all asciiLower). reflexivity.
Defined.

Lemma add_then_delete_witness :
  let e := {| id := "7"; date := "2024-03-20"; amount := Fin 45;
              category := "Transport"; merchant := "Metro"; note := "";
              need := true |} in
  let s := loadData lunches DEFAULT_CATEGORIES [("Dining", Fin 5)] in
  let s' := deleteExpenseStep true "7" (addExpenseStep (Some e) s) in
  state s' = state s /\ cache s' = cache s
  /\ shared s' = false.
Proof.
  apply (@add_then_delete
           (loadData lunches DEFAULT_CATEGORIES [("Dining", Fin 5)])
           {| id := "7"; date := "2024-03-20"; amount := Fin 45;
              category := "Transport"; merchant := "Metro"; note := "";
              need := true |});
    simpl; intros [H|[H|[]]]; discriminate H.
Defined.

Lemma add_expense_enters_analysis_witness :
  let e := {| id := "7"; date := "2024-03-20"; amount := Fin 45;
              category := "Transport"; merchant := "Metro"; note := "";
              need := true |} in
  let s := loadData lunches DEFAULT_CATEGORIES [("Dining", Fin 5)] in
  let next := addExpenseStep (Some e) s in
  let before :=
    analyze isoMonthKey (data_expenses (state s))
            (data_budgets (state s)) "2024-03" in
  let after :=
    analyze isoMonthKey (data_expenses (state next))
            (data_budgets (state next)) "2024-03" in
  inMonth after = ((if shared s then [e; e] else [e]) ++ inMonth before)%list
  /\ total after =
     add (total before)
         (if shared s then add (amount e) (amount e) else amount e).
Proof.
  apply (@add_expense_enters_analysis isoMonthKey
           (loadData lunches DEFAULT_CATEGORIES [("Dining", Fin 5)])
           {| id := "7"; date := "2024-03-20"; amount := Fin 45;
              category := "Transport"; merchant := "Metro"; note := "";
              need := true |} "2024-03").
  - reflexivity.
  - whole [45; 45; 10; 30]%Z.
Defined.

Lemma delete_expense_leaves_analysis_witness :
  let next := deleteExpense true "" page in
  let before :=
    analyze isoMonthKey (data_expenses page) (data_budgets page) "2024-03" in
  let after :=
    analyze isoMonthKey (data_expenses next) (data_budgets next) "2024-03" in
  ~ In "" (map id (data_expenses next))
  /\ inMonth after =
     filter (fun e => negb (String.eqb (id e) "")) (inMonth before)
  /\ total before =
     add (total after)
         (sum (map amount
                 (filter (fun e => String.eqb (id e) "") (inMonth before)))).
Proof.
  apply (delete_expense_leaves_analysis isoMonthKey page "" "2024-03").
  numbers.
Defined.

Lemma empty_month_witness :
  let a := analyze isoMonthKey lunches [] "2024-04" in
  inMonth a = [] /\ total a = Fin 0 /\ catArr a = [] /\ topMerchants a = []
  /\ wantsNeeds a = {| want := Fin 0; needs := Fin 0 |}
  /\ budgetFlags a = [] /\ smallDrains a = [] /\ outliers a = []
  /\ recurring a = detectRecurring isoMonthKey lunches
  /\ suggestions a = recurringCharge a.
Proof.
  apply (@empty_month isoMonthKey lunches [] "2024-04").
  intros e [<-|[<-|[]]]; discriminate.
Defined.

Lemma shares_add_up_witness :
  let a := analyze isoMonthKey lunches [] "2024-03" in
  add (share a (needs (wantsNeeds a))) (share a (want (wantsNeeds a)))
    = Fin 100
  /\ sum (map (fun c => share a (cat_amount c)) (catArr a)) = Fin 100
  /\ share a (want (wantsNeeds a)) = wantRatio a.
Proof.
  apply (@shares_add_up isoMonthKey lunches [] "2024-03").
  - numbers.
  - numbers.
  - unfold analyze. js_eval; intros H; injection H; lra.
Defined.



Lemma small_drains_exact_witness :
  let a := analyze isoMonthKey coffees [] "2024-03" in
  (forall d, In d (smallDrains a) <->
     (5 <= smallCount isoMonthKey coffees "2024-03" (drain_merchant d))%nat
     /\ drain_count d =
        ofNat (smallCount isoMonthKey coffees "2024-03" (drain_merchant d)))
  /\ NoDup (map drain_merchant (smallDrains a)).
Proof.
  apply (@small_drains_exact isoMonthKey coffees [] "2024-03").
  unfold coffees. numbers.
Defined.

Lemma delete_request_names_the_row_witness :
  deleteRequest
    (id (convertAPIExpenseToFrontend
           {| ae_id := 42; ae_user_id := 1; ae_date := "2024-03-20";
              ae_amount := Fin 45; ae_category := "Transport";
              ae_merchant := "Metro"; ae_note := ""; ae_need := true;
              ae_created_at := "2024-03-20T10:00:00";
              ae_updated_at := None |}))
  = Fin (IZR (Z.of_nat 42)).
Proof.
  apply (delete_request_names_the_row
           {| ae_id := 42; ae_user_id := 1; ae_date := "2024-03-20";
              ae_amount := Fin 45; ae_category := "Transport";
              ae_merchant := "Metro"; ae_note := ""; ae_need := true;
              ae_created_at := "2024-03-20T10:00:00";
              ae_updated_at := None |}).
  reflexivity.
Defined.

End SmallBook.
